(** * PaperCrypt: the [qr] and [generate] commands

    A shallow embedding of [cmd/qr.go] (version sniffing and dispatch of a
    QR payload) and of [cmd/generate.go] (the encode path of the command
    line), together with the parts of the Go standard library the two
    commands lean on: [strings], [strconv.ParseInt], the [encoding/json]
    scanner and its rules for storing a JSON value into a Go struct.

    Go strings and byte slices are modelled as [string] (a list of 8-bit
    characters).  Go's [error] values are modelled by the inductive type
    [error]; [errors.Join] and [errors.New] are constructors of it.

    A command is a function from the state of the machine to an outcome
    and a new state (module [Prog]): [RunE] either returns [nil] or an
    error, [Run] either returns or leaves through [os.Exit].  The state
    carries the log of what the command did, in order.  What lies outside
    the two files (the packages [internal] and [util], the image and QR
    decoders, the clock, the entropy source, the encryption) is gathered
    in a record [Env] per command, and every property is proved for every
    such environment. *)

From Stdlib Require Import ZArith NArith Ascii String List Bool Lia.
From stdpp Require Import base option list gmap strings pretty.

Set Warnings "-register-all".

Local Open Scope string_scope.
Local Open Scope N_scope.

(** ** Go runtime: errors, results, [strings], [strconv] *)
Module Go.

Inductive num_error_kind := ErrSyntax | ErrRange.

(** The [error] values the two commands can see. *)
Inductive error :=
| New (msg : string)                              (* errors.New *)
| Join (e1 e2 : error)                            (* errors.Join(e1, e2) *)
| SyntaxError (msg : string)                      (* *json.SyntaxError *)
| UnmarshalTypeError (value gotype : string)      (* *json.UnmarshalTypeError *)
| NumError (func num : string) (kind : num_error_kind) (* *strconv.NumError *)
| EOF                                             (* io.EOF *)
| Foreign (msg : string).                         (* any error of a collaborator *)

(** A Go pair [(value, err)] whose value is only used when [err == nil]. *)
Inductive result (A : Type) :=
| Ok (a : A)
| Err (e : error).
Arguments Ok {A} a.
Arguments Err {A} e.

Definition is_ok {A} (r : result A) : bool :=
  match r with Ok _ => true | Err _ => false end.

Definition code (c : ascii) : N := N_of_ascii c.

Definition in_range (lo hi : N) (c : ascii) : bool :=
  (lo <=? code c) && (code c <=? hi).

Definition LF : ascii := "010"%char.
Definition CR : ascii := "013"%char.
Definition TAB : ascii := "009"%char.
Definition DQUOTE : ascii := "034"%char.
Definition BACKSLASH : ascii := "092"%char.

(** [strings.HasPrefix] *)
Fixpoint HasPrefix (s p : string) : bool :=
  match p, s with
  | EmptyString, _ => true
  | String a p', String b s' => Ascii.eqb a b && HasPrefix s' p'
  | String _ _, EmptyString => false
  end.

Fixpoint drop (n : nat) (s : string) : string :=
  match n, s with
  | O, _ => s
  | S n', String _ s' => drop n' s'
  | S _, EmptyString => EmptyString
  end.

(** [strings.TrimPrefix] *)
Definition TrimPrefix (s p : string) : string :=
  if HasPrefix s p then drop (String.length p) s else s.

(** [strings.Split(s, sep)] for a one-character separator: the pieces of
    [s] between the separators, one more than there are separators. *)
Fixpoint Split (s : string) (sep : ascii) : list string :=
  match s with
  | EmptyString => [EmptyString]
  | String c s' =>
      if Ascii.eqb c sep then EmptyString :: Split s' sep
      else
        match Split s' sep with
        | piece :: pieces => String c piece :: pieces
        | [] => [String c EmptyString]
        end
  end.

(** [strings.ReplaceAll(s, old, new)] for a one-character [old]. *)
Fixpoint ReplaceAll (s : string) (old : ascii) (new : string) : string :=
  match s with
  | EmptyString => EmptyString
  | String c s' =>
      if Ascii.eqb c old then new ++ ReplaceAll s' old new
      else String c (ReplaceAll s' old new)
  end.

(** What the digits loop of [strconv.ParseUint] comes to. *)
Inductive digits :=
| Digits (un : Z)   (* every character was a digit *)
| BadSyntax         (* a character that is no digit *)
| OutOfRange.       (* the value passed [maxVal] *)

(** The digits loop of [strconv.ParseUint] in base 10, character by
    character: one that is no decimal digit is a syntax error (an
    underscore is only legal in base 0), a value above [maxVal] is a
    range error, and the loop stops at the first of the two it meets. *)
Fixpoint digits10 (s : string) (acc maxVal : Z) : digits :=
  match s with
  | EmptyString => Digits acc
  | String c s' =>
      if in_range 48 57 c
      then
        let n1 := (10 * acc + Z.of_N (code c - 48))%Z in
        if (maxVal <? n1)%Z then OutOfRange else digits10 s' n1 maxVal
      else BadSyntax
  end.

(** [strconv.ParseInt(s, 10, bitSize)]: an optional sign, at least one
    digit, only digits, and a value from [-2^(bitSize-1)] to
    [2^(bitSize-1) - 1].  After a range error of [ParseUint] the value
    is [maxVal], which the checks of [ParseInt] then refuse. *)
Definition ParseInt (s : string) (bitSize : Z) : result Z :=
  let syntax := Err (NumError "ParseInt" s ErrSyntax) in
  let cutoff := (2 ^ (bitSize - 1))%Z in
  let maxVal := (2 ^ bitSize - 1)%Z in
  match s with
  | EmptyString => syntax
  | String c s' =>
      let neg := Ascii.eqb c "-" in
      let body := if Ascii.eqb c "+" || neg then s' else s in
      match body with
      | EmptyString => syntax
      | _ =>
          match digits10 body 0%Z maxVal with
          | BadSyntax => syntax
          | parsed =>
              let un := match parsed with Digits un => un | _ => maxVal end in
              if (if neg then (cutoff <? un)%Z else (cutoff <=? un)%Z)
              then Err (NumError "ParseInt" s ErrRange)
              else Ok (if neg then (- un)%Z else un)
          end
      end
  end.

(** The conversion [uint32(x)] of an [int64]: the low 32 bits. *)
Definition uint32 (x : Z) : Z := (x mod 4294967296)%Z.

End Go.

(** ** [encoding/json]: values, scanner, and storing into Go variables *)
Module Json.
Import Go.

(** A syntactically valid JSON text.  Object members are kept in source
    order with their duplicates, the way the decoder walks them; a number
    keeps its literal. *)
Inductive json :=
| JNull
| JBool (b : bool)
| JNumber (lit : string)
| JString (s : string)
| JArray (elems : list json)
| JObject (members : list (string * json)).

(** *** Scanner *)

Definition isSpace (c : ascii) : bool :=
  Ascii.eqb c " " || Ascii.eqb c TAB || Ascii.eqb c CR || Ascii.eqb c LF.

Fixpoint skip_space (s : string) : string :=
  match s with
  | String c s' => if isSpace c then skip_space s' else s
  | EmptyString => s
  end.

Definition isDigit (c : ascii) : bool := in_range 48 57 c.

Definition hex_value (c : ascii) : option N :=
  if in_range 48 57 c then Some (code c - 48)
  else if in_range 97 102 c then Some (code c - 87)
  else if in_range 65 70 c then Some (code c - 55)
  else None.

(** [getu4] without its two-character prefix: four hexadecimal digits. *)
Definition hex4 (s : string) : option (N * string) :=
  match s with
  | String a (String b (String c (String d rest))) =>
      match hex_value a, hex_value b, hex_value c, hex_value d with
      | Some x, Some y, Some z, Some w => Some (((x * 16 + y) * 16 + z) * 16 + w, rest)
      | _, _, _, _ => None
      end
  | _ => None
  end.

Definition byte (n : N) : ascii := ascii_of_N n.

Definition replacement_char : string :=
  String (byte 239) (String (byte 191) (String (byte 189) EmptyString)).

(** [utf8.EncodeRune] *)
Definition EncodeRune (r : N) : string :=
  if r <=? 127 then String (byte r) EmptyString
  else if r <=? 2047 then
    String (byte (192 + r / 64)) (String (byte (128 + r mod 64)) EmptyString)
  else if ((55296 <=? r) && (r <=? 57343)) || (1114111 <? r) then replacement_char
  else if r <=? 65535 then
    String (byte (224 + r / 4096))
      (String (byte (128 + (r / 64) mod 64)) (String (byte (128 + r mod 64)) EmptyString))
  else
    String (byte (240 + r / 262144))
      (String (byte (128 + (r / 4096) mod 64))
         (String (byte (128 + (r / 64) mod 64)) (String (byte (128 + r mod 64)) EmptyString))).

Definition is_cont (c : ascii) : bool := in_range 128 191 c.

(** The size [utf8.DecodeRune] reports for a well-formed encoding at the
    head of [s]; [None] where it reports [(RuneError, 1)].  [s] starts
    with a byte of 0x80 or more. *)
Definition utf8_size (s : string) : option nat :=
  match s with
  | String a (String b rest) =>
      if in_range 194 223 a then (if is_cont b then Some 2%nat else None)
      else
        match rest with
        | String c rest' =>
            let second_ok :=
              if code a =? 224 then in_range 160 191 b
              else if code a =? 237 then in_range 128 159 b
              else if code a =? 240 then in_range 144 191 b
              else if code a =? 244 then in_range 128 143 b
              else is_cont b in
            if in_range 224 239 a then
              (if second_ok && is_cont c then Some 3%nat else None)
            else if in_range 240 244 a then
              match rest' with
              | String d _ =>
                  if second_ok && is_cont c && is_cont d then Some 4%nat else None
              | EmptyString => None
              end
            else None
        | EmptyString => None
        end
  | _ => None
  end.

Fixpoint take (n : nat) (s : string) : string :=
  match n, s with
  | S n', String c s' => String c (take n' s')
  | _, _ => EmptyString
  end.

(** The escapes of one character the scanner accepts after a backslash. *)
Definition simple_escape (c : ascii) : option ascii :=
  if Ascii.eqb c DQUOTE then Some DQUOTE
  else if Ascii.eqb c BACKSLASH then Some BACKSLASH
  else if Ascii.eqb c "/" then Some "/"%char
  else if Ascii.eqb c "b" then Some "008"%char
  else if Ascii.eqb c "f" then Some "012"%char
  else if Ascii.eqb c "n" then Some LF
  else if Ascii.eqb c "r" then Some CR
  else if Ascii.eqb c "t" then Some TAB
  else None.

Definition is_surrogate (r : N) : bool := (55296 <=? r) && (r <? 57344).

(** [utf16.DecodeRune] of a surrogate [r1] and the escape that follows
    it, if any: the decoded rune and the text after the pair. *)
Definition decode_pair (r1 : N) (s : string) : option (N * string) :=
  match s with
  | String b (String u s') =>
      if Ascii.eqb b BACKSLASH && Ascii.eqb u "u" then
        match hex4 s' with
        | Some (r2, rest) =>
            if (r1 <? 56320) && (56320 <=? r2) && (r2 <? 57344)
            then Some ((r1 - 55296) * 1024 + (r2 - 56320) + 65536, rest)
            else None
        | None => None
        end
      else None
  | _ => None
  end.

(** A string literal after its opening quote: the scanner's
    [stateInString] and [unquoteBytes] in one pass.  Returns the decoded
    text and what follows the closing quote. *)
Fixpoint scan_string (fuel : nat) (s : string) : option (string * string) :=
  match fuel with
  | O => None
  | S fuel' =>
      match s with
      | EmptyString => None
      | String c s' =>
          if Ascii.eqb c DQUOTE then Some (EmptyString, s')
          else if Ascii.eqb c BACKSLASH then
            match s' with
            | EmptyString => None
            | String e s'' =>
                match simple_escape e with
                | Some ch =>
                    '(t, rest) ← scan_string fuel' s''; Some (String ch t, rest)
                | None =>
                    if Ascii.eqb e "u" then
                      '(r, after) ← hex4 s'';
                      if is_surrogate r then
                        match decode_pair r after with
                        | Some (r', after') =>
                            '(t, rest) ← scan_string fuel' after';
                            Some (EncodeRune r' ++ t, rest)
                        | None =>
                            '(t, rest) ← scan_string fuel' after;
                            Some (replacement_char ++ t, rest)
                        end
                      else
                        '(t, rest) ← scan_string fuel' after;
                        Some (EncodeRune r ++ t, rest)
                    else None
                end
            end
          else if code c <? 32 then None
          else if code c <? 128 then
            '(t, rest) ← scan_string fuel' s'; Some (String c t, rest)
          else
            match utf8_size s with
            | Some n =>
                '(t, rest) ← scan_string fuel' (drop n s); Some (take n s ++ t, rest)
            | None =>
                '(t, rest) ← scan_string fuel' s'; Some (replacement_char ++ t, rest)
            end
      end
  end.

Fixpoint span_digits (s : string) : string * string :=
  match s with
  | String c s' =>
      if isDigit c then let '(d, r) := span_digits s' in (String c d, r)
      else (EmptyString, s)
  | EmptyString => (EmptyString, EmptyString)
  end.

(** A number literal: an optional minus sign; a zero, or a digit from 1
    to 9 and any digits; optionally a dot and digits; optionally an
    exponent mark, a sign and digits. *)
Definition scan_number (s : string) : option (string * string) :=
  let '(sign, s1) :=
    match s with
    | String c s' => if Ascii.eqb c "-" then ("-", s') else (EmptyString, s)
    | EmptyString => (EmptyString, s)
    end in
  '(int, s2) ←
    match s1 with
    | String c s' =>
        if Ascii.eqb c "0" then Some ("0", s')
        else if in_range 49 57 c then Some (span_digits s1)
        else None
    | EmptyString => None
    end;
  '(frac, s3) ←
    match s2 with
    | String c s' =>
        if Ascii.eqb c "." then
          let '(d, r) := span_digits s' in
          match d with EmptyString => None | _ => Some (String c d, r) end
        else Some (EmptyString, s2)
    | EmptyString => Some (EmptyString, s2)
    end;
  '(exp, s4) ←
    match s3 with
    | String c s' =>
        if Ascii.eqb c "e" || Ascii.eqb c "E" then
          let '(sg, s'') :=
            match s' with
            | String g r => if Ascii.eqb g "+" || Ascii.eqb g "-"
                            then (String g EmptyString, r) else (EmptyString, s')
            | EmptyString => (EmptyString, s')
            end in
          let '(d, r) := span_digits s'' in
          match d with EmptyString => None | _ => Some (String c (sg ++ d), r) end
        else Some (EmptyString, s3)
    | EmptyString => Some (EmptyString, s3)
    end;
  Some (sign ++ int ++ frac ++ exp, s4).

(** The scanner refuses a text nested deeper than this. *)
Definition maxNestingDepth : N := 10000.

(** One JSON value at the head of [s] (after white space), and the text
    that follows it.  [depth] counts the enclosing arrays and objects. *)
Fixpoint scan_value (fuel : nat) (depth : N) (s : string) : option (json * string) :=
  match fuel with
  | O => None
  | S fuel' =>
      match skip_space s with
      | EmptyString => None
      | String c s' =>
          if Ascii.eqb c "{" then
            if maxNestingDepth <? depth + 1 then None else
            match skip_space s' with
            | String c' s'' =>
                if Ascii.eqb c' "}" then Some (JObject [], s'')
                else '(ms, rest) ← scan_members fuel' (depth + 1) s'; Some (JObject ms, rest)
            | EmptyString => None
            end
          else if Ascii.eqb c "[" then
            if maxNestingDepth <? depth + 1 then None else
            match skip_space s' with
            | String c' s'' =>
                if Ascii.eqb c' "]" then Some (JArray [], s'')
                else '(vs, rest) ← scan_elements fuel' (depth + 1) s'; Some (JArray vs, rest)
            | EmptyString => None
            end
          else if Ascii.eqb c DQUOTE then
            '(t, rest) ← scan_string (S (String.length s')) s'; Some (JString t, rest)
          else if Ascii.eqb c "-" || isDigit c then
            '(lit, rest) ← scan_number (String c s'); Some (JNumber lit, rest)
          else if HasPrefix (String c s') "true" then Some (JBool true, drop 4 (String c s'))
          else if HasPrefix (String c s') "false" then Some (JBool false, drop 5 (String c s'))
          else if HasPrefix (String c s') "null" then Some (JNull, drop 4 (String c s'))
          else None
      end
  end
with scan_members (fuel : nat) (depth : N) (s : string)
  : option (list (string * json) * string) :=
  match fuel with
  | O => None
  | S fuel' =>
      match skip_space s with
      | String q s1 =>
          if Ascii.eqb q DQUOTE then
            '(key, s2) ← scan_string (S (String.length s1)) s1;
            match skip_space s2 with
            | String colon s3 =>
                if Ascii.eqb colon ":" then
                  '(v, s4) ← scan_value fuel' depth s3;
                  match skip_space s4 with
                  | String sep s5 =>
                      if Ascii.eqb sep "," then
                        '(ms, rest) ← scan_members fuel' depth s5; Some ((key, v) :: ms, rest)
                      else if Ascii.eqb sep "}" then Some ([(key, v)], s5)
                      else None
                  | EmptyString => None
                  end
                else None
            | EmptyString => None
            end
          else None
      | EmptyString => None
      end
  end
with scan_elements (fuel : nat) (depth : N) (s : string) : option (list json * string) :=
  match fuel with
  | O => None
  | S fuel' =>
      '(v, s1) ← scan_value fuel' depth s;
      match skip_space s1 with
      | String sep s2 =>
          if Ascii.eqb sep "," then
            '(vs, rest) ← scan_elements fuel' depth s2; Some (v :: vs, rest)
          else if Ascii.eqb sep "]" then Some ([v], s2)
          else None
      | EmptyString => None
      end
  end.

Definition scan_fuel (data : string) : nat := S (S (2 * String.length data)).

(** [checkValid]: the whole of [data] is one JSON value between white
    space. *)
Definition checkValid (data : string) : option json :=
  '(v, rest) ← scan_value (scan_fuel data) 0 data;
  match skip_space rest with
  | EmptyString => Some v
  | String _ _ => None
  end.

(** What a [json.Decoder] reads from a stream on its first [Decode]: the
    first value, whatever follows it. *)
Definition first_value (data : string) : option json :=
  fst <$> scan_value (scan_fuel data) 0 data.

(** *** Decoder *)

(** [d.saveError]: the earliest error is the one reported. *)
Definition saveError (saved : option error) (e : error) : option error :=
  match saved with
  | Some _ => saved
  | None => Some e
  end.

(** The [Value] of an [UnmarshalTypeError]. *)
Definition kind_name (v : json) : string :=
  match v with
  | JNull => "null"
  | JBool _ => "bool"
  | JNumber _ => "number"
  | JString _ => "string"
  | JArray _ => "array"
  | JObject _ => "object"
  end.

(** A Go type [json.Unmarshal] can store into: its zero value, the name
    the error messages print, and [d.value] on a variable of the type.
    [store v cur saved] is the variable after the store and the saved
    error: a value of the wrong kind leaves the variable as it was and
    saves an [UnmarshalTypeError], and decoding goes on. *)
Class Target (T : Type) := {
  zero : T;
  type_name : string;
  store : json -> T -> option error -> T * option error
}.

(** [literalStore] into a Go [string]: a JSON string is assigned, [null]
    is ignored, anything else is a type error. *)
#[export] Instance string_target : Target string := {|
  zero := EmptyString;
  type_name := "string";
  store v cur saved :=
    match v with
    | JString s => (s, saved)
    | JNull => (cur, saved)
    | _ => (cur, saveError saved (UnmarshalTypeError (kind_name v) "string"))
    end
|}.

Definition upper (c : ascii) : ascii :=
  if in_range 97 122 c then byte (code c - 32) else c.

(** [foldName]: ASCII letters in upper case; the long s (U+017F) and the
    Kelvin sign (U+212A) fold to S and K.  Every other rune outside ASCII
    folds to a rune outside ASCII, whose bytes are left as they are here:
    that agrees with Go wherever the result is compared with the folded
    name of an ASCII field. *)
Fixpoint foldName (s : string) : string :=
  match s with
  | EmptyString => EmptyString
  | String a s1 =>
      match s1 with
      | String b s2 =>
          if (code a =? 197) && (code b =? 191) then String "S" (foldName s2)
          else
            match s2 with
            | String c s3 =>
                if (code a =? 226) && (code b =? 132) && (code c =? 170)
                then String "K" (foldName s3)
                else String (upper a) (foldName s1)
            | EmptyString => String (upper a) (foldName s1)
            end
      | EmptyString => String (upper a) EmptyString
      end
  end.

(** The field an object key selects: an exact match of the name, or else
    a match of the folded names. *)
Definition matchesField (name key : string) : bool :=
  String.eqb key name || String.eqb (foldName key) (foldName name).

(** [d.object] into a struct: the members are visited in order, each one
    stored by [assign] (which ignores the keys that select no field). *)
Definition store_object {T} (assign : string -> json -> T -> option error -> T * option error)
    (members : list (string * json)) (cur : T) (saved : option error) : T * option error :=
  fold_left (fun st m => assign (fst m) (snd m) (fst st) (snd st)) members (cur, saved).

(** [d.value] into a struct: an object is stored member by member, [null]
    is ignored, anything else is a type error. *)
Definition store_struct {T} (gotype : string)
    (assign : string -> json -> T -> option error -> T * option error)
    (v : json) (cur : T) (saved : option error) : T * option error :=
  match v with
  | JObject members => store_object assign members cur saved
  | JNull => (cur, saved)
  | _ => (cur, saveError saved (UnmarshalTypeError (kind_name v) gotype))
  end.

(** [json.Unmarshal(data, &x)] for a fresh [x]: the syntax check first,
    then the store; the saved error, if any, is the result.  A
    [*json.SyntaxError] is kept as its kind: one text stands for the
    message and the offset the scanner reports. *)
Definition Unmarshal {T} `{Target T} (data : string) : result T :=
  match checkValid data with
  | None => Err (SyntaxError "invalid JSON input")
  | Some v =>
      match store v zero None with
      | (x, None) => Ok x
      | (_, Some e) => Err e
      end
  end.

End Json.

(** ** Programs: a state and abort monad for the two commands *)
Module Prog.

Inductive outcome (E A : Type) :=
| Done (a : A)
| Abort (e : E).
Arguments Done {E A} a.
Arguments Abort {E A} e.

(** A command over a world [W] that either runs on with a value or stops
    at once with an [E] (the [error] a [RunE] returns, or the status of
    an [os.Exit]). *)
Definition prog (W E A : Type) : Type := W -> outcome E A * W.

Definition ret {W E A} (a : A) : prog W E A := fun w => (Done a, w).

Definition bind {W E A B} (m : prog W E A) (k : A -> prog W E B) : prog W E B :=
  fun w =>
    match m w with
    | (Done a, w') => k a w'
    | (Abort e, w') => (Abort e, w')
    end.

Definition abort {W E A} (e : E) : prog W E A := fun w => (Abort e, w).

Definition get {W E} : prog W E W := fun w => (Done w, w).

Definition modify {W E} (f : W -> W) : prog W E unit := fun w => (Done tt, f w).

#[export] Instance prog_ret {W E} : MRet (prog W E) := @ret W E.
#[export] Instance prog_bind {W E} : MBind (prog W E) := fun A B k m => bind m k.

End Prog.

(** ** [cmd/qr.go]: decoding a document from a QR code *)
Module Qr.
Import Go Json Prog.

(** [Version] should contain the semver version of PaperCrypt used to
    generate the document. *)
Record versionContainer := { Version : string }.

(** [Data] should contain the document data. *)
Record dataContainer := { Data : string }.

(** [Data] nested in a [Data] object, for backwards compatibility with
    PaperCrypt v1. *)
Record dataContainerV1 := { DataV1 : dataContainer }.

(** The fields of the three containers, as [d.object] assigns them. *)
Definition assign_Version (key : string) (v : json) (cur : versionContainer)
    (saved : option error) : versionContainer * option error :=
  if matchesField "Version" key
  then let '(s, saved') := store v (Version cur) saved in ({| Version := s |}, saved')
  else (cur, saved).

Definition assign_Data (key : string) (v : json) (cur : dataContainer)
    (saved : option error) : dataContainer * option error :=
  if matchesField "Data" key
  then let '(s, saved') := store v (Data cur) saved in ({| Data := s |}, saved')
  else (cur, saved).

#[export] Instance versionContainer_target : Target versionContainer := {|
  zero := {| Version := EmptyString |};
  type_name := "cmd.versionContainer";
  store := store_struct "cmd.versionContainer" assign_Version
|}.

#[export] Instance dataContainer_target : Target dataContainer := {|
  zero := {| Data := EmptyString |};
  type_name := "cmd.dataContainer";
  store := store_struct "cmd.dataContainer" assign_Data
|}.

Definition assign_DataV1 (key : string) (v : json) (cur : dataContainerV1)
    (saved : option error) : dataContainerV1 * option error :=
  if matchesField "Data" key
  then let '(d, saved') := store v (DataV1 cur) saved in ({| DataV1 := d |}, saved')
  else (cur, saved).

#[export] Instance dataContainerV1_target : Target dataContainerV1 := {|
  zero := {| DataV1 := zero |};
  type_name := "cmd.dataContainerV1";
  store := store_struct "cmd.dataContainerV1" assign_DataV1
|}.

(** The package variables the flags and arguments set. *)
Record Flags := {
  inFileName : string;
  outFileName : string;
  overrideOutFile : bool;
  qrCmdFromJSON : bool;
  qrCmdToJSON : bool
}.

(** The collaborators of the command that live outside [cmd/qr.go]: the
    [internal] package (file helpers, the two document types with their
    JSON layout and [GetText]), the image decoder and the QR reader. *)
Record Env := {
  File : Type;
  Image : Type;
  Bitmap : Type;
  QRResult : Type;
  OutFile : Type;
  PaperCryptV1 : Type;
  PaperCrypt : Type;
  PrintInputAndGetReader : string -> result File;
  ReadAll : File -> string * option error;
  image_Decode : File -> result Image;
  Close : File -> option error;
  NewBinaryBitmapFromImage : Image -> result Bitmap;
  qrReader_Decode : Bitmap -> result QRResult;
  GetText : QRResult -> string;
  GetFileHandleCarefully : string -> bool -> result OutFile;
  Write : OutFile -> string -> result nat;
  PaperCryptV1_target : Target PaperCryptV1;
  PaperCrypt_target : Target PaperCrypt;
  PaperCryptV1_GetText : PaperCryptV1 -> bool -> result string;
  PaperCrypt_GetText : PaperCrypt -> bool -> result string
}.

(** What a run does that can be seen from outside, in order. *)
Inductive event :=
| EvUnmarshal (gotype : string) (data : string)   (* json.Unmarshal(data, &x), x of type gotype *)
| EvWrite (data : string)                         (* outFile.Write(data) *)
| EvPrintWrittenSize (n : nat).

Abbreviation cmd := (prog (list event) error).

Definition log (e : event) : cmd unit := modify (fun l => (l ++ [e])%list).

(** [x, err := f(...); if err != nil { return wrap(err) }] *)
Definition try {A} (r : result A) (wrap : error -> error) : cmd A :=
  match r with
  | Ok a => mret a
  | Err e => abort (wrap e)
  end.

Definition is_EOF (e : error) : bool :=
  match e with EOF => true | _ => false end.

(** [json.Unmarshal(data, &x)], recorded with the bytes it was given. *)
Definition json_Unmarshal T `{Target T} (data : string) : cmd (result T) :=
  log (EvUnmarshal type_name data);; mret (Unmarshal data).

(** Lines 149 to 171: decode version information or find [.Data.Data]. *)
Definition paperCryptMajorVersion (data : string) : cmd Z :=
  vc ← json_Unmarshal versionContainer data;
  match vc with
  | Err _ =>
      dc ← json_Unmarshal dataContainer data;
      match dc with
      | Err _ =>
          dcV1 ← json_Unmarshal dataContainerV1 data;
          match dcV1 with
          | Err err => abort (Join (New "error deserializing data") err)
          | Ok _ => mret 1%Z
          end
      | Ok _ => mret 2%Z
      end
  | Ok vc =>
      (* Split gives at least one piece: the index 0 is always there *)
      match ParseInt (TrimPrefix (hd EmptyString (Split (Version vc) ".")) "v") 32 with
      | Err err => abort (Join (New "error parsing version") err)
      | Ok parseInt => mret (uint32 parseInt)
      end
  end.

(** Lines 173 to 193: the [switch] on the major version and the check of
    [err] after it.  The [err] of [strconv.ParseInt] is local to its
    block, and the outer [err] is [nil] whenever a major version was
    found; so with no [case] taken, [output] is still [nil] and [err] is
    [nil]. *)
Definition deserialize (E : Env) (major : Z) (data : string) : cmd string :=
  if (major =? 1)%Z then
    pc ← json_Unmarshal (PaperCryptV1 E) (H := PaperCryptV1_target E) data;
    pc ← try pc (Join (New "error deserializing data"));
    try (PaperCryptV1_GetText E pc false) (Join (New "error deserializing data"))
  else if (major =? 2)%Z then
    pc ← json_Unmarshal (PaperCrypt E) (H := PaperCrypt_target E) data;
    pc ← try pc (Join (New "error deserializing data"));
    try (PaperCrypt_GetText E pc false) (Join (New "error deserializing data"))
  else mret EmptyString.

Definition write (E : Env) (outFile : OutFile E) (data : string) : cmd unit :=
  log (EvWrite data);;
  n ← try (Write E outFile data) (Join (New "error writing output"));
  log (EvPrintWrittenSize n).

(** Lines 145 to 202: 3. Deserialize, and 6. Write to file. *)
Definition decode (E : Env) (outFile : OutFile E) (data : string) : cmd unit :=
  major ← paperCryptMajorVersion data;
  output ← deserialize E major data;
  write E outFile output.

(** [qrCmd.RunE].  The deferred closing of the two files is left out: it
    does not change the error returned nor what is written. *)
Definition RunE (E : Env) (fl : Flags) (args : list string) : cmd unit :=
  (* 1. get data from either argument or inFileName *)
  let inFileName := match args with a :: _ => a | [] => inFileName fl end in
  inFile ← try (PrintInputAndGetReader E inFileName) id;
  data ←
    (if qrCmdFromJSON fl then
       match ReadAll E inFile with
       | (data, Some err) =>
           if is_EOF err then mret data
           else abort (Join (New "error reading input file") err)
       | (data, None) => mret data
       end
     else
       img ← try (image_Decode E inFile) (Join (New "error decoding image"));
       match Close E inFile with
       | Some err => abort (Join (New "error closing input file") err)
       | None =>
           bmp ← try (NewBinaryBitmapFromImage E img)
                     (Join (New "error creating binary bitmap"));
           result ← try (qrReader_Decode E bmp) (Join (New "error decoding QR code"));
           mret (GetText E result)
       end);
  (* 2. Open output file *)
  outFile ← try (GetFileHandleCarefully E (outFileName fl) (overrideOutFile fl)) id;
  if qrCmdToJSON fl then write E outFile data
  else decode E outFile data.

End Qr.

(** ** [cmd/generate.go]: generating a document *)
Module Generate.
Import Go Json Prog.

(** [Error()] of an error, as [%s] prints it.  The number of a
    [*strconv.NumError] is put between quotes as it is: the escapes of
    [strconv.Quote] for quotes, backslashes and bytes that do not print
    are left out. *)
Fixpoint Error (e : error) : string :=
  match e with
  | New msg => msg
  | Join e1 e2 => Error e1 ++ String LF (Error e2)
  | SyntaxError msg => msg
  | UnmarshalTypeError value gotype =>
      "json: cannot unmarshal " ++ value ++ " into Go value of type " ++ gotype
  | NumError func num kind =>
      "strconv." ++ func ++ ": parsing " ++ String DQUOTE (num ++ String DQUOTE "") ++ ": "
        ++ match kind with
           | ErrSyntax => "invalid syntax"
           | ErrRange => "value out of range"
           end
  | EOF => "EOF"
  | Foreign msg => msg
  end.

(** The package variables the flags set. *)
Record Flags := {
  inFileName : string;
  outFileName : string;
  overrideOutFile : bool;
  serialNumber : string;
  purpose : string;
  comment : string;
  date : string;
  outputPdf : bool;
  noQR : bool;
  lowerCasedBase16 : bool;
  asciiArmor : bool
}.

(** Modelled from the spec: [util.NewPaperCrypt] and the [PaperCrypt]
    type of package [util], which are not among the sources.  The
    Document of the data model, built once from the generator version,
    the ciphertext, the serial number, the purpose, the comment and the
    timestamp, and never changed after. *)
Record PaperCrypt (Message Time : Type) := NewPaperCrypt {
  Version : string;
  Data : Message;
  SerialNumber : string;
  Purpose : string;
  Comment : string;
  CreatedAt : Time
}.
Arguments NewPaperCrypt {Message Time}.
Arguments Version {Message Time}.
Arguments Data {Message Time}.
Arguments SerialNumber {Message Time}.
Arguments Purpose {Message Time}.
Arguments Comment {Message Time}.
Arguments CreatedAt {Message Time}.

(** The collaborators of the command: the clock and [time.Parse], the
    entropy source, the Go values [encoding/json] builds and prints, the
    encryption primitive, the renderers of package [util], the build
    metadata, and the failures of the file system. *)
Record Env := {
  Time : Type;
  Map : Type;                                   (* map[string]interface{} *)
  Message : Type;                               (* *crypto.PGPMessage *)
  Now : Time;                                   (* the reading of time.Now() *)
  time_Parse : string -> string -> result Time; (* time.Parse(layout, value) *)
  random_source : result (nat -> ascii);        (* the characters drawn, by position *)
  nil_map : Map;
  store_map : list (string * json) -> result Map;
  json_Encode : Map -> result string;
  EncryptMessageWithPassword : string -> string -> result Message;
  GetText : PaperCrypt Message Time -> bool -> bool -> result string;
  GetPDF : PaperCrypt Message Time -> bool -> bool -> bool -> result string;
  VersionInfo_Version : string;
  create_error : string -> option error;
  write_error : option error
}.

Abbreviation Document E := (PaperCrypt (Message E) (Time E)).

(** Modelled from the spec: [util.GenerateSerial], which is not among the
    sources.  [generate(length)] draws [length] characters of the fixed
    alphabet from the random source, and signals an error if the entropy
    source cannot be read. *)
Definition GenerateSerial (E : Env) (length : nat) : result string :=
  match random_source E with
  | Err e => Err e
  | Ok draw => Ok (string_of_list_ascii (map draw (seq 0 length)))
  end.

(** [jsonDecoder.Decode(&secretContents)] on a fresh decoder and a nil
    map: the first value of the stream is stored; an object gives the
    map of its members ([store_map], which can fail on a number that
    does not fit a float64), [null] leaves the map nil, any other value
    is a type error.  A stream with no value at all gives [io.EOF]; one
    whose first value is not well formed gives an error that is kept
    here as a syntax error, also where the decoder reports
    [io.ErrUnexpectedEOF] because the stream ends inside the value. *)
Definition Decode (E : Env) (contents : string) : result (Map E) :=
  match first_value contents with
  | None =>
      match skip_space contents with
      | EmptyString => Err EOF
      | String _ _ => Err (SyntaxError "invalid JSON input")
      end
  | Some (JObject members) => store_map E members
  | Some JNull => Ok (nil_map E)
  | Some v => Err (UnmarshalTypeError (kind_name v) "map[string]interface {}")
  end.

(** [encrypt], lines 180 to 189. *)
Definition encrypt (E : Env) (passphrase data : string) : result (Message E) :=
  match EncryptMessageWithPassword E data passphrase with
  | Err err => Err (New ("error encrypting message: " ++ Error err))
  | Ok encrypted => Ok encrypted
  end.

(** What a run does that can be seen from outside, in order. *)
Inductive event (E : Env) :=
| EvStdout (text : string)                  (* fmt.Printf, fmt.Println, os.Stdout.Write *)
| EvStat (name : string)                    (* os.Stat *)
| EvGenerateSerial (length : nat)           (* util.GenerateSerial *)
| EvNow                                     (* time.Now *)
| EvOpenRead (name : string)                (* os.OpenFile(name, O_RDONLY, 0) *)
| EvReadStdin (line : string)               (* reader.ReadString *)
| EvEncrypt (passphrase data : string)      (* encrypt *)
| EvOpenWrite (name : string)               (* os.OpenFile(name, O_CREATE|O_WRONLY|O_TRUNC, 0600) *)
| EvWriteFile (name text : string)          (* outFile.Write *)
| EvNewPaperCrypt (doc : Document E).       (* util.NewPaperCrypt *)
Arguments EvStdout {E}.
Arguments EvStat {E}.
Arguments EvGenerateSerial {E}.
Arguments EvNow {E}.
Arguments EvOpenRead {E}.
Arguments EvReadStdin {E}.
Arguments EvEncrypt {E}.
Arguments EvOpenWrite {E}.
Arguments EvWriteFile {E}.
Arguments EvNewPaperCrypt {E}.

(** The machine the command runs on: the files by path, what is left on
    standard input, and the events so far. *)
Record World (E : Env) := {
  fs : gmap string string;
  stdin : string;
  trace : list (event E)
}.
Arguments fs {E}.
Arguments stdin {E}.
Arguments trace {E}.

(** The contents of the file at a path; no file has the empty path. *)
Definition lookup_path (files : gmap string string) (name : string) : option string :=
  if String.eqb name "" then None else files !! name.

Definition file_exists (files : gmap string string) (name : string) : bool :=
  match lookup_path files name with
  | Some _ => true
  | None => false
  end.

(** A command that either goes on or leaves the process through
    [os.Exit] with a status. *)
Abbreviation cmd E := (prog (World E) Z).

Section Run.
Context (E : Env).

Definition log (e : event E) : cmd E unit :=
  modify (fun w => {| fs := fs w; stdin := stdin w; trace := (trace w ++ [e])%list |}).

Definition os_Exit {A} (status : Z) : cmd E A := abort status.

Definition Printf (text : string) : cmd E unit := log (EvStdout text).

Definition Println (text : string) : cmd E unit := log (EvStdout (text ++ String LF "")).

(** [_, err := os.Stat(name)]: whether [err == nil]. *)
Definition os_Stat (name : string) : cmd E bool :=
  log (EvStat name);;
  w ← get;
  mret (file_exists (fs w) name).

(** Opening for reading, and reading all there is. *)
Definition os_OpenFile_RDONLY (name : string) : cmd E (result string) :=
  log (EvOpenRead name);;
  w ← get;
  mret (match lookup_path (fs w) name with
        | Some contents => Ok contents
        | None => Err (Foreign ("open " ++ name ++ ": no such file or directory"))
        end).

(** Opening with [O_CREATE|O_WRONLY|O_TRUNC]: the file is there and
    empty afterwards. *)
Definition os_OpenFile_TRUNC (name : string) : cmd E (result string) :=
  log (EvOpenWrite name);;
  match create_error E name with
  | Some err => mret (Err err)
  | None =>
      modify (fun w => {| fs := <[name := ""]> (fs w); stdin := stdin w; trace := trace w |});;
      mret (Ok name)
  end.

(** [outFile.Write(text)], [outFile] being [os.Stdout] ([None]) or a
    file just opened. *)
Definition File_Write (outFile : option string) (text : string) : cmd E (result nat) :=
  match write_error E with
  | Some err => mret (Err err)
  | None =>
      match outFile with
      | None => log (EvStdout text)
      | Some name =>
          log (EvWriteFile name text);;
          modify (fun w => {| fs := alter (fun c => c ++ text) name (fs w);
                              stdin := stdin w; trace := trace w |})
      end;;
      mret (Ok (String.length text))
  end.

(** [outFile.Name()] *)
Definition File_Name (outFile : option string) : string :=
  match outFile with
  | None => "/dev/stdout"
  | Some name => name
  end.

(** The text up to and including the first line feed, and the rest. *)
Fixpoint split_line (s : string) : option (string * string) :=
  match s with
  | EmptyString => None
  | String c s' =>
      if Ascii.eqb c LF then Some (String c "", s')
      else '(line, rest) ← split_line s'; Some (String c line, rest)
  end.

(** [reader.ReadString('\n')] on standard input: the line with its
    delimiter, or what is left together with [io.EOF]. *)
Definition ReadString : cmd E (string * option error) :=
  w ← get;
  let '(line, rest, err) :=
    match split_line (stdin w) with
    | Some (line, rest) => (line, rest, None)
    | None => (stdin w, "", Some EOF)
    end in
  modify (fun w => {| fs := fs w; stdin := rest; trace := trace w |});;
  log (EvReadStdin line);;
  mret (line, err).

Definition nl : string := String LF "".

(** 0. check if outfile exists *)
Definition checkOutFile (fl : Flags) : cmd E unit :=
  os_Stat (outFileName fl) ≫= fun found : bool =>
  if found then
    if overrideOutFile fl then
      Printf ("Overriding existing file " ++ String DQUOTE (outFileName fl)
                ++ String DQUOTE ("!" ++ nl))
    else
      Printf ("File " ++ outFileName fl ++ " already exists, use --force to override" ++ nl);;
      os_Exit 1
  else mret tt.

(** 1. generate serial number if not provided *)
Definition provideSerialNumber (fl : Flags) : cmd E string :=
  if String.eqb (serialNumber fl) "" then
    log (EvGenerateSerial 6);;
    match GenerateSerial E 6 with
    | Err err => Printf ("Error generating serial number: " ++ Error err ++ nl);; os_Exit 1
    | Ok serial => mret serial
    end
  else mret (serialNumber fl).

(** 2. parse date if provided *)
Definition parseDate (fl : Flags) : cmd E (Time E) :=
  if String.eqb (date fl) "" then log EvNow;; mret (Now E)
  else
    match time_Parse E "Mon, 02 Jan 2006 15:04:05.000000000 MST" (date fl) with
    | Ok timestamp => mret timestamp
    | Err _ =>
        (* try other formats if this fails *)
        match time_Parse E "2006-01-02 15:04:05" (date fl) with
        | Ok timestamp => mret timestamp
        | Err _ =>
            match time_Parse E "2006-01-02" (date fl) with
            | Ok timestamp => mret timestamp
            | Err err => Printf ("Error parsing date: " ++ Error err ++ nl);; os_Exit 1
            end
        end
    end.

(** 3. Read inFile as JSON, minimize *)
Definition readSecretContents (fl : Flags) : cmd E string :=
  secretContentsFile ← os_OpenFile_RDONLY (inFileName fl);
  match secretContentsFile with
  | Err err => Printf ("Error opening file: " ++ Error err ++ nl);; os_Exit 1
  | Ok contents =>
      match Decode E contents with
      | Err err => Printf ("Error decoding JSON: " ++ Error err ++ nl);; os_Exit 1
      | Ok secretContents =>
          match json_Encode E secretContents with
          | Err err => Printf ("Error encoding JSON: " ++ Error err ++ nl);; os_Exit 1
          | Ok secretContentsMinimal => mret secretContentsMinimal
          end
      end
  end.

(** 4. Read passphrase from stdin *)
Definition readPassphrase : cmd E string :=
  Println "Enter your encryption passphrase (i.e. the key phrase from `papercrypt generateKey`): ";;
  '(passphrase, err) ← ReadString;
  match err with
  | Some err => Printf ("Error reading passphrase: " ++ Error err ++ nl);; os_Exit 1
  | None =>
      Println "Enter your encryption passphrase again: ";;
      '(passphraseAgain, err) ← ReadString;
      match err with
      | Some err => Printf ("Error reading passphrase: " ++ Error err ++ nl);; os_Exit 1
      | None =>
          if negb (String.eqb passphrase passphraseAgain) then
            Printf ("Passphrases do not match! Aborting." ++ nl);; os_Exit 1
          else mret (ReplaceAll (ReplaceAll passphrase CR "") LF "")
      end
  end.

(** 5. Encrypt secretContentsMinimal with passphrase *)
Definition encryptSecretContents (passphrase secretContentsMinimal : string)
  : cmd E (Message E) :=
  log (EvEncrypt passphrase secretContentsMinimal);;
  match encrypt E passphrase secretContentsMinimal with
  | Err err => Printf ("Error encrypting secret contents: " ++ Error err ++ nl);; os_Exit 1
  | Ok encryptedSecretContents => mret encryptedSecretContents
  end.

(** 4. Write encryptedSecretContents to outFile: the file handle,
    [None] for [os.Stdout]. *)
Definition openOutFile (fl : Flags) : cmd E (option string) :=
  if String.eqb (outFileName fl) "" || String.eqb (outFileName fl) "-" then mret None
  else
    outFile ← os_OpenFile_TRUNC (outFileName fl);
    match outFile with
    | Err err => Printf ("Error opening file: " ++ Error err ++ nl);; os_Exit 1
    | Ok name => mret (Some name)
    end.

(** Lines 153 to 176: the document, its rendering, and the write. *)
Definition writeDocument (fl : Flags) (encryptedSecretContents : Message E)
    (serialNumber : string) (timestamp : Time E) (outFile : option string) : cmd E unit :=
  let crypt := NewPaperCrypt (VersionInfo_Version E) encryptedSecretContents serialNumber
                 (purpose fl) (comment fl) timestamp in
  log (EvNewPaperCrypt crypt);;
  match (if outputPdf fl
         then GetPDF E crypt (asciiArmor fl) (noQR fl) (lowerCasedBase16 fl)
         else GetText E crypt (asciiArmor fl) (lowerCasedBase16 fl)) with
  | Err err => Printf ("Error creating file contents: " ++ Error err ++ nl);; os_Exit 1
  | Ok text =>
      written ← File_Write outFile text;
      match written with
      | Err err => Printf ("Error writing file: " ++ Error err ++ nl);; os_Exit 1
      | Ok n =>
          Printf ("Wrote " ++ pretty n ++ " bytes to " ++ File_Name outFile ++ nl);;
          Println "Done!"
      end
  end.

(** [generateCmd.Run] *)
Definition Run (fl : Flags) : cmd E unit :=
  checkOutFile fl;;
  serialNumber ← provideSerialNumber fl;
  timestamp ← parseDate fl;
  secretContentsMinimal ← readSecretContents fl;
  passphrase ← readPassphrase;
  encryptedSecretContents ← encryptSecretContents passphrase secretContentsMinimal;
  outFile ← openOutFile fl;
  writeDocument fl encryptedSecretContents serialNumber timestamp outFile.

(** The command started on a machine with the given files and standard
    input. *)
Definition generate (fl : Flags) (files : gmap string string) (input : string)
  : outcome Z unit * World E :=
  Run fl {| fs := files; stdin := input; trace := [] |}.

End Run.

End Generate.

(** ** Fixtures: a small environment and payloads for the examples *)
Module Fixture.
Import Go Json Prog.

(** Test payloads are written with single quotes for the double ones. *)
Fixpoint dq (s : string) : string :=
  match s with
  | EmptyString => EmptyString
  | String c s' => String (if Ascii.eqb c "'" then DQUOTE else c) (dq s')
  end.

Definition quote (s : string) : string := String DQUOTE (s ++ String DQUOTE "").

(** A compact printer, enough for the example files (no escapes, members
    in source order). *)
Fixpoint print (v : json) : string :=
  match v with
  | JNull => "null"
  | JBool true => "true"
  | JBool false => "false"
  | JNumber lit => lit
  | JString s => quote s
  | JArray vs =>
      "[" ++ (fix go (l : list json) : string :=
                match l with
                | [] => ""
                | [x] => print x
                | x :: l' => print x ++ "," ++ go l'
                end) vs ++ "]"
  | JObject ms =>
      "{" ++ (fix go (l : list (string * json)) : string :=
                match l with
                | [] => ""
                | [(k, x)] => quote k ++ ":" ++ print x
                | (k, x) :: l' => quote k ++ ":" ++ print x ++ "," ++ go l'
                end) ms ++ "}"
  end.

(** The collaborators of [generate]: a clock stopped at one reading, a
    date parser that accepts a value as long as its layout, an entropy
    source that is there or not, maps kept as their members, encryption
    as a tagged pair. *)
Definition genEnv (entropy : bool) : Generate.Env := {|
  Generate.Time := string;
  Generate.Map := option (list (string * json));
  Generate.Message := string * string;
  Generate.Now := "2024-01-01 00:00:00";
  Generate.time_Parse layout value :=
    if Nat.eqb (String.length layout) (String.length value) then Ok value
    else Err (Foreign "parsing time: cannot parse");
  Generate.random_source :=
    if entropy then Ok (fun i => ascii_of_nat (65 + i)) else Err (Foreign "entropy source unavailable");
  Generate.nil_map := None;
  Generate.store_map ms := Ok (Some ms);
  Generate.json_Encode m :=
    Ok (match m with None => "null" | Some ms => print (JObject ms) end ++ String LF "");
  Generate.EncryptMessageWithPassword data passphrase := Ok (passphrase, data);
  Generate.GetText doc _ _ :=
    Ok (Generate.SerialNumber doc ++ "|" ++ Generate.CreatedAt doc ++ "|" ++ snd (Generate.Data doc));
  Generate.GetPDF _ _ _ _ := Err (Foreign "not implemented");
  Generate.VersionInfo_Version := "dev";
  Generate.create_error _ := None;
  Generate.write_error := None
|}.

Definition lines (first second : string) : string :=
  first ++ String LF (second ++ String LF "").

(** A directory with the input file alone, and one where the output
    file is there already. *)
Definition inputOnly (contents : string) : gmap string string :=
  {[ "secret.json" := contents ]}.

Definition withOutput (contents : string) : gmap string string :=
  <[ "out.txt" := "old" ]> (inputOnly contents).

Definition genFlags (serialNumber date : string) (force : bool) : Generate.Flags := {|
  Generate.inFileName := "secret.json";
  Generate.outFileName := "out.txt";
  Generate.overrideOutFile := force;
  Generate.serialNumber := serialNumber;
  Generate.purpose := "test";
  Generate.comment := "";
  Generate.date := date;
  Generate.outputPdf := false;
  Generate.noQR := false;
  Generate.lowerCasedBase16 := false;
  Generate.asciiArmor := false
|}.

(** The collaborators of [qr]: the input is read as it is, the two
    document types are the two containers, and [GetText] is the data. *)
Definition qrEnv (input : string) : Qr.Env := {|
  Qr.File := string;
  Qr.Image := unit;
  Qr.Bitmap := unit;
  Qr.QRResult := string;
  Qr.OutFile := unit;
  Qr.PaperCryptV1 := Qr.dataContainerV1;
  Qr.PaperCrypt := Qr.dataContainer;
  Qr.PrintInputAndGetReader _ := Ok input;
  Qr.ReadAll f := (f, None);
  Qr.image_Decode _ := Ok tt;
  Qr.Close _ := None;
  Qr.NewBinaryBitmapFromImage _ := Ok tt;
  Qr.qrReader_Decode _ := Ok input;
  Qr.GetText r := r;
  Qr.GetFileHandleCarefully _ _ := Ok tt;
  Qr.Write _ d := Ok (String.length d);
  Qr.PaperCryptV1_target := Qr.dataContainerV1_target;
  Qr.PaperCrypt_target := Qr.dataContainer_target;
  Qr.PaperCryptV1_GetText pc _ := Ok (Qr.Data (Qr.DataV1 pc));
  Qr.PaperCrypt_GetText pc _ := Ok (Qr.Data pc)
|}.

(** Payloads of the examples. *)
Definition payload_v2_nested : string := dq "{'Version':'2.0.0','Data':{'Data':'x'}}".
Definition payload_two_versions : string :=
  dq "{'Version':'2.0.0','version':7,'Data':{'Data':'x'}}".
Definition payload_flat : string := dq "{'Data':'x'}".
Definition payload_nested : string := dq "{'Data':{'Data':'x'}}".
Definition payload_number_flat : string := dq "{'Version':2,'Data':'x'}".
Definition payload_number_nested : string := dq "{'Version':2,'Data':{'Data':'x'}}".
Definition payload_empty : string := "{}".
Definition payload_array : string := "[]".
Definition payload_v3 : string := dq "{'Version':'3.0.0','Data':'x'}".
Definition payload_bad_version : string := dq "{'Version':'abc'}".
Definition payload_bad_version_flat : string := dq "{'Version':'abc','Data':'x'}".

Definition qrFlags : Qr.Flags := {|
  Qr.inFileName := "qr.json";
  Qr.outFileName := "-";
  Qr.overrideOutFile := false;
  Qr.qrCmdFromJSON := true;
  Qr.qrCmdToJSON := false
|}.

End Fixture.

(** ** The vocabulary of the properties of [qr] *)
Module QrSpec.
Import Go Json.

(** The values of the members of an object that select the field
    [name], in source order. *)
Definition field_values (name : string) (members : list (string * json)) : list json :=
  map snd (List.filter (fun m => matchesField name (fst m)) members).

(** The major component the command reads off a version string:
    [strconv.ParseInt(strings.TrimPrefix(strings.Split(v, ".")[0], "v"), 10, 32)]. *)
Definition major_of (version : string) : result Z :=
  ParseInt (TrimPrefix (hd EmptyString (Split version ".")) "v") 32.

End QrSpec.

(** ** Tests on the characters of a string *)
Module Text.

(** Every character of a string passes a test. *)
Fixpoint all_chars (p : ascii -> bool) (s : string) : bool :=
  match s with
  | EmptyString => true
  | String c s' => p c && all_chars p s'
  end.

End Text.

(** ** The shapes the three containers accept *)
Module QrShapes.
Import Go Json Qr QrSpec Text.

(** What a Go [string] field takes without a type error. *)
Definition string_or_null (v : json) : bool :=
  match v with
  | JString _ | JNull => true
  | _ => false
  end.

(** The string a field is left with after the values stored into it in
    turn: the last JSON string, the others leaving it as it is. *)
Fixpoint last_string (values : list json) (cur : string) : string :=
  match values with
  | [] => cur
  | JString s :: values' => last_string values' s
  | _ :: values' => last_string values' cur
  end.

(** The earliest type error of the values stored into a [string] field. *)
Fixpoint first_string_error (values : list json) : option error :=
  match values with
  | [] => None
  | v :: values' =>
      if string_or_null v then first_string_error values'
      else Some (UnmarshalTypeError (kind_name v) "string")
  end.

(** The earliest type error of the values stored into a [dataContainer]
    field: an object is stored member by member, [null] is ignored. *)
Fixpoint first_container_error (values : list json) : option error :=
  match values with
  | [] => None
  | JNull :: values' => first_container_error values'
  | JObject inner :: values' =>
      match first_string_error (field_values "Data" inner) with
      | Some e => Some e
      | None => first_container_error values'
      end
  | v :: _ => Some (UnmarshalTypeError (kind_name v) "cmd.dataContainer")
  end.

(** An object has the shape of the version container when its members for
    [Version] hold strings or [null]; of the flat container when its
    members for [Data] do; of the nested container when its members for
    [Data] hold [null] or objects of the flat shape.  An object without
    the member has all three shapes. *)
Definition version_shape (members : list (string * json)) : bool :=
  forallb string_or_null (field_values "Version" members).

Definition flat_shape (members : list (string * json)) : bool :=
  forallb string_or_null (field_values "Data" members).

Definition nested_value (v : json) : bool :=
  match v with
  | JNull => true
  | JObject inner => flat_shape inner
  | _ => false
  end.

Definition nested_shape (members : list (string * json)) : bool :=
  forallb nested_value (field_values "Data" members).

(** The kinds of JSON text that are neither an object nor [null]. *)
Definition not_object_nor_null (v : json) : bool :=
  match v with
  | JObject _ | JNull => false
  | _ => true
  end.

Definition no_dot (s : string) : bool :=
  all_chars (fun c => negb (Ascii.eqb c ".")) s.

Definition is_unmarshal (ev : event) : bool :=
  match ev with
  | EvUnmarshal _ _ => true
  | _ => false
  end.

(** Where the payload comes from: the input as read with [--from-json],
    the text of the QR code otherwise. *)
Definition payload_of (E : Env) (fl : Flags) (args : list string) (data : string) : Prop :=
  exists inFile,
    PrintInputAndGetReader E (match args with a :: _ => a | [] => inFileName fl end)
    = Ok inFile
    /\ if qrCmdFromJSON fl then fst (ReadAll E inFile) = data
       else exists img bmp result,
           image_Decode E inFile = Ok img
           /\ Close E inFile = None
           /\ NewBinaryBitmapFromImage E img = Ok bmp
           /\ qrReader_Decode E bmp = Ok result
           /\ GetText E result = data.

End QrShapes.

(** ** More sample inputs *)
Module Samples.
Import Go Json Prog.

(** The flags of [papercrypt qr --from-json --to-json]. *)
Definition qrFlagsToJSON : Qr.Flags := {|
  Qr.inFileName := "qr.json";
  Qr.outFileName := "-";
  Qr.overrideOutFile := false;
  Qr.qrCmdFromJSON := true;
  Qr.qrCmdToJSON := true
|}.

(** The collaborators of [generate] as in [Fixture.genEnv], with an
    encryption primitive, a text renderer and a file system that fail
    when told to. *)
Definition genEnvWith (encrypts renders writes : bool) : Generate.Env := {|
  Generate.Time := string;
  Generate.Map := option (list (string * json));
  Generate.Message := string * string;
  Generate.Now := "2024-01-01 00:00:00";
  Generate.time_Parse layout value :=
    if Nat.eqb (String.length layout) (String.length value) then Ok value
    else Err (Foreign "parsing time: cannot parse");
  Generate.random_source := Ok (fun i => ascii_of_nat (65 + i));
  Generate.nil_map := None;
  Generate.store_map ms := Ok (Some ms);
  Generate.json_Encode m :=
    Ok (match m with None => "null" | Some ms => Fixture.print (JObject ms) end
          ++ String LF EmptyString);
  Generate.EncryptMessageWithPassword data passphrase :=
    if encrypts then Ok (passphrase, data) else Err (Foreign "no session key");
  Generate.GetText doc _ _ :=
    if renders
    then Ok (Generate.SerialNumber doc ++ "|" ++ Generate.CreatedAt doc ++ "|"
               ++ snd (Generate.Data doc))
    else Err (Foreign "cannot render");
  Generate.GetPDF _ _ _ _ := Err (Foreign "not implemented");
  Generate.VersionInfo_Version := "dev";
  Generate.create_error _ := None;
  Generate.write_error := if writes then None else Some (Foreign "disk full")
|}.

(** The flags of [Fixture.genFlags] with another output path. *)
Definition genFlagsTo (outFileName : string) (force : bool) : Generate.Flags := {|
  Generate.inFileName := "secret.json";
  Generate.outFileName := outFileName;
  Generate.overrideOutFile := force;
  Generate.serialNumber := "ABC123";
  Generate.purpose := "test";
  Generate.comment := "first copy";
  Generate.date := "";
  Generate.outputPdf := false;
  Generate.noQR := false;
  Generate.lowerCasedBase16 := false;
  Generate.asciiArmor := false
|}.

(** A passphrase as a terminal that ends its lines with CR LF hands
    it over, before the line feed is added. *)
Definition typed_with_cr : string := "pw" ++ String CR EmptyString.

(** The input file of the examples, and what is left of it minimized. *)
Definition secret : string := Fixture.dq "{ 'a' : 1 }".
Definition secretMinimal : string := Fixture.dq "{'a':1}" ++ String LF EmptyString.

(** The documents the example runs build: with the flags of
    [genFlagsTo], and with the serial number [S1] and a date given. *)
Definition document : Generate.PaperCrypt (string * string) string :=
  Generate.NewPaperCrypt "dev" ("pw", secretMinimal) "ABC123" "test" "first copy"
    "2024-01-01 00:00:00".

Definition dated_document : Generate.PaperCrypt (string * string) string :=
  Generate.NewPaperCrypt "dev" ("pw", secretMinimal) "S1" "test" EmptyString "2024-05-06".

End Samples.

(** ** The vocabulary of the properties of [generate] *)
Module GenerateSpec.
Import Go Json Prog Generate.

Section Phases.
Context (E : Env).

(** Steps 0 to 3 of [Run], up to the passphrase dialogue: their results
    are the serial number, the timestamp and the minimized contents. *)
Definition prelude (fl : Flags) : cmd E (string * Time E * string) :=
  checkOutFile E fl;;
  serialNumber ← provideSerialNumber E fl;
  timestamp ← parseDate E fl;
  secretContentsMinimal ← readSecretContents E fl;
  mret (serialNumber, timestamp, secretContentsMinimal).

(** The steps of [Run] after the dialogue: encryption, the output
    file, the document and the write. *)
Definition finish (fl : Flags) (serialNumber : string) (timestamp : Time E)
    (secretContentsMinimal passphrase : string) : cmd E unit :=
  encryptedSecretContents ← encryptSecretContents E passphrase secretContentsMinimal;
  outFile ← openOutFile E fl;
  writeDocument E fl encryptedSecretContents serialNumber timestamp outFile.

(** The layouts a date is tried against, in order. *)
Definition layouts : list string :=
  ["Mon, 02 Jan 2006 15:04:05.000000000 MST"; "2006-01-02 15:04:05"; "2006-01-02"].

(** The two prompts of the dialogue start like this, and no other
    message does. *)
Definition is_prompt (text : string) : bool :=
  HasPrefix text "Enter your encryption passphrase".

(** What the steps before the dialogue can do: look at the output
    path, draw a serial number, read the clock, open the input, and
    print a message that is not a prompt. *)
Definition prelude_event (ev : event E) : bool :=
  match ev with
  | EvStdout text => negb (is_prompt text)
  | EvStat _ | EvGenerateSerial _ | EvNow | EvOpenRead _ => true
  | _ => false
  end.

(** What the dialogue can do: print and read standard input. *)
Definition dialogue_event (ev : event E) : bool :=
  match ev with
  | EvStdout _ | EvReadStdin _ => true
  | _ => false
  end.

(** What the steps after the encryption can do: open the output file,
    write to it, print, and build a document, which then has the given
    serial number and timestamp. *)
Definition finish_event (serialNumber : string) (timestamp : Time E) (ev : event E) : Prop :=
  match ev with
  | EvStdout _ | EvOpenWrite _ | EvWriteFile _ _ => True
  | EvNewPaperCrypt doc => SerialNumber doc = serialNumber /\ CreatedAt doc = timestamp
  | _ => False
  end.

(** The events of the encryption and of the output. *)
Definition touches_output (ev : event E) : bool :=
  match ev with
  | EvEncrypt _ _ | EvOpenWrite _ | EvWriteFile _ _ | EvNewPaperCrypt _ => true
  | _ => false
  end.

Definition mismatch_message : string :=
  "Passphrases do not match! Aborting." ++ nl.

(** The first two lines on standard input, with their line feeds. *)
Definition entered (input : string) : option (string * string) :=
  '(first, rest) ← split_line input;
  '(second, _) ← split_line rest;
  Some (first, second).

(** What the steps before the dialogue have established once they are
    through. *)
Record prelude_facts (fl : Flags) (files : gmap string string)
    (serialNumber : string) (timestamp : Time E) (secretContentsMinimal : string)
  : Prop := {
  pf_force : file_exists files (outFileName fl) = true -> overrideOutFile fl = true;
  pf_serial :
    if String.eqb (Generate.serialNumber fl) ""
    then GenerateSerial E 6 = Ok serialNumber
    else serialNumber = Generate.serialNumber fl;
  pf_date :
    if String.eqb (date fl) "" then timestamp = Now E
    else exists layout, In layout layouts /\ time_Parse E layout (date fl) = Ok timestamp;
  pf_contents :
    exists contents secretContents,
      lookup_path files (inFileName fl) = Some contents /\
      Decode E contents = Ok secretContents /\
      json_Encode E secretContents = Ok secretContentsMinimal
}.

(** The ways a run can end, by the phase it ends in. *)
Inductive Run_outcome (fl : Flags) (files : gmap string string) (input : string)
  : outcome Z unit -> World E -> Prop :=
| stopped_in_prelude w msg :
    fs w = files -> stdin w = input ->
    forallb prelude_event (trace w) = true ->
    List.last (trace w) EvNow = EvStdout msg ->
    Run_outcome fl files input (Abort 1%Z) w
| stopped_in_dialogue serialNumber timestamp secretContentsMinimal w evs_pre evs_dlg msg :
    prelude_facts fl files serialNumber timestamp secretContentsMinimal ->
    fs w = files ->
    trace w = (evs_pre ++ evs_dlg)%list ->
    forallb prelude_event evs_pre = true ->
    forallb dialogue_event evs_dlg = true ->
    List.last evs_dlg EvNow = EvStdout msg ->
    (is_Some (entered input) -> msg = mismatch_message) ->
    Run_outcome fl files input (Abort 1%Z) w
| reached_encryption serialNumber timestamp secretContentsMinimal line out w
    evs_pre evs_dlg evs_fin :
    prelude_facts fl files serialNumber timestamp secretContentsMinimal ->
    entered input = Some (line, line) ->
    (forall name, name <> outFileName fl -> fs w !! name = files !! name) ->
    trace w = (evs_pre ++ evs_dlg
                 ++ EvEncrypt (ReplaceAll (ReplaceAll line CR "") LF "") secretContentsMinimal
                 :: evs_fin)%list ->
    forallb prelude_event evs_pre = true ->
    forallb dialogue_event evs_dlg = true ->
    Forall (finish_event serialNumber timestamp) evs_fin ->
    (out = Done tt -> exists doc, In (EvNewPaperCrypt doc) evs_fin) ->
    (forall status, out = Abort status -> status = 1%Z) ->
    Run_outcome fl files input out w.

End Phases.

End GenerateSpec.

(** ** More vocabulary for [generate]: the last phase *)
Module GenerateMore.
Import Go Json Prog Generate GenerateSpec Text.

Section Vocabulary.
Context (E : Env).

(** The output goes to [os.Stdout]: line 142. *)
Definition to_stdout (fl : Flags) : bool :=
  String.eqb (outFileName fl) "" || String.eqb (outFileName fl) "-".

(** The rendering chosen by [--pdf]: lines 155 to 161. *)
Definition render (fl : Flags) (doc : Document E) : result string :=
  if outputPdf fl
  then GetPDF E doc (asciiArmor fl) (noQR fl) (lowerCasedBase16 fl)
  else GetText E doc (asciiArmor fl) (lowerCasedBase16 fl).

(** The passphrase without its line breaks: lines 127 and 128. *)
Definition strip (line : string) : string :=
  ReplaceAll (ReplaceAll line CR "") LF "".

(** A machine after more events, and after a file got new contents. *)
Definition emit (evs : list (event E)) (w : World E) : World E :=
  {| fs := fs w; stdin := stdin w; trace := (trace w ++ evs)%list |}.

Definition put (name text : string) (w : World E) : World E :=
  {| fs := <[name := text]> (fs w); stdin := stdin w; trace := trace w |}.

(** The events before the encryption: those of the prelude and of the
    dialogue. *)
Definition before_encryption (ev : event E) : bool :=
  prelude_event E ev || dialogue_event E ev.

Definition is_open_write (ev : event E) : bool :=
  match ev with
  | EvOpenWrite _ => true
  | _ => false
  end.

Definition no_line_break (c : ascii) : bool :=
  negb (Ascii.eqb c CR) && negb (Ascii.eqb c LF).

(** Nothing but the date and the serial number stands in the way of a
    run: the output path is free or [--force] is set, the input file is
    there and its first JSON value decodes into a map that can be
    encoded again, the same line is entered twice, the encryption of
    the minimized contents with that passphrase does not fail, the
    output file can be created, and the rendering and the write do not
    fail. *)
Record unhindered (fl : Flags) (files : gmap string string) (input : string) : Prop := {
  un_force : file_exists files (outFileName fl) = true -> overrideOutFile fl = true;
  un_secret :
    exists contents secretContents secretContentsMinimal line,
      lookup_path files (inFileName fl) = Some contents
      /\ Decode E contents = Ok secretContents
      /\ json_Encode E secretContents = Ok secretContentsMinimal
      /\ entered input = Some (line, line)
      /\ is_ok (EncryptMessageWithPassword E secretContentsMinimal (strip line)) = true;
  un_create : to_stdout fl = false -> create_error E (outFileName fl) = None;
  un_render : forall doc, is_ok (render fl doc) = true;
  un_write : write_error E = None
}.

End Vocabulary.

End GenerateMore.

(** ** [main.go]: the build metadata handed to the commands *)
Module Main.
Import Go.

(** [strings.HasSuffix] *)
Fixpoint HasSuffix (s suffix : string) : bool :=
  String.eqb s suffix
  || match s with
     | EmptyString => false
     | String _ s' => HasSuffix s' suffix
     end.

(** [strings.TrimSuffix]: [s] without the suffix when it ends with it,
    [s] itself otherwise. *)
Definition TrimSuffix (s suffix : string) : string :=
  if HasSuffix s suffix
  then String.substring 0 (String.length s - String.length suffix) s
  else s.

(** The package variables of [main.go] that the linker can set. *)
Record BuildVars := {
  version : string;
  date : string;
  commit : string;
  ref : string;
  branch : string;
  tag : string;
  summary : string;
  repo : string;
  dirty : string;
  GoVersion : string;
  arch : string;
  os : string;
  builtBy : string
}.

(** Their values in a plain [go build]. *)
Definition defaults : BuildVars := {|
  version := "dev";
  date := "unknown";
  commit := "HEAD";
  ref := "HEAD";
  branch := "HEAD";
  tag := "HEAD";
  summary := "HEAD";
  repo := "https://github.com/TMUniversal/PaperCrypt";
  dirty := "false";
  GoVersion := "unknown";
  arch := "unknown";
  os := "unknown";
  builtBy := "go build"
|}.

(** The fields of [internal.VersionDetails] that [main] fills in. *)
Record VersionDetails := {
  Version : string;
  BuildDate : string;
  GitCommit : string;
  GitRef : string;
  GitBranch : string;
  GitTag : string;
  GitRepo : string;
  GitIsDirty : bool;
  GitSummary : string;
  VersionDetails_GoVersion : string;
  OsArch : string;
  OsType : string;
  BuiltBy : string
}.

Definition nl : string := String LF EmptyString.

(** The value [main] assigns to [internal.VersionInfo], lines 84 to 98. *)
Definition VersionInfo (b : BuildVars) : VersionDetails := {|
  Version := TrimSuffix (version b) nl;
  BuildDate := TrimSuffix (date b) nl;
  GitCommit := TrimSuffix (commit b) nl;
  GitRef := TrimSuffix (ref b) nl;
  GitBranch := TrimSuffix (branch b) nl;
  GitTag := TrimSuffix (tag b) nl;
  GitRepo := repo b;
  GitIsDirty := String.eqb (dirty b) "true";
  GitSummary := TrimSuffix (summary b) nl;
  VersionDetails_GoVersion := TrimSuffix (GoVersion b) nl;
  OsArch := TrimSuffix (arch b) nl;
  OsType := TrimSuffix (os b) nl;
  BuiltBy := TrimSuffix (builtBy b) nl
|}.

(** A build variable and the field made of it: the variable is the
    field followed by one line feed, or it is the field and does not
    end with a line feed. *)
Definition trimmed (raw field : string) : Prop :=
  raw = field ++ nl \/ (raw = field /\ HasSuffix raw nl = false).

End Main.

(** Unfolding the monad of the two commands. *)
Ltac prog_unfold :=
  unfold mbind, mret, Prog.prog_bind, Prog.prog_ret, Prog.bind, Prog.ret,
    Prog.abort, Prog.modify, Prog.get in *.

(** * Properties of [qr] *)
Section QrProperties.
Import Go Json Prog Qr QrSpec.

(** The library model on small inputs. *)
Example Split_version : Split "v2.10.3" "." = ["v2"; "10"; "3"].
Proof. reflexivity. Qed.

Example Split_empty : Split "" "." = [""].
Proof. reflexivity. Qed.

Example major_of_semver : major_of "v2.10.3" = Ok 2%Z.
Proof. reflexivity. Qed.

Example ParseInt_signs :
  ParseInt "+7" 32 = Ok 7%Z /\ ParseInt "-1" 32 = Ok (-1)%Z /\ uint32 (-1) = 4294967295%Z.
Proof. repeat split. Qed.

Example ParseInt_limits :
  ParseInt "2147483647" 32 = Ok 2147483647%Z
  /\ ParseInt "2147483648" 32 = Err (NumError "ParseInt" "2147483648" ErrRange)
  /\ ParseInt "-2147483648" 32 = Ok (-2147483648)%Z
  /\ ParseInt "1_0" 32 = Err (NumError "ParseInt" "1_0" ErrSyntax)
  /\ ParseInt "-" 32 = Err (NumError "ParseInt" "-" ErrSyntax).
Proof. repeat split. Qed.

Example checkValid_document :
  checkValid (Fixture.dq " { 'Version' : 'v2.0.1', 'n': [1, -2.5e+3, true, null, {}] } ")
  = Some (JObject [("Version", JString "v2.0.1");
                   ("n", JArray [JNumber "1"; JNumber "-2.5e+3"; JBool true; JNull;
                                 JObject []])]).
Proof. reflexivity. Qed.

Example checkValid_refuses :
  checkValid "[1,]" = None /\ checkValid "01" = None /\ checkValid "" = None
  /\ checkValid (Fixture.dq "{'a':1} x") = None.
Proof. repeat split. Qed.

Example first_value_ignores_the_rest :
  first_value (Fixture.dq "{'a':1} x") = Some (JObject [("a", JNumber "1")]).
Proof. reflexivity. Qed.

Example scan_string_escapes :
  checkValid (Fixture.dq "'\u0056ersion \ud83d\ude00 \ud83d'")
  = Some (JString ("Version " ++ EncodeRune 128512 ++ " " ++ replacement_char)).
Proof. reflexivity. Qed.

Example matchesField_folds :
  matchesField "Version" "version" = true
  /\ matchesField "Version" "VERSION" = true
  /\ matchesField "Version" "Verſion" = true
  /\ matchesField "Version" "Versions" = false
  /\ matchesField "Data" "data" = true.
Proof. repeat split. Qed.

Example Unmarshal_versionContainer_examples :
  Unmarshal "{}" = Ok {| Version := "" |}
  /\ Unmarshal "null" = Ok {| Version := "" |}
  /\ Unmarshal (Fixture.dq "{'version':'1.2'}") = Ok {| Version := "1.2" |}
  /\ Unmarshal (Fixture.dq "{'Version':'1.2','Version':null}") = Ok {| Version := "1.2" |}
  /\ Unmarshal (T := versionContainer) "[]"
     = Err (UnmarshalTypeError "array" "cmd.versionContainer")
  /\ Unmarshal (T := versionContainer) (Fixture.dq "{'Version':2}")
     = Err (UnmarshalTypeError "number" "string")
  /\ Unmarshal (T := versionContainer) "{" = Err (SyntaxError "invalid JSON input").
Proof. repeat split. Qed.

(** A version 1 document with its version field goes through. *)
Example RunE_version1 :
  RunE (Fixture.qrEnv (Fixture.dq "{'Version':'1.0.0','Data':{'Data':'x'}}"))
    Fixture.qrFlags [] []
  = (Done tt,
     [EvUnmarshal "cmd.versionContainer" (Fixture.dq "{'Version':'1.0.0','Data':{'Data':'x'}}");
      EvUnmarshal "cmd.dataContainerV1" (Fixture.dq "{'Version':'1.0.0','Data':{'Data':'x'}}");
      EvWrite "x"; EvPrintWrittenSize 1]).
Proof. reflexivity. Qed.

(** [strings.Split] never returns an empty slice: the index 0 of the
    command cannot be out of range. *)
Lemma Split_nonempty (s : string) (sep : ascii) : Split s sep <> [].
Proof.
  destruct s as [|c s]; simpl; [discriminate|].
  destruct (Ascii.eqb c sep); [discriminate|].
  destruct (Split s sep); discriminate.
Qed.

(** What [strconv.ParseInt] returns without an error fits the bit size. *)
Lemma ParseInt_range (s : string) (bitSize n : Z) :
  (1 <= bitSize)%Z ->
  ParseInt s bitSize = Ok n ->
  (- 2 ^ (bitSize - 1) <= n < 2 ^ (bitSize - 1))%Z.
Proof.
  intros Hsize.
  assert (Hpos : (0 < 2 ^ (bitSize - 1))%Z) by (apply Z.pow_pos_nonneg; lia).
  assert (Hmax : (0 <= 2 ^ bitSize - 1)%Z).
  { assert (0 < 2 ^ bitSize)%Z by (apply Z.pow_pos_nonneg; lia). lia. }
  assert (Hacc : forall t acc maxVal un,
             (0 <= acc)%Z -> digits10 t acc maxVal = Digits un -> (0 <= un)%Z).
  { induction t as [|c t IH]; simpl; intros acc maxVal un Hacc Hd.
    - injection Hd as <-. exact Hacc.
    - destruct (in_range 48 57 c); [|discriminate].
      destruct (maxVal <? 10 * acc + Z.of_N (code c - 48))%Z; [discriminate|].
      apply IH with (acc := (10 * acc + Z.of_N (code c - 48))%Z) (maxVal := maxVal);
        [lia | exact Hd]. }
  unfold ParseInt. destruct s as [|c s]; [discriminate|].
  set (body := if Ascii.eqb c "+" || Ascii.eqb c "-" then s else String c s).
  destruct body as [|b body']; [discriminate|].
  destruct (digits10 (String b body') 0 (2 ^ bitSize - 1)) as [un| |] eqn:Hd;
    [apply Hacc in Hd; [|lia] | discriminate |].
  - destruct (Ascii.eqb c "-").
    + destruct (Z.ltb_spec (2 ^ (bitSize - 1)) un); [discriminate|].
      intros [= <-]. lia.
    + destruct (Z.leb_spec (2 ^ (bitSize - 1)) un); [discriminate|].
      intros [= <-]. lia.
  - destruct (Ascii.eqb c "-").
    + destruct (Z.ltb_spec (2 ^ (bitSize - 1)) (2 ^ bitSize - 1)); [discriminate|].
      intros [= <-]. lia.
    + destruct (Z.leb_spec (2 ^ (bitSize - 1)) (2 ^ bitSize - 1)); [discriminate|].
      intros [= <-]. lia.
Qed.

(** The conversion to [uint32] keeps a major version that is not
    negative. *)
Lemma uint32_of_major (n : Z) :
  (0 <= n < 2 ^ 31)%Z -> uint32 n = n.
Proof. intros Hn. unfold uint32. apply Z.mod_small. lia. Qed.

(** The last element of a list that is not empty does not depend on the
    default. *)
Lemma last_cons_default {A} (l : list A) :
  forall a d, List.last (a :: l) d = List.last l a.
Proof.
  induction l as [|b l IH]; intros a d; [reflexivity|].
  change (List.last (a :: b :: l) d) with (List.last (b :: l) d).
  rewrite (IH b d), (IH b a). reflexivity.
Qed.

(** Members that all hold strings: the last string wins and no error is
    saved. *)
Lemma store_Version_strings members :
  forall ss cur saved,
    field_values "Version" members = map JString ss ->
    store_object assign_Version members cur saved
    = ({| Version := List.last ss (Version cur) |}, saved).
Proof.
  unfold store_object, field_values.
  induction members as [|[key v] members IH]; intros ss cur saved Hvals; simpl in *.
  - destruct ss; [destruct cur; reflexivity | discriminate].
  - unfold assign_Version at 2. simpl.
    destruct (matchesField "Version" key) eqn:Hkey; simpl in Hvals.
    + destruct ss as [|s ss]; [discriminate|].
      injection Hvals as -> Hvals. simpl.
      rewrite (IH ss _ _ Hvals).
      destruct ss as [|s0 ss]; [reflexivity|].
      rewrite !(last_cons_default ss s0). reflexivity.
    + apply IH, Hvals.
Qed.

(** What [json.Unmarshal] makes of a version container whose matching
    members all hold strings. *)
Lemma Unmarshal_versionContainer_strings data members ss :
  checkValid data = Some (JObject members) ->
  field_values "Version" members = map JString ss ->
  Unmarshal data = Ok {| Version := List.last ss "" |}.
Proof.
  intros Hvalid Hvals. unfold Unmarshal. rewrite Hvalid. simpl.
  unfold store_struct. rewrite (store_Version_strings _ _ _ _ Hvals). reflexivity.
Qed.

(** The sniffer as one case analysis: the outcome and the log. *)
Lemma paperCryptMajorVersion_cases data l :
  paperCryptMajorVersion data l =
  match Unmarshal (T := versionContainer) data with
  | Ok vc =>
      (match major_of (Version vc) with
       | Ok n => Done (uint32 n)
       | Err err => Abort (Join (New "error parsing version") err)
       end, l ++ [EvUnmarshal "cmd.versionContainer" data])%list
  | Err _ =>
      match Unmarshal (T := dataContainer) data with
      | Ok _ =>
          (Done 2%Z, l ++ [EvUnmarshal "cmd.versionContainer" data;
                           EvUnmarshal "cmd.dataContainer" data])%list
      | Err _ =>
          (match Unmarshal (T := dataContainerV1) data with
           | Ok _ => Done 1%Z
           | Err err => Abort (Join (New "error deserializing data") err)
           end, l ++ [EvUnmarshal "cmd.versionContainer" data;
                      EvUnmarshal "cmd.dataContainer" data;
                      EvUnmarshal "cmd.dataContainerV1" data])%list
      end
  end.
Proof.
  unfold paperCryptMajorVersion, json_Unmarshal, major_of, log. prog_unfold.
  destruct (Unmarshal (T := versionContainer) data) as [vc|e].
  - destruct (ParseInt _ _); reflexivity.
  - destruct (Unmarshal (T := dataContainer) data).
    + rewrite <- app_assoc. reflexivity.
    + destruct (Unmarshal (T := dataContainerV1) data);
        rewrite <- !app_assoc; reflexivity.
Qed.

(** Every attempt of the sniffer is a [json.Unmarshal] of the payload
    itself. *)
Lemma paperCryptMajorVersion_log data l :
  exists evs,
    snd (paperCryptMajorVersion data l) = (l ++ evs)%list /\
    Forall (fun ev => exists gotype, ev = EvUnmarshal gotype data) evs.
Proof.
  rewrite paperCryptMajorVersion_cases.
  destruct (Unmarshal (T := versionContainer) data);
    [|destruct (Unmarshal (T := dataContainer) data)];
    eexists; (split; [reflexivity|]); repeat constructor; eexists; reflexivity.
Qed.

(** An object whose members for [Version] all hold strings is classified
    by the last of them alone, after a single attempt. *)
Lemma paperCryptMajorVersion_version_strings data members ss s l :
  checkValid data = Some (JObject members) ->
  field_values "Version" members = map JString (ss ++ [s]) ->
  paperCryptMajorVersion data l
  = (match major_of s with
     | Ok n => Done (uint32 n)
     | Err err => Abort (Join (New "error parsing version") err)
     end, l ++ [EvUnmarshal "cmd.versionContainer" data])%list.
Proof.
  intros Hvalid Hvals. rewrite paperCryptMajorVersion_cases.
  rewrite (Unmarshal_versionContainer_strings _ _ _ Hvalid Hvals).
  cbn [Version]. rewrite last_last. reflexivity.
Qed.

(** [decode] after a classification: the deserializer of that major
    version runs on the same payload, and its output is written. *)
Lemma decode_classified E outFile data l major l' :
  paperCryptMajorVersion data l = (Done major, l') ->
  decode E outFile data l
  = (deserialize E major data ≫= fun output => write E outFile output) l'.
Proof.
  intros Hsniff. unfold decode. prog_unfold. rewrite Hsniff. reflexivity.
Qed.

Lemma decode_unclassified E outFile data l err l' :
  paperCryptMajorVersion data l = (Abort err, l') ->
  decode E outFile data l = (Abort err, l').
Proof.
  intros Hsniff. unfold decode. prog_unfold. rewrite Hsniff. reflexivity.
Qed.

(** [RunE] once the payload and the output file are there: with
    [--from-json] the payload is the input as read, otherwise it is the
    text of the QR code; without [--to-json] what remains is [decode]. *)
Lemma RunE_from_json E fl args inFile data outFile l :
  PrintInputAndGetReader E (match args with a :: _ => a | [] => inFileName fl end)
  = Ok inFile ->
  qrCmdFromJSON fl = true ->
  ReadAll E inFile = (data, None) ->
  GetFileHandleCarefully E (outFileName fl) (overrideOutFile fl) = Ok outFile ->
  qrCmdToJSON fl = false ->
  RunE E fl args l = decode E outFile data l.
Proof.
  intros Hin Hjson Hread Hout Hplain. unfold RunE, try. prog_unfold.
  rewrite Hin, Hjson, Hread, Hout, Hplain. reflexivity.
Qed.

Lemma RunE_from_image E fl args inFile img bmp result outFile l :
  PrintInputAndGetReader E (match args with a :: _ => a | [] => inFileName fl end)
  = Ok inFile ->
  qrCmdFromJSON fl = false ->
  image_Decode E inFile = Ok img ->
  Close E inFile = None ->
  NewBinaryBitmapFromImage E img = Ok bmp ->
  qrReader_Decode E bmp = Ok result ->
  GetFileHandleCarefully E (outFileName fl) (overrideOutFile fl) = Ok outFile ->
  qrCmdToJSON fl = false ->
  RunE E fl args l = decode E outFile (GetText E result) l.
Proof.
  intros Hin Hjson Himg Hclose Hbmp Hqr Hout Hplain. unfold RunE, try. prog_unfold.
  rewrite Hin, Hjson, Himg, Hclose, Hbmp, Hqr, Hout, Hplain. reflexivity.
Qed.

(** C1, amended.  For every payload that is a JSON object in which every
    top-level member whose name selects the field [Version] (exactly or
    under case folding) holds a string, the last of them with a major
    component that [strconv.ParseInt] accepts, the major version is the
    one of that string whatever the rest of the object looks like, a
    generation-1 nested [Data.Data] body included: only the version
    container is decoded, the flat and the nested shapes are never
    tried, and the deserializer chosen is the one of that major version,
    run on the same payload. *)
Theorem version_field_beats_shape (E : Env) (outFile : OutFile E)
    (data : string) (members : list (string * json)) (ss : list string) (s : string)
    (n : Z) (l : list event) :
  checkValid data = Some (JObject members) ->
  field_values "Version" members = map JString (ss ++ [s]) ->
  major_of s = Ok n ->
  paperCryptMajorVersion data l
  = (Done (uint32 n), (l ++ [EvUnmarshal "cmd.versionContainer" data])%list)
  /\ decode E outFile data l
     = (deserialize E (uint32 n) data ≫= fun output => write E outFile output)
         (l ++ [EvUnmarshal "cmd.versionContainer" data])%list.
Proof.
  intros Hvalid Hvals Hmajor.
  pose proof (paperCryptMajorVersion_version_strings data members ss s l Hvalid Hvals)
    as Hsniff.
  rewrite Hmajor in Hsniff.
  split; [exact Hsniff | exact (decode_classified _ _ _ _ _ _ Hsniff)].
Qed.

Lemma version_field_beats_shape_witness :
  paperCryptMajorVersion Fixture.payload_v2_nested []
  = (Done 2%Z, [EvUnmarshal "cmd.versionContainer" Fixture.payload_v2_nested]).
Proof.
  apply (version_field_beats_shape (Fixture.qrEnv "") tt Fixture.payload_v2_nested
           [("Version", JString "2.0.0"); ("Data", JObject [("Data", JString "x")])]
           [] "2.0.0" 2%Z []); reflexivity.
Defined.

(** C1 as stated fails: this payload is a JSON object with a top-level
    [Version] string whose major component parses as 2 and with a nested
    [Data.Data] body, and it is classified as major version 1 by its
    shape, because a second member selects the same field and holds a
    number. *)
Lemma version_field_beats_shape_counterexample :
  checkValid Fixture.payload_two_versions
  = Some (JObject [("Version", JString "2.0.0"); ("version", JNumber "7");
                   ("Data", JObject [("Data", JString "x")])])
  /\ major_of "2.0.0" = Ok 2%Z
  /\ paperCryptMajorVersion Fixture.payload_two_versions []
     = (Done 1%Z, [EvUnmarshal "cmd.versionContainer" Fixture.payload_two_versions;
                   EvUnmarshal "cmd.dataContainer" Fixture.payload_two_versions;
                   EvUnmarshal "cmd.dataContainerV1" Fixture.payload_two_versions]).
Proof. repeat split; reflexivity. Qed.

(** C2, amended.  For every payload on which the decoding of the version
    container fails, the sniffer next decodes the flat container and on
    success the major version is 2; only if that fails does it decode
    the nested container, and success makes the major version 1.  Every
    attempt, whatever the payload, is a decoding of the unchanged
    payload, and the deserializer then gets the same bytes.  A payload
    whose members for [Version] hold strings, the last of them without a
    major component that parses, is refused with the version error after
    the first attempt: the two shapes are not tried. *)
Theorem fallback_chain_after_version_decoding_fails (E : Env) (outFile : OutFile E)
    (data : string) (l : list event) :
  (forall (e : error) (dc : dataContainer),
      Unmarshal (T := versionContainer) data = Err e -> Unmarshal data = Ok dc ->
      paperCryptMajorVersion data l
      = (Done 2%Z, l ++ [EvUnmarshal "cmd.versionContainer" data;
                         EvUnmarshal "cmd.dataContainer" data])%list)
  /\ (forall (e e' : error) (dcV1 : dataContainerV1),
        Unmarshal (T := versionContainer) data = Err e ->
        Unmarshal (T := dataContainer) data = Err e' -> Unmarshal data = Ok dcV1 ->
        paperCryptMajorVersion data l
        = (Done 1%Z, l ++ [EvUnmarshal "cmd.versionContainer" data;
                           EvUnmarshal "cmd.dataContainer" data;
                           EvUnmarshal "cmd.dataContainerV1" data])%list)
  /\ (exists evs, snd (paperCryptMajorVersion data l) = (l ++ evs)%list /\
        Forall (fun ev => exists gotype, ev = EvUnmarshal gotype data) evs)
  /\ (forall major l', paperCryptMajorVersion data l = (Done major, l') ->
        decode E outFile data l
        = (deserialize E major data ≫= fun output => write E outFile output) l')
  /\ (forall members ss s err,
        checkValid data = Some (JObject members) ->
        field_values "Version" members = map JString (ss ++ [s]) ->
        major_of s = Err err ->
        paperCryptMajorVersion data l
        = (Abort (Join (New "error parsing version") err),
           l ++ [EvUnmarshal "cmd.versionContainer" data])%list).
Proof.
  split; [|split; [|split; [|split]]].
  - intros e dc Hvc Hdc. rewrite paperCryptMajorVersion_cases, Hvc, Hdc. reflexivity.
  - intros e e' dcV1 Hvc Hdc HdcV1.
    rewrite paperCryptMajorVersion_cases, Hvc, Hdc, HdcV1. reflexivity.
  - apply paperCryptMajorVersion_log.
  - intros major l'. apply decode_classified.
  - intros members ss s err Hvalid Hvals Hmajor.
    rewrite (paperCryptMajorVersion_version_strings _ _ _ _ _ Hvalid Hvals), Hmajor.
    reflexivity.
Qed.

Lemma fallback_chain_after_version_decoding_fails_witness :
  paperCryptMajorVersion Fixture.payload_number_flat []
  = (Done 2%Z, [EvUnmarshal "cmd.versionContainer" Fixture.payload_number_flat;
                EvUnmarshal "cmd.dataContainer" Fixture.payload_number_flat])
  /\ paperCryptMajorVersion Fixture.payload_number_nested []
     = (Done 1%Z, [EvUnmarshal "cmd.versionContainer" Fixture.payload_number_nested;
                   EvUnmarshal "cmd.dataContainer" Fixture.payload_number_nested;
                   EvUnmarshal "cmd.dataContainerV1" Fixture.payload_number_nested])
  /\ paperCryptMajorVersion Fixture.payload_bad_version_flat []
     = (Abort (Join (New "error parsing version") (NumError "ParseInt" "abc" ErrSyntax)),
        [EvUnmarshal "cmd.versionContainer" Fixture.payload_bad_version_flat]).
Proof.
  split; [|split].
  - apply (proj1 (fallback_chain_after_version_decoding_fails (Fixture.qrEnv "") tt
                    Fixture.payload_number_flat [])
             (UnmarshalTypeError "number" "string") {| Data := "x" |}); reflexivity.
  - apply (proj1 (proj2 (fallback_chain_after_version_decoding_fails (Fixture.qrEnv "") tt
                           Fixture.payload_number_nested []))
             (UnmarshalTypeError "number" "string") (UnmarshalTypeError "object" "string")
             {| DataV1 := {| Data := "x" |} |}); reflexivity.
  - apply (proj2 (proj2 (proj2 (proj2
             (fallback_chain_after_version_decoding_fails (Fixture.qrEnv "") tt
                Fixture.payload_bad_version_flat []))))
             [("Version", JString "abc"); ("Data", JString "x")] [] "abc"
             (NumError "ParseInt" "abc" ErrSyntax)); reflexivity.
Defined.

(** C2 as stated fails.  The first payload has a [Version] string that
    does not parse, so it is not classified by its version field, and its
    flat [Data] string decodes; the sniffer makes no further attempt and
    reports the version error instead of major version 2.  The second
    payload, without any version field, ends the same way. *)
Lemma fallback_chain_counterexample :
  (checkValid Fixture.payload_bad_version_flat
   = Some (JObject [("Version", JString "abc"); ("Data", JString "x")])
   /\ major_of "abc" = Err (NumError "ParseInt" "abc" ErrSyntax)
   /\ Unmarshal (T := dataContainer) Fixture.payload_bad_version_flat = Ok {| Data := "x" |}
   /\ paperCryptMajorVersion Fixture.payload_bad_version_flat []
      = (Abort (Join (New "error parsing version") (NumError "ParseInt" "abc" ErrSyntax)),
         [EvUnmarshal "cmd.versionContainer" Fixture.payload_bad_version_flat]))
  /\ (checkValid Fixture.payload_flat = Some (JObject [("Data", JString "x")])
      /\ Unmarshal (T := dataContainer) Fixture.payload_flat = Ok {| Data := "x" |}
      /\ paperCryptMajorVersion Fixture.payload_flat []
         = (Abort (Join (New "error parsing version") (NumError "ParseInt" "" ErrSyntax)),
            [EvUnmarshal "cmd.versionContainer" Fixture.payload_flat])).
Proof. repeat split; reflexivity. Qed.

(** An object without a member for [Version] decodes into the zero
    version container. *)
Lemma Unmarshal_versionContainer_absent data members :
  checkValid data = Some (JObject members) ->
  field_values "Version" members = [] ->
  Unmarshal data = Ok {| Version := "" |}.
Proof.
  intros Hvalid Hvals.
  exact (Unmarshal_versionContainer_strings data members [] Hvalid Hvals).
Qed.

(** C3, the code at the failing inputs.  Every payload that is a JSON
    object without a member for [Version], the generation-1 shape with
    its nested [Data.Data] among them, is refused: the version container
    decodes with an empty [Version], the empty major component does not
    parse, and [decode] returns the version error after that single
    attempt, without trying the nested shape and without writing. *)
Theorem generation1_without_version_is_rejected (E : Env) (outFile : OutFile E)
    (data : string) (members : list (string * json)) (l : list event) :
  checkValid data = Some (JObject members) ->
  field_values "Version" members = [] ->
  decode E outFile data l
  = (Abort (Join (New "error parsing version") (NumError "ParseInt" "" ErrSyntax)),
     (l ++ [EvUnmarshal "cmd.versionContainer" data])%list).
Proof.
  intros Hvalid Hvals. apply decode_unclassified.
  rewrite paperCryptMajorVersion_cases.
  rewrite (Unmarshal_versionContainer_absent _ _ Hvalid Hvals). reflexivity.
Qed.

Lemma generation1_without_version_is_rejected_witness :
  RunE (Fixture.qrEnv Fixture.payload_nested) Fixture.qrFlags [] []
  = (Abort (Join (New "error parsing version") (NumError "ParseInt" "" ErrSyntax)),
     [EvUnmarshal "cmd.versionContainer" Fixture.payload_nested]).
Proof.
  apply (generation1_without_version_is_rejected
           (Fixture.qrEnv Fixture.payload_nested) tt Fixture.payload_nested
           [("Data", JObject [("Data", JString "x")])] []); reflexivity.
Defined.

(** C4, amended.  A payload on which the three containers all fail to
    decode ends the operation with the error of the exhausted sniffer,
    after the three attempts; a payload whose members for [Version] hold
    strings, the last of them without a major component that parses,
    ends it with the version error, after the first attempt.  In both
    cases nothing is written and the operation does not return [nil]. *)
Theorem unclassified_payload_fails (E : Env) (outFile : OutFile E)
    (data : string) (l : list event) :
  (forall e1 e2 e3 : error,
      Unmarshal (T := versionContainer) data = Err e1 ->
      Unmarshal (T := dataContainer) data = Err e2 ->
      Unmarshal (T := dataContainerV1) data = Err e3 ->
      decode E outFile data l
      = (Abort (Join (New "error deserializing data") e3),
         l ++ [EvUnmarshal "cmd.versionContainer" data;
               EvUnmarshal "cmd.dataContainer" data;
               EvUnmarshal "cmd.dataContainerV1" data])%list)
  /\ (forall members ss s err,
        checkValid data = Some (JObject members) ->
        field_values "Version" members = map JString (ss ++ [s]) ->
        major_of s = Err err ->
        decode E outFile data l
        = (Abort (Join (New "error parsing version") err),
           l ++ [EvUnmarshal "cmd.versionContainer" data])%list).
Proof.
  split.
  - intros e1 e2 e3 H1 H2 H3. apply decode_unclassified.
    rewrite paperCryptMajorVersion_cases, H1, H2, H3. reflexivity.
  - intros members ss s err Hvalid Hvals Hmajor. apply decode_unclassified.
    rewrite (paperCryptMajorVersion_version_strings _ _ _ _ _ Hvalid Hvals), Hmajor.
    reflexivity.
Qed.

Lemma unclassified_payload_fails_witness :
  decode (Fixture.qrEnv "") tt Fixture.payload_array []
  = (Abort (Join (New "error deserializing data")
              (UnmarshalTypeError "array" "cmd.dataContainerV1")),
     [EvUnmarshal "cmd.versionContainer" Fixture.payload_array;
      EvUnmarshal "cmd.dataContainer" Fixture.payload_array;
      EvUnmarshal "cmd.dataContainerV1" Fixture.payload_array])
  /\ decode (Fixture.qrEnv "") tt Fixture.payload_bad_version []
     = (Abort (Join (New "error parsing version") (NumError "ParseInt" "abc" ErrSyntax)),
        [EvUnmarshal "cmd.versionContainer" Fixture.payload_bad_version]).
Proof.
  split.
  - apply (proj1 (unclassified_payload_fails (Fixture.qrEnv "") tt Fixture.payload_array [])
             (UnmarshalTypeError "array" "cmd.versionContainer")
             (UnmarshalTypeError "array" "cmd.dataContainer")
             (UnmarshalTypeError "array" "cmd.dataContainerV1")); reflexivity.
  - apply (proj2 (unclassified_payload_fails (Fixture.qrEnv "") tt
                    Fixture.payload_bad_version [])
             [("Version", JString "abc")] [] "abc" (NumError "ParseInt" "abc" ErrSyntax));
      reflexivity.
Defined.

(** C4 as stated fails.  A mapping whose only member is a [Version]
    string that does not parse has no version that parses, no flat [Data]
    and no nested [Data.Data]; the operation does not fail with the error
    of the exhausted sniffer: it stops after the version container with
    the version error, the two shapes never tried.  The empty mapping
    ends the same way. *)
Lemma unclassified_payload_counterexample :
  (checkValid Fixture.payload_bad_version = Some (JObject [("Version", JString "abc")])
   /\ major_of "abc" = Err (NumError "ParseInt" "abc" ErrSyntax)
   /\ decode (Fixture.qrEnv "") tt Fixture.payload_bad_version []
      = (Abort (Join (New "error parsing version") (NumError "ParseInt" "abc" ErrSyntax)),
         [EvUnmarshal "cmd.versionContainer" Fixture.payload_bad_version])
   /\ ~ (exists err l,
           decode (Fixture.qrEnv "") tt Fixture.payload_bad_version []
           = (Abort (Join (New "error deserializing data") err), l)))
  /\ (checkValid Fixture.payload_empty = Some (JObject [])
      /\ decode (Fixture.qrEnv "") tt Fixture.payload_empty []
         = (Abort (Join (New "error parsing version") (NumError "ParseInt" "" ErrSyntax)),
            [EvUnmarshal "cmd.versionContainer" Fixture.payload_empty])).
Proof.
  repeat split; try reflexivity.
  intros (err & l & H). discriminate H.
Qed.

(** C5, the code at the failing inputs.  For every payload whose version
    container decodes with a major component that parses to a major
    version other than 1 and 2, no deserializer runs and no error is
    raised: [decode] writes the empty output and returns [nil]. *)
Theorem unknown_major_version_succeeds_silently (E : Env) (outFile : OutFile E)
    (data : string) (l : list event) (vc : versionContainer) (n : Z) (written : nat) :
  Unmarshal data = Ok vc ->
  major_of (Version vc) = Ok n ->
  uint32 n <> 1%Z -> uint32 n <> 2%Z ->
  Write E outFile "" = Ok written ->
  decode E outFile data l
  = (Done tt, l ++ [EvUnmarshal "cmd.versionContainer" data; EvWrite "";
                    EvPrintWrittenSize written])%list.
Proof.
  intros Hvc Hmajor H1 H2 Hwrite.
  rewrite (decode_classified E outFile data l (uint32 n)
             (l ++ [EvUnmarshal "cmd.versionContainer" data])%list).
  - unfold deserialize, write, try, log. prog_unfold.
    destruct (Z.eqb_spec (uint32 n) 1) as [|_]; [contradiction|].
    destruct (Z.eqb_spec (uint32 n) 2) as [|_]; [contradiction|].
    rewrite Hwrite. rewrite <- !app_assoc. reflexivity.
  - rewrite paperCryptMajorVersion_cases, Hvc, Hmajor. reflexivity.
Qed.

Lemma unknown_major_version_succeeds_silently_witness :
  RunE (Fixture.qrEnv Fixture.payload_v3) Fixture.qrFlags [] []
  = (Done tt, [EvUnmarshal "cmd.versionContainer" Fixture.payload_v3; EvWrite "";
               EvPrintWrittenSize 0]).
Proof.
  apply (unknown_major_version_succeeds_silently
           (Fixture.qrEnv Fixture.payload_v3) tt Fixture.payload_v3 []
           {| Version := "3.0.0" |} 3%Z 0%nat); (reflexivity || discriminate).
Defined.

End QrProperties.

(** * Properties of [generate] *)
Section GenerateProperties.
Import Go Json Prog Generate GenerateSpec.
Context (E : Env).

(** A sequence ends where its first part stops, or goes on from where
    the first part got to. *)
Lemma bind_inv {W X A B} (m : prog W X A) (k : A -> prog W X B) w o w' :
  (m ≫= k) w = (o, w') ->
  (exists e, m w = (Abort e, w') /\ o = Abort e)
  \/ (exists a w1, m w = (Done a, w1) /\ k a w1 = (o, w')).
Proof.
  prog_unfold. destruct (m w) as [[a|e] w1]; intros H.
  - right. eauto.
  - left. injection H as <- <-. eauto.
Qed.

(** [Run] is its three phases in sequence. *)
Lemma Run_phases fl w :
  Run E fl w
  = (prelude E fl ≫= fun '(serialNumber, timestamp, secretContentsMinimal) =>
       readPassphrase E ≫= finish E fl serialNumber timestamp secretContentsMinimal) w.
Proof.
  unfold Run, prelude, finish. prog_unfold.
  destruct (checkOutFile E fl w) as [[[]|?] w0]; [|reflexivity].
  destruct (provideSerialNumber E fl w0) as [[serial|?] w1]; [|reflexivity].
  destruct (parseDate E fl w1) as [[ts|?] w2]; [|reflexivity].
  destruct (readSecretContents E fl w2) as [[sc|?] w3]; reflexivity.
Qed.

(** Symbolic execution of one phase: unfold its steps, then split on
    every branch the run can take. *)
Ltac step_unfold :=
  unfold checkOutFile, provideSerialNumber, parseDate, readSecretContents,
    readPassphrase, encryptSecretContents, openOutFile, writeDocument,
    os_Stat, os_OpenFile_RDONLY, os_OpenFile_TRUNC, File_Write, ReadString,
    Println, Printf, os_Exit, log in *;
  prog_unfold.

Ltac split_case H :=
  match type of H with
  | context [match ?x with _ => _ end] =>
      lazymatch x with
      | context [match _ with _ => _ end] => fail
      | _ => destruct x eqn:?
      end
  end.

Ltac run H := repeat (cbn [fs stdin trace fst snd] in H; split_case H).

(** The prelude leaves the files and standard input alone, does only
    what [prelude_event] allows, stops with status 1 after a message, and
    gets through with [prelude_facts]. *)
Lemma prelude_spec fl w o w' :
  prelude E fl w = (o, w') ->
  fs w' = fs w /\ stdin w' = stdin w
  /\ (exists evs, trace w' = (trace w ++ evs)%list
                /\ forallb (prelude_event E) evs = true
                /\ (forall status, o = Abort status ->
                    exists msg, List.last evs EvNow = EvStdout msg))
  /\ match o with
     | Abort status => status = 1%Z
     | Done (serialNumber, timestamp, secretContentsMinimal) =>
         prelude_facts E fl (fs w) serialNumber timestamp secretContentsMinimal
     end.
Proof.
  intros H. unfold prelude in H. step_unfold. run H.
  all: injection H as <- <-; cbn [fs stdin trace].
  all: repeat match goal with |- _ /\ _ => split end.
  all: try reflexivity.
  all: try (rewrite <- ?app_assoc; eexists; split; [reflexivity|]; split;
            [reflexivity|]; intros status Hst;
            first [discriminate Hst | eexists; reflexivity]).
  all: constructor.
  all: repeat match goal with H : _ = _ |- _ => rewrite H end.
  all: try reflexivity; try (intros; congruence).
  all: try (eexists; split; cycle 1; [eassumption | simpl; tauto]).
  all: eauto.
Qed.

(** The dialogue leaves the files alone, prints and reads only, stops
    with status 1 after a message (the mismatch message when two lines
    were entered), and gets through only with two equal lines. *)
Lemma readPassphrase_spec w o w' :
  readPassphrase E w = (o, w') ->
  fs w' = fs w
  /\ (exists evs, trace w' = (trace w ++ evs)%list
                /\ forallb (dialogue_event E) evs = true
                /\ (forall status, o = Abort status ->
                    exists msg, List.last evs EvNow = EvStdout msg /\
                      (is_Some (entered (stdin w)) -> msg = mismatch_message)))
  /\ match o with
     | Abort status => status = 1%Z
     | Done passphrase =>
         exists line, entered (stdin w) = Some (line, line)
                      /\ passphrase = ReplaceAll (ReplaceAll line CR "") LF ""
     end.
Proof.
  intros H. step_unfold. unfold entered. run H.
  all: injection H as <- <-; cbn [fs stdin trace].
  all: unfold mbind, option_bind.
  all: repeat match goal with Hs : split_line _ = _ |- _ => rewrite Hs end.
  all: repeat match goal with |- _ /\ _ => split end.
  all: try reflexivity.
  all: try (rewrite <- ?app_assoc; eexists; split; [reflexivity|]; split;
            [reflexivity|]; intros status Hst;
            first [ discriminate Hst
                  | eexists; split; [reflexivity|];
                    intros [? Hs]; first [discriminate Hs | reflexivity] ]).
  match goal with
  | Hb : negb (?a =? ?b)%string = false |- _ =>
      apply negb_false_iff, String.eqb_eq in Hb; subst; eexists; split; reflexivity
  end.
Qed.

(** The last phase starts with the encryption of the minimized contents,
    changes no file but the output file, and builds no document but the
    one with the serial number and timestamp it was given. *)
Lemma finish_spec fl serialNumber timestamp secretContentsMinimal passphrase w o w' :
  finish E fl serialNumber timestamp secretContentsMinimal passphrase w = (o, w') ->
  stdin w' = stdin w
  /\ (forall name, name <> outFileName fl -> fs w' !! name = fs w !! name)
  /\ (exists evs,
        trace w' = (trace w ++ EvEncrypt passphrase secretContentsMinimal :: evs)%list
        /\ Forall (finish_event E serialNumber timestamp) evs
        /\ (o = Done tt -> exists doc, In (EvNewPaperCrypt doc) evs))
  /\ (forall status, o = Abort status -> status = 1%Z).
Proof.
  intros H. unfold finish in H. step_unfold. run H.
  all: injection H as <- <-; cbn [fs stdin trace].
  all: repeat match goal with |- _ /\ _ => split end.
  all: try reflexivity.
  all: try (intros status Hst; congruence).
  all: try (intros name Hname;
            rewrite ?lookup_alter_ne, ?lookup_insert_ne by congruence; reflexivity).
  all: try (rewrite <- ?app_assoc; eexists; split; [reflexivity|]; split;
            [repeat constructor|]; intros Hdone;
            first [discriminate Hdone | eexists; simpl; eauto]).
Qed.

Lemma last_app_nonempty {A} (l1 l2 : list A) (d : A) :
  l2 <> [] -> List.last (l1 ++ l2) d = List.last l2 d.
Proof.
  intros Hne. induction l1 as [|a l1 IH]; [reflexivity|].
  rewrite <- app_comm_cons.
  change (List.last (a :: (l1 ++ l2)) d)
    with (match (l1 ++ l2)%list with [] => a | _ :: _ => List.last (l1 ++ l2) d end).
  destruct (l1 ++ l2)%list eqn:Happ; [|exact IH].
  apply app_eq_nil in Happ as [_ ->]. contradiction.
Qed.

(** Every run ends in one of the three ways of [Run_outcome]. *)
Lemma Run_sound fl files input out w :
  generate E fl files input = (out, w) ->
  Run_outcome E fl files input out w.
Proof.
  unfold generate. rewrite Run_phases. intros H.
  apply bind_inv in H as [(e & Hpre & ->) | ([[serial ts] sc] & w1 & Hpre & H)];
    apply prelude_spec in Hpre
      as (Hfs1 & Hin1 & (evs_pre & Htr1 & Hall1 & Hmsg1) & Hfacts);
    cbn [fs stdin trace app] in *.
  - subst e. destruct (Hmsg1 _ eq_refl) as [msg Hmsg].
    rewrite <- Htr1 in *. eapply stopped_in_prelude; eauto.
  - apply bind_inv in H as [(e & Hdlg & ->) | (p & w2 & Hdlg & H)];
      apply readPassphrase_spec in Hdlg
        as (Hfs2 & (evs_dlg & Htr2 & Hall2 & Hmsg2) & Hres).
    + subst e. destruct (Hmsg2 _ eq_refl) as (msg & Hlast & Hmis).
      rewrite Hin1 in Hmis.
      eapply stopped_in_dialogue; eauto; congruence.
    + destruct Hres as (line & Hentered & ->). rewrite Hin1 in Hentered.
      apply finish_spec in H as (_ & Hframe & (evs_fin & Htr3 & Hall3 & Hdoc) & Hst).
      eapply reached_encryption; eauto.
      * intros name Hname. rewrite (Hframe name Hname). congruence.
      * rewrite Htr3, Htr2, Htr1, <- app_assoc. reflexivity.
Qed.

Lemma In_forallb {A} (f : A -> bool) (l : list A) (x : A) :
  forallb f l = true -> In x l -> f x = true.
Proof. intros Hall Hin. exact (proj1 (forallb_forall f l) Hall x Hin). Qed.

(** A document is only built after the encryption. *)
Lemma prelude_builds_no_document evs doc :
  forallb (prelude_event E) evs = true -> ~ In (EvNewPaperCrypt doc) evs.
Proof. intros Hall Hin. discriminate (In_forallb _ _ _ Hall Hin). Qed.

Lemma dialogue_builds_no_document evs doc :
  forallb (dialogue_event E) evs = true -> ~ In (EvNewPaperCrypt doc) evs.
Proof. intros Hall Hin. discriminate (In_forallb _ _ _ Hall Hin). Qed.

(** The documents of a run: none unless the encryption is reached, and
    then with the serial number and the timestamp of the prelude. *)
Lemma Run_documents fl files input out w doc :
  Run_outcome E fl files input out w ->
  In (EvNewPaperCrypt doc) (trace w) ->
  exists serialNumber timestamp secretContentsMinimal,
    prelude_facts E fl files serialNumber timestamp secretContentsMinimal
    /\ SerialNumber doc = serialNumber /\ CreatedAt doc = timestamp.
Proof.
  intros Hrun Hin.
  destruct Hrun as [w msg _ _ Hall _
                   | serial ts sc w evs_pre evs_dlg msg _ _ Htr Hpre Hdlg _ _
                   | serial ts sc line out w evs_pre evs_dlg evs_fin
                       Hfacts _ _ Htr Hpre Hdlg Hfin _ _].
  - destruct (prelude_builds_no_document _ _ Hall Hin).
  - rewrite Htr in Hin. apply in_app_or in Hin as [Hin|Hin].
    + destruct (prelude_builds_no_document _ _ Hpre Hin).
    + destruct (dialogue_builds_no_document _ _ Hdlg Hin).
  - rewrite Htr in Hin. apply in_app_or in Hin as [Hin|Hin].
    { destruct (prelude_builds_no_document _ _ Hpre Hin). }
    apply in_app_or in Hin as [Hin|[Hin|Hin]].
    + destruct (dialogue_builds_no_document _ _ Hdlg Hin).
    + discriminate Hin.
    + destruct (proj1 (List.Forall_forall _ _) Hfin _ Hin) as [Hserial Hts]. eauto 6.
Qed.

(** A run that returns has built a document. *)
Lemma Run_done_document fl files input w :
  Run_outcome E fl files input (Done tt) w ->
  exists doc, In (EvNewPaperCrypt doc) (trace w).
Proof.
  intros Hrun. inversion Hrun; subst.
  match goal with
  | Hdoc : Done tt = Done tt -> _, Htr : trace w = _ |- _ =>
      destruct (Hdoc eq_refl) as [doc Hin]; exists doc; rewrite Htr
  end.
  apply in_or_app. right. apply in_or_app. right. right. exact Hin.
Qed.

(** A run whose prelude cannot get through stops there. *)
Lemma Run_stopped_in_prelude fl files input out w :
  Run_outcome E fl files input out w ->
  (forall serialNumber timestamp secretContentsMinimal,
      ~ prelude_facts E fl files serialNumber timestamp secretContentsMinimal) ->
  out = Abort 1%Z /\ fs w = files /\ stdin w = input
  /\ forallb (prelude_event E) (trace w) = true.
Proof.
  intros Hrun Hno.
  destruct Hrun as [w msg Hfs Hin Hall _
                   | serial ts sc w evs_pre evs_dlg msg Hfacts
                   | serial ts sc line out w evs_pre evs_dlg evs_fin Hfacts].
  - auto.
  - destruct (Hno _ _ _ Hfacts).
  - destruct (Hno _ _ _ Hfacts).
Qed.

Lemma length_string_of_list_ascii (l : list ascii) :
  String.length (string_of_list_ascii l) = length l.
Proof. induction l as [|c l IH]; simpl; [reflexivity | now rewrite IH]. Qed.

(** The serial number has the length asked for. *)
Lemma GenerateSerial_length (n : nat) (serial : string) :
  GenerateSerial E n = Ok serial -> String.length serial = n.
Proof.
  unfold GenerateSerial. destruct (random_source E) as [draw|err]; [|discriminate].
  intros [= <-]. now rewrite length_string_of_list_ascii, length_map, length_seq.
Qed.

Lemma prelude_event_quiet ev : prelude_event E ev = true -> touches_output E ev = false.
Proof. destruct ev; simpl; intros; congruence. Qed.

Lemma dialogue_event_quiet ev : dialogue_event E ev = true -> touches_output E ev = false.
Proof. destruct ev; simpl; intros; congruence. Qed.

(** C8.  If the two passphrases entered differ, the run ends in
    [os.Exit(1)], its last action being a message (the mismatch message
    once the dialogue has been reached), and before that it has neither
    encrypted, nor opened or written the output file, nor built a
    document: no file has changed. *)
Theorem passphrase_mismatch_aborts
    (fl : Flags) (files : gmap string string) (input : string)
    (out : outcome Z unit) (w : World E) (first second : string) :
  generate E fl files input = (out, w) ->
  entered input = Some (first, second) ->
  first <> second ->
  out = Abort 1%Z
  /\ fs w = files
  /\ (forall ev, In ev (trace w) -> touches_output E ev = false)
  /\ (exists msg, List.last (trace w) EvNow = EvStdout msg
                 /\ ((exists line, In (EvReadStdin line) (trace w)) ->
                     msg = mismatch_message)).
Proof.
  intros Hrun Hentered Hdiffer. apply Run_sound in Hrun.
  destruct Hrun as [w msg Hfs Hin Hall Hlast
                   | serial ts sc w evs_pre evs_dlg msg _ Hfs Htr Hpre Hdlg Hlast Hmsg
                   | serial ts sc line out w evs_pre evs_dlg evs_fin _ Hsame].
  - split; [reflexivity|]. split; [exact Hfs|]. split.
    + intros ev Hev. exact (prelude_event_quiet _ (In_forallb _ _ _ Hall Hev)).
    + exists msg. split; [exact Hlast|].
      intros [line Hline]. discriminate (In_forallb _ _ _ Hall Hline).
  - split; [reflexivity|]. split; [exact Hfs|]. split.
    + intros ev Hev. rewrite Htr in Hev. apply in_app_or in Hev as [Hev|Hev].
      * exact (prelude_event_quiet _ (In_forallb _ _ _ Hpre Hev)).
      * exact (dialogue_event_quiet _ (In_forallb _ _ _ Hdlg Hev)).
    + exists msg. split.
      * rewrite Htr, last_app_nonempty; [exact Hlast|].
        intros ->. discriminate Hlast.
      * intros _. apply Hmsg. rewrite Hentered. eauto.
  - rewrite Hsame in Hentered. injection Hentered as <- <-. contradiction.
Qed.



(** The check of the output path: an existing file and no [--force]
    end the run after the [os.Stat] and the message. *)
Lemma checkOutFile_refuses fl files input :
  file_exists files (outFileName fl) = true ->
  overrideOutFile fl = false ->
  generate E fl files input
  = (Abort 1%Z,
     {| fs := files; stdin := input;
        trace := [EvStat (outFileName fl);
                  EvStdout ("File " ++ outFileName fl
                              ++ " already exists, use --force to override" ++ nl)] |}).
Proof.
  intros Hexists Hforce. unfold generate, Run, checkOutFile, os_Stat, Printf, os_Exit, log.
  prog_unfold. cbn [fs stdin trace app]. rewrite Hexists, Hforce. reflexivity.
Qed.

(** C10.  If the output file exists and [--force] is not set, the run
    ends in [os.Exit(1)] before the input file is opened and no file has
    changed; and the only file a run ever changes is the output file,
    which, if it existed, is changed only with [--force] set. *)
Theorem existing_output_needs_force
    (fl : Flags) (files : gmap string string) (input : string)
    (out : outcome Z unit) (w : World E) :
  generate E fl files input = (out, w) ->
  (file_exists files (outFileName fl) = true -> overrideOutFile fl = false ->
     out = Abort 1%Z
     /\ fs w = files
     /\ forall name, ~ In (EvOpenRead name) (trace w))
  /\ (forall name, fs w !! name <> files !! name ->
        name = outFileName fl
        /\ (file_exists files name = true -> overrideOutFile fl = true)).
Proof.
  intros Hrun. split.
  - intros Hexists Hforce.
    rewrite (checkOutFile_refuses _ _ _ Hexists Hforce) in Hrun.
    injection Hrun as <- <-. cbn [fs trace]. repeat split.
    intros name [Hin|[Hin|[]]]; discriminate Hin.
  - intros name Hchanged. apply Run_sound in Hrun.
    destruct Hrun as [w msg Hfs _ _ _
                     | serial ts sc w evs_pre evs_dlg msg _ Hfs
                     | serial ts sc line out w evs_pre evs_dlg evs_fin Hfacts _ Hframe].
    + rewrite Hfs in Hchanged. contradiction.
    + rewrite Hfs in Hchanged. contradiction.
    + destruct (String.eqb_spec name (outFileName fl)) as [->|Hother].
      * split; [reflexivity | exact (pf_force _ _ _ _ _ _ Hfacts)].
      * destruct (Hchanged (Hframe name Hother)).
Qed.

End GenerateProperties.

(** * The properties of [generate] on the example machine *)
Section GenerateExamples.
Import Go Json Prog Generate GenerateSpec Fixture.

(** A run that goes through: the minimized contents are encrypted and
    the rendered document ends up in the output file. *)
Example generate_writes_the_document :
  fst (generate (genEnv true) (genFlags "" "" false)
         (inputOnly (dq "{ 'a' : 1 }")) (lines "pw" "pw")) = Done tt
  /\ fs (snd (generate (genEnv true) (genFlags "" "" false)
                (inputOnly (dq "{ 'a' : 1 }")) (lines "pw" "pw"))) !! "out.txt"
     = Some (dq "ABCDEF|2024-01-01 00:00:00|{'a':1}" ++ nl).
Proof. split; vm_compute; reflexivity. Qed.

(** With [--force] an existing output file is truncated and written
    again. *)
Example generate_overwrites_with_force :
  withOutput (dq "{ 'a' : 1 }") !! "out.txt" = Some "old"
  /\ fst (generate (genEnv true) (genFlags "S1" "2024-05-06" true)
            (withOutput (dq "{ 'a' : 1 }")) (lines "pw" "pw")) = Done tt
  /\ fs (snd (generate (genEnv true) (genFlags "S1" "2024-05-06" true)
                (withOutput (dq "{ 'a' : 1 }")) (lines "pw" "pw"))) !! "out.txt"
     = Some (dq "S1|2024-05-06|{'a':1}" ++ nl).
Proof. repeat split; vm_compute; reflexivity. Qed.

Lemma passphrase_mismatch_aborts_witness :
  fst (generate (genEnv true) (genFlags "" "" false)
         (inputOnly (dq "{'a': 1}")) (lines "pw" "pW")) = Abort 1%Z
  /\ fs (snd (generate (genEnv true) (genFlags "" "" false)
                (inputOnly (dq "{'a': 1}")) (lines "pw" "pW")))
     = inputOnly (dq "{'a': 1}").
Proof.
  refine (let H := passphrase_mismatch_aborts (genEnv true) (genFlags "" "" false)
                     (inputOnly (dq "{'a': 1}")) (lines "pw" "pW") _ _
                     ("pw" ++ nl) ("pW" ++ nl) (surjective_pairing _) eq_refl _ in
          conj (proj1 H) (proj1 (proj2 H))).
  discriminate.
Defined.



Lemma existing_output_needs_force_witness :
  fst (generate (genEnv true) (genFlags "" "" false)
         (withOutput (dq "{'a': 1}")) (lines "pw" "pw")) = Abort 1%Z
  /\ fs (snd (generate (genEnv true) (genFlags "" "" false)
                (withOutput (dq "{'a': 1}")) (lines "pw" "pw")))
     = withOutput (dq "{'a': 1}").
Proof.
  refine (let H := proj1 (existing_output_needs_force (genEnv true) (genFlags "" "" false)
                            (withOutput (dq "{'a': 1}")) (lines "pw" "pw") _ _
                            (surjective_pairing _)) eq_refl eq_refl in
          conj (proj1 H) (proj1 (proj2 H))).
Defined.

End GenerateExamples.

(** * More properties of [qr] *)
Section QrMore.
Import Go Json Prog Qr QrSpec QrShapes Text.

Lemma first_string_error_None values :
  first_string_error values = None <-> forallb string_or_null values = true.
Proof.
  induction values as [|v values IH]; simpl; [tauto|].
  destruct (string_or_null v); simpl; [exact IH|]. split; discriminate.
Qed.

Lemma first_container_error_None values :
  first_container_error values = None <-> forallb nested_value values = true.
Proof.
  induction values as [|v values IH]; simpl; [tauto|].
  destruct v as [| | | | |inner]; simpl; try (split; discriminate); [exact IH|].
  unfold flat_shape.
  destruct (first_string_error (field_values "Data" inner)) eqn:Hinner.
  - assert (Hno : forallb string_or_null (field_values "Data" inner) <> true).
    { intros Hall. apply first_string_error_None in Hall. congruence. }
    destruct (forallb string_or_null (field_values "Data" inner));
      [contradiction | split; discriminate].
  - apply first_string_error_None in Hinner. rewrite Hinner. exact IH.
Qed.

(** [d.object] into the version container, member by member. *)
Lemma store_Version_members members :
  forall cur saved,
    store_object assign_Version members cur saved
    = ({| Version := last_string (field_values "Version" members) (Version cur) |},
       match saved with
       | Some e => Some e
       | None => first_string_error (field_values "Version" members)
       end).
Proof.
  unfold store_object, field_values.
  induction members as [|[key v] members IH]; intros cur saved; simpl.
  - destruct cur, saved; reflexivity.
  - unfold assign_Version at 2. simpl.
    destruct (matchesField "Version" key); simpl; [|apply IH].
    destruct v, saved; simpl; rewrite IH; reflexivity.
Qed.

(** [d.object] into the flat container. *)
Lemma store_Data_members members :
  forall cur saved,
    store_object assign_Data members cur saved
    = ({| Data := last_string (field_values "Data" members) (Data cur) |},
       match saved with
       | Some e => Some e
       | None => first_string_error (field_values "Data" members)
       end).
Proof.
  unfold store_object, field_values.
  induction members as [|[key v] members IH]; intros cur saved; simpl.
  - destruct cur, saved; reflexivity.
  - unfold assign_Data at 2. simpl.
    destruct (matchesField "Data" key); simpl; [|apply IH].
    destruct v, saved; simpl; rewrite IH; reflexivity.
Qed.

(** [d.object] into the nested container: the saved error. *)
Lemma store_DataV1_members members :
  forall cur saved,
    snd (store_object assign_DataV1 members cur saved)
    = match saved with
      | Some e => Some e
      | None => first_container_error (field_values "Data" members)
      end.
Proof.
  unfold store_object, field_values.
  induction members as [|[key v] members IH]; intros cur saved; simpl.
  - destruct saved; reflexivity.
  - unfold assign_DataV1 at 2. simpl.
    destruct (matchesField "Data" key); simpl; [|apply IH].
    destruct v as [| | | | |inner]; simpl; try (destruct saved; simpl; rewrite IH; reflexivity).
    unfold store_struct.
    pose proof (store_Data_members inner (DataV1 cur) saved) as Hinner.
    unfold field_values in Hinner.
    destruct (store_object assign_Data inner (DataV1 cur) saved) as [d saved'].
    injection Hinner as _ ->. rewrite IH.
    destruct saved; [reflexivity|].
    destruct (first_string_error _); reflexivity.
Qed.

Lemma version_shape_error members :
  first_string_error (field_values "Version" members) = None
  <-> version_shape members = true.
Proof. apply first_string_error_None. Qed.

(** The three decodings of an object, by its shape. *)
Lemma Unmarshal_versionContainer_object data members :
  checkValid data = Some (JObject members) ->
  Unmarshal (T := versionContainer) data
  = match first_string_error (field_values "Version" members) with
    | None => Ok {| Version := last_string (field_values "Version" members) "" |}
    | Some e => Err e
    end.
Proof.
  intros Hvalid. unfold Unmarshal. rewrite Hvalid. simpl. unfold store_struct.
  rewrite store_Version_members. simpl.
  destruct (first_string_error _); reflexivity.
Qed.

Lemma Unmarshal_dataContainer_object data members :
  checkValid data = Some (JObject members) ->
  Unmarshal (T := dataContainer) data
  = match first_string_error (field_values "Data" members) with
    | None => Ok {| Data := last_string (field_values "Data" members) "" |}
    | Some e => Err e
    end.
Proof.
  intros Hvalid. unfold Unmarshal. rewrite Hvalid. simpl. unfold store_struct.
  rewrite store_Data_members. simpl.
  destruct (first_string_error _); reflexivity.
Qed.

Lemma Unmarshal_dataContainerV1_object data members :
  checkValid data = Some (JObject members) ->
  match first_container_error (field_values "Data" members) with
  | None => exists dcV1, Unmarshal (T := dataContainerV1) data = Ok dcV1
  | Some e => Unmarshal (T := dataContainerV1) data = Err e
  end.
Proof.
  intros Hvalid. unfold Unmarshal. rewrite Hvalid. simpl. unfold store_struct.
  pose proof (store_DataV1_members members {| DataV1 := {| Data := "" |} |} None) as Hsaved.
  destruct (store_object assign_DataV1 members _ None) as [dcV1 saved].
  simpl in Hsaved. subst saved.
  destruct (first_container_error _); [reflexivity | eexists; reflexivity].
Qed.

(** X1.  The sniffer on a JSON object, as a decision table over the
    members alone.  If every member selecting [Version] holds a string
    or [null] (none at all included), the payload is classified by the
    last string among them, the empty string when there is none, after
    one attempt.  Otherwise, if every member selecting [Data] holds a
    string or [null] (none at all included), it is major version 2 after
    two attempts.  Otherwise, if every member selecting [Data] holds
    [null] or an object of that flat shape, it is major version 1 after
    three attempts.  Otherwise the sniffer is exhausted. *)
Theorem sniffer_decision_table (data : string) (members : list (string * json))
    (l : list event) :
  checkValid data = Some (JObject members) ->
  let vc := EvUnmarshal "cmd.versionContainer" data in
  let dc := EvUnmarshal "cmd.dataContainer" data in
  let dcV1 := EvUnmarshal "cmd.dataContainerV1" data in
  if version_shape members then
    paperCryptMajorVersion data l
    = (match major_of (last_string (field_values "Version" members) "") with
       | Ok n => Done (uint32 n)
       | Err err => Abort (Join (New "error parsing version") err)
       end, l ++ [vc])%list
  else if flat_shape members then
    paperCryptMajorVersion data l = (Done 2%Z, (l ++ [vc; dc])%list)
  else if nested_shape members then
    paperCryptMajorVersion data l = (Done 1%Z, (l ++ [vc; dc; dcV1])%list)
  else
    exists err,
      paperCryptMajorVersion data l
      = (Abort (Join (New "error deserializing data") err), (l ++ [vc; dc; dcV1])%list).
Proof.
  intros Hvalid vc dc dcV1. subst vc dc dcV1.
  rewrite paperCryptMajorVersion_cases.
  rewrite (Unmarshal_versionContainer_object _ _ Hvalid).
  rewrite (Unmarshal_dataContainer_object _ _ Hvalid).
  pose proof (Unmarshal_dataContainerV1_object _ _ Hvalid) as HV1.
  pose proof (first_string_error_None (field_values "Version" members)) as Hv.
  pose proof (first_string_error_None (field_values "Data" members)) as Hd.
  pose proof (first_container_error_None (field_values "Data" members)) as Hn.
  unfold version_shape, flat_shape, nested_shape.
  destruct (first_string_error (field_values "Version" members)) as [ev|].
  - destruct (forallb string_or_null (field_values "Version" members));
      [destruct Hv as [_ Hv]; discriminate (Hv eq_refl)|].
    destruct (first_string_error (field_values "Data" members)) as [ed|].
    + destruct (forallb string_or_null (field_values "Data" members));
        [destruct Hd as [_ Hd]; discriminate (Hd eq_refl)|].
      destruct (first_container_error (field_values "Data" members)) as [en|].
      * destruct (forallb nested_value (field_values "Data" members));
          [destruct Hn as [_ Hn]; discriminate (Hn eq_refl)|].
        rewrite HV1. eexists. reflexivity.
      * destruct Hn as [Hn _]. rewrite (Hn eq_refl).
        destruct HV1 as [x ->]. reflexivity.
    + destruct Hd as [Hd _]. rewrite (Hd eq_refl). reflexivity.
  - destruct Hv as [Hv _]. rewrite (Hv eq_refl). reflexivity.
Qed.

Lemma sniffer_decision_table_witness :
  paperCryptMajorVersion Fixture.payload_number_nested []
  = (Done 1%Z,
     [EvUnmarshal "cmd.versionContainer" Fixture.payload_number_nested;
      EvUnmarshal "cmd.dataContainer" Fixture.payload_number_nested;
      EvUnmarshal "cmd.dataContainerV1" Fixture.payload_number_nested]).
Proof.
  exact (sniffer_decision_table Fixture.payload_number_nested
           [("Version", JNumber "2"); ("Data", JObject [("Data", JString "x")])]
           [] eq_refl).
Defined.

(** X2.  The sniffer on a text that is not a JSON object.  The literal
    [null] decodes into every container and leaves the version empty, so
    it ends in the version-parsing error after one attempt; a text that
    is not JSON, and an array, a string, a number or a boolean, fail all
    three decodings, and the error reported is the one of the third. *)
Theorem sniffer_on_other_texts (data : string) (l : list event) :
  let vc := EvUnmarshal "cmd.versionContainer" data in
  let dc := EvUnmarshal "cmd.dataContainer" data in
  let dcV1 := EvUnmarshal "cmd.dataContainerV1" data in
  match checkValid data with
  | None =>
      paperCryptMajorVersion data l
      = (Abort (Join (New "error deserializing data") (SyntaxError "invalid JSON input")),
         (l ++ [vc; dc; dcV1])%list)
  | Some JNull =>
      paperCryptMajorVersion data l
      = (Abort (Join (New "error parsing version") (NumError "ParseInt" "" ErrSyntax)),
         (l ++ [vc])%list)
  | Some (JObject _) => True
  | Some v =>
      paperCryptMajorVersion data l
      = (Abort (Join (New "error deserializing data")
                  (UnmarshalTypeError (kind_name v) "cmd.dataContainerV1")),
         (l ++ [vc; dc; dcV1])%list)
  end.
Proof.
  intros vc dc dcV1. subst vc dc dcV1.
  rewrite paperCryptMajorVersion_cases. unfold Unmarshal.
  destruct (checkValid data) as [[| | | | |members]|]; first [reflexivity | exact I].
Qed.

(** X3.  A major version the sniffer returns is a [uint32].  Found by
    shape it is 1 or 2.  Found by the version field it is the major
    component [n] that [strconv.ParseInt] returned, which fits 32 bits
    with its sign: the conversion cannot turn another number into 1 or
    2, and a negative major component wraps to at least [2^31]. *)
Theorem sniffed_major_version_bounds (data : string) (l l' : list event) (major : Z) :
  paperCryptMajorVersion data l = (Done major, l') ->
  (0 <= major < 2 ^ 32)%Z
  /\ match Unmarshal (T := versionContainer) data with
     | Err _ => major = 1%Z \/ major = 2%Z
     | Ok vc =>
         exists n,
           major_of (Version vc) = Ok n
           /\ (- 2 ^ 31 <= n < 2 ^ 31)%Z
           /\ major = uint32 n
           /\ (major = 1%Z <-> n = 1%Z)
           /\ (major = 2%Z <-> n = 2%Z)
           /\ (0 <= n -> major = n)%Z
           /\ (n < 0 -> major = n + 2 ^ 32)%Z
     end.
Proof.
  rewrite paperCryptMajorVersion_cases.
  destruct (Unmarshal (T := versionContainer) data) as [vc|e].
  - destruct (major_of (Version vc)) as [n|err] eqn:Hmajor; [|discriminate].
    intros [= <- _].
    pose proof (ParseInt_range _ 32 n ltac:(lia) Hmajor) as Hn.
    change (2 ^ (32 - 1))%Z with (2 ^ 31)%Z in Hn.
    assert (Hpos : (0 <= n -> uint32 n = n)%Z).
    { intros H0. unfold uint32. apply Z.mod_small. lia. }
    assert (Hneg : (n < 0 -> uint32 n = n + 2 ^ 32)%Z).
    { intros H0. unfold uint32.
      symmetry. apply (Z.mod_unique n 4294967296 (-1) (n + 2 ^ 32)); lia. }
    assert (Hbound : (0 <= uint32 n < 2 ^ 32)%Z).
    { unfold uint32. apply Z.mod_pos_bound. lia. }
    split; [exact Hbound|].
    assert (Hexact : forall k, (0 < k < 2 ^ 31)%Z -> uint32 n = k <-> n = k).
    { intros k Hk. split; [|intros ->; apply Hpos; lia].
      intros Hu. destruct (Z.lt_ge_cases n 0) as [H0|H0];
        [rewrite (Hneg H0) in Hu | rewrite (Hpos H0) in Hu]; lia. }
    exists n.
    split; [reflexivity|]. split; [exact Hn|]. split; [reflexivity|].
    split; [apply Hexact; lia|]. split; [apply Hexact; lia|].
    split; assumption.
  - destruct (Unmarshal (T := dataContainer) data).
    + intros [= <- _]. split; [lia | right; reflexivity].
    + destruct (Unmarshal (T := dataContainerV1) data); [|discriminate].
      intros [= <- _]. split; [lia | left; reflexivity].
Qed.

Lemma sniffed_major_version_bounds_witness :
  (0 <= 4294967295 < 2 ^ 32)%Z
  /\ exists n,
       major_of "-1.0" = Ok n
       /\ (- 2 ^ 31 <= n < 2 ^ 31)%Z
       /\ 4294967295%Z = uint32 n
       /\ (4294967295%Z = 1%Z <-> n = 1%Z)
       /\ (4294967295%Z = 2%Z <-> n = 2%Z)
       /\ (0 <= n -> 4294967295 = n)%Z
       /\ (n < 0 -> 4294967295 = n + 2 ^ 32)%Z.
Proof.
  exact (sniffed_major_version_bounds (Fixture.dq "{'Version':'-1.0'}") []
           [EvUnmarshal "cmd.versionContainer" (Fixture.dq "{'Version':'-1.0'}")]
           4294967295%Z eq_refl).
Defined.

(** The first piece [strings.Split] returns. *)
Lemma hd_Split_cons c s sep :
  Ascii.eqb c sep = false ->
  hd EmptyString (Split (String c s) sep) = String c (hd EmptyString (Split s sep)).
Proof.
  intros Hc. simpl. rewrite Hc.
  destruct (Split s sep) eqn:Hs; [|reflexivity].
  exfalso. exact (Split_nonempty _ _ Hs).
Qed.

Lemma hd_Split_app d sep rest :
  all_chars (fun c => negb (Ascii.eqb c sep)) d = true ->
  hd EmptyString (Split (d ++ String sep rest) sep) = d.
Proof.
  induction d as [|c d IH]; simpl; intros Hd.
  - rewrite Ascii.eqb_refl. reflexivity.
  - apply andb_prop in Hd as [Hc Hd]. apply negb_true_iff in Hc.
    change (hd EmptyString (Split (String c (d ++ String sep rest)) sep) = String c d).
    rewrite hd_Split_cons by exact Hc. rewrite IH by exact Hd. reflexivity.
Qed.

Lemma hd_Split_whole d sep :
  all_chars (fun c => negb (Ascii.eqb c sep)) d = true ->
  hd EmptyString (Split d sep) = d.
Proof.
  induction d as [|c d IH]; simpl; intros Hd; [reflexivity|].
  apply andb_prop in Hd as [Hc Hd]. apply negb_true_iff in Hc.
  change (hd EmptyString (Split (String c d) sep) = String c d).
  rewrite hd_Split_cons by exact Hc. rewrite IH by exact Hd. reflexivity.
Qed.

Lemma TrimPrefix_v s : TrimPrefix (String "v" s) "v" = s.
Proof. destruct s; reflexivity. Qed.

Lemma TrimPrefix_none s p : HasPrefix s p = false -> TrimPrefix s p = s.
Proof. intros H. unfold TrimPrefix. rewrite H. reflexivity. Qed.

(** X4.  Only the text before the first dot of a version matters, and
    one leading [v] of it is dropped, not more: for a major component
    without a dot, what follows the dot changes nothing, and the version
    with a [v] in front is read as [strconv.ParseInt] reads the
    component itself. *)
Theorem major_component_alone_counts (maj rest : string) :
  no_dot maj = true ->
  major_of (maj ++ String "." rest) = major_of maj
  /\ major_of (String "v" maj ++ String "." rest) = ParseInt maj 32
  /\ major_of (String "v" maj) = ParseInt maj 32
  /\ (HasPrefix maj "v" = false -> major_of (maj ++ String "." rest) = ParseInt maj 32).
Proof.
  intros Hmaj. unfold no_dot in Hmaj. unfold major_of.
  assert (Hv : all_chars (fun c => negb (Ascii.eqb c ".")) (String "v" maj) = true).
  { simpl. exact Hmaj. }
  rewrite (hd_Split_app maj "." rest Hmaj), (hd_Split_whole maj "." Hmaj).
  rewrite (hd_Split_app (String "v" maj) "." rest Hv), (hd_Split_whole (String "v" maj) "." Hv).
  rewrite TrimPrefix_v.
  repeat split. intros Hnov. rewrite TrimPrefix_none by exact Hnov. reflexivity.
Qed.

Lemma major_component_alone_counts_witness :
  major_of "2.10.3" = major_of "2"
  /\ major_of "v2.10.3" = ParseInt "2" 32
  /\ major_of "v2" = ParseInt "2" 32
  /\ (HasPrefix "2" "v" = false -> major_of "2.10.3" = ParseInt "2" 32).
Proof.
  exact (major_component_alone_counts "2" "10.3" eq_refl).
Defined.

Lemma pretty_N_char_digit r :
  r < 10 ->
  in_range 48 57 (pretty_N_char r) = true /\ code (pretty_N_char r) - 48 = r.
Proof.
  intros Hr.
  assert (Hc : r = 0 \/ r = 1 \/ r = 2 \/ r = 3 \/ r = 4 \/ r = 5 \/ r = 6
               \/ r = 7 \/ r = 8 \/ r = 9) by lia.
  repeat (destruct Hc as [->|Hc]; [split; reflexivity|]). subst r. split; reflexivity.
Qed.

(** The digits loop reads back what [pretty] prints, as long as the
    number is within [maxVal]. *)
Lemma digits10_pretty_N_go x maxVal :
  (Z.of_N x <= maxVal)%Z ->
  forall s, digits10 (pretty_N_go x s) 0 maxVal = digits10 s (Z.of_N x) maxVal.
Proof.
  induction (N.lt_wf_0 x) as [x _ IH]; intros Hx s.
  destruct (N.eq_dec x 0) as [->|Hne]; [reflexivity|].
  rewrite pretty_N_go_step by lia.
  rewrite IH; [|apply N.div_lt; lia|].
  - destruct (pretty_N_char_digit (x mod 10)) as [Hdigit Hcode];
      [apply N.mod_lt; lia|].
    cbn [digits10]. rewrite Hdigit, Hcode.
    assert (Hval : (10 * Z.of_N (x / 10) + Z.of_N (x mod 10))%Z = Z.of_N x).
    { rewrite (N.div_mod x 10) at 3 by lia.
      rewrite N2Z.inj_add, N2Z.inj_mul. reflexivity. }
    cbv zeta. rewrite Hval.
    destruct (Z.ltb_spec maxVal (Z.of_N x)); [lia | reflexivity].
  - assert (x / 10 < x) by (apply N.div_lt; lia). lia.
Qed.

Lemma pretty_N_go_chars (p : ascii -> bool) x :
  (forall r, r < 10 -> p (pretty_N_char r) = true) ->
  forall s, all_chars p s = true -> all_chars p (pretty_N_go x s) = true.
Proof.
  intros Hp. induction (N.lt_wf_0 x) as [x _ IH]; intros s Hs.
  destruct (N.eq_dec x 0) as [->|Hx]; [exact Hs|].
  rewrite pretty_N_go_step by lia.
  apply IH; [apply N.div_lt; lia|].
  simpl. rewrite Hp by (apply N.mod_lt; lia). exact Hs.
Qed.

Lemma pretty_N_go_first x :
  x <> 0 ->
  exists c s, pretty_N_go x EmptyString = String c s
              /\ Ascii.eqb c "+" = false /\ Ascii.eqb c "-" = false
              /\ Ascii.eqb c "v" = false.
Proof.
  intros Hx.
  pose (p := fun c : ascii =>
               negb (Ascii.eqb c "+") && negb (Ascii.eqb c "-") && negb (Ascii.eqb c "v")).
  assert (Hp : forall r, r < 10 -> p (pretty_N_char r) = true).
  { intros r Hr.
    assert (Hc : r = 0 \/ r = 1 \/ r = 2 \/ r = 3 \/ r = 4 \/ r = 5 \/ r = 6
                 \/ r = 7 \/ r = 8 \/ r = 9) by lia.
    repeat (destruct Hc as [->|Hc]; [reflexivity|]). subst r. reflexivity. }
  rewrite pretty_N_go_step by lia.
  pose proof (pretty_N_go_chars p (x / 10) Hp
                (String (pretty_N_char (x mod 10)) EmptyString)) as Hall.
  simpl in Hall. rewrite Hp in Hall by (apply N.mod_lt; lia).
  specialize (Hall eq_refl).
  assert (Hlen : forall y t, t <> EmptyString -> pretty_N_go y t <> EmptyString).
  { intros y. induction (N.lt_wf_0 y) as [y _ IHy]; intros t Ht.
    destruct (N.eq_dec y 0) as [->|Hy]; [exact Ht|].
    rewrite pretty_N_go_step by lia. apply IHy; [apply N.div_lt; lia | discriminate]. }
  destruct (pretty_N_go (x / 10) _) as [|c s] eqn:Hgo.
  - exfalso. eapply Hlen; [|exact Hgo]. discriminate.
  - exists c, s. simpl in Hall. unfold p in Hall.
    apply andb_prop in Hall as [Hc _].
    apply andb_prop in Hc as [Hc Hv]. apply andb_prop in Hc as [Hplus Hminus].
    apply negb_true_iff in Hplus, Hminus, Hv. auto.
Qed.

Lemma pretty_N_go_no_dot x : no_dot (pretty_N_go x EmptyString) = true.
Proof.
  apply pretty_N_go_chars; [|reflexivity].
  intros r Hr.
  assert (Hc : r = 0 \/ r = 1 \/ r = 2 \/ r = 3 \/ r = 4 \/ r = 5 \/ r = 6
               \/ r = 7 \/ r = 8 \/ r = 9) by lia.
  repeat (destruct Hc as [->|Hc]; [reflexivity|]). subst r. reflexivity.
Qed.

(** [strconv.ParseInt] reads back the decimal numeral of every integer
    that fits the bit size. *)
Lemma ParseInt_pretty (n : Z) (bitSize : Z) :
  (- 2 ^ (bitSize - 1) <= n < 2 ^ (bitSize - 1))%Z ->
  ParseInt (pretty n) bitSize = Ok n.
Proof.
  intros Hn.
  assert (Hsize : (1 <= bitSize)%Z).
  { destruct (Z.lt_ge_cases bitSize 1) as [Hsmall|Hbig]; [|exact Hbig].
    rewrite Z.pow_neg_r in Hn by lia. lia. }
  assert (Hpow : (2 ^ bitSize = 2 * 2 ^ (bitSize - 1))%Z).
  { replace bitSize with (Z.succ (bitSize - 1)) at 1 by lia.
    apply Z.pow_succ_r. lia. }
  assert (Hdigits : forall q : positive,
             (Z.pos q <= 2 ^ (bitSize - 1))%Z ->
             digits10 (pretty_N_go (N.pos q) EmptyString) 0 (2 ^ bitSize - 1)
             = Digits (Z.pos q)).
  { intros q Hq. rewrite digits10_pretty_N_go by (cbn [Z.of_N]; lia). reflexivity. }
  destruct n as [|q|q].
  - assert (Hzero : digits10 "0" 0 (2 ^ bitSize - 1) = Digits 0%Z).
    { cbn [digits10]. change (in_range 48 57 "0"%char) with true.
      change (10 * 0 + Z.of_N (code "0"%char - 48))%Z with 0%Z. cbv iota zeta.
      destruct (Z.ltb_spec (2 ^ bitSize - 1) 0); [lia | reflexivity]. }
    change (pretty 0%Z) with "0". unfold ParseInt.
    change (Ascii.eqb "0" "+" || Ascii.eqb "0" "-") with false.
    change (Ascii.eqb "0" "-") with false. cbv iota zeta.
    rewrite Hzero.
    destruct (Z.leb_spec (2 ^ (bitSize - 1)) 0); [lia | reflexivity].
  - change (pretty (Z.pos q)) with (pretty_N_go (N.pos q) EmptyString).
    destruct (pretty_N_go_first (N.pos q)) as (c & s & Hgo & Hplus & Hminus & _);
      [discriminate|].
    pose proof (Hdigits q ltac:(lia)) as Hd.
    rewrite Hgo in *. unfold ParseInt. rewrite Hplus, Hminus. cbn [orb].
    rewrite Hd.
    destruct (Z.leb_spec (2 ^ (bitSize - 1)) (Z.pos q)); [lia | reflexivity].
  - change (pretty (Z.neg q)) with (String "-" (pretty_N_go (N.pos q) EmptyString)).
    destruct (pretty_N_go_first (N.pos q)) as (c & s & Hgo & _);
      [discriminate|].
    pose proof (Hdigits q ltac:(lia)) as Hd.
    unfold ParseInt. cbn [Ascii.eqb Bool.eqb orb andb].
    rewrite Hgo in *. rewrite Hd.
    destruct (Z.ltb_spec (2 ^ (bitSize - 1)) (Z.pos q)); [lia | reflexivity].
Qed.

(** X5.  The major component of a version number is read back: for every
    integer [n] that fits 32 bits with its sign, a version that starts
    with the decimal numeral of [n], with or without a [v] in front,
    alone or followed by a dot and anything, has the major component
    [n]. *)
Theorem major_of_reads_the_numeral_back (n : Z) (rest : string) :
  (- 2 ^ 31 <= n < 2 ^ 31)%Z ->
  major_of (pretty n) = Ok n
  /\ major_of (pretty n ++ String "." rest) = Ok n
  /\ major_of (String "v" (pretty n)) = Ok n
  /\ major_of (String "v" (pretty n) ++ String "." rest) = Ok n.
Proof.
  intros Hn.
  assert (Hdot : no_dot (pretty n) = true).
  { destruct n as [|q|q]; [reflexivity | apply pretty_N_go_no_dot|].
    change (pretty (Z.neg q)) with (String "-" (pretty_N_go (N.pos q) EmptyString)).
    unfold no_dot. simpl. apply pretty_N_go_no_dot. }
  assert (Hnov : HasPrefix (pretty n) "v" = false).
  { destruct n as [|q|q]; [reflexivity| |reflexivity].
    change (pretty (Z.pos q)) with (pretty_N_go (N.pos q) EmptyString).
    destruct (pretty_N_go_first (N.pos q)) as (c & s & -> & _ & _ & Hv);
      [discriminate|].
    cbn [HasPrefix]. rewrite Ascii.eqb_sym, Hv. reflexivity. }
  assert (Hv : no_dot (String "v" (pretty n)) = true) by exact Hdot.
  pose proof (ParseInt_pretty n 32 Hn) as Hparse.
  unfold major_of. unfold no_dot in Hdot, Hv.
  rewrite (hd_Split_app _ "." rest Hdot), (hd_Split_whole _ "." Hdot).
  rewrite (hd_Split_app _ "." rest Hv), (hd_Split_whole _ "." Hv).
  rewrite TrimPrefix_v, (TrimPrefix_none _ _ Hnov).
  repeat split; exact Hparse.
Qed.

Lemma major_of_reads_the_numeral_back_witness :
  major_of "12" = Ok 12%Z
  /\ major_of "12.0.1" = Ok 12%Z
  /\ major_of "v12" = Ok 12%Z
  /\ major_of "v12.0.1" = Ok 12%Z.
Proof.
  apply (major_of_reads_the_numeral_back 12 "0.1"). lia.
Defined.

(** The last step of the command: one write, and the size printed when
    it went through. *)
Lemma write_cases E outFile data l :
  write E outFile data l
  = match Write E outFile data with
    | Ok n => (Done tt, l ++ [EvWrite data; EvPrintWrittenSize n])
    | Err e => (Abort (Join (New "error writing output") e), l ++ [EvWrite data])
    end%list.
Proof.
  unfold write, try, log. prog_unfold.
  destruct (Write E outFile data); [rewrite <- app_assoc|]; reflexivity.
Qed.

(** [RunE] either stops before anything is logged, or has the payload
    and the output file and goes on with the write or with [decode]. *)
Lemma RunE_cases E fl args l :
  (exists e, RunE E fl args l = (Abort e, l))
  \/ exists data outFile,
       payload_of E fl args data
       /\ GetFileHandleCarefully E (outFileName fl) (overrideOutFile fl) = Ok outFile
       /\ RunE E fl args l
          = if qrCmdToJSON fl then write E outFile data l else decode E outFile data l.
Proof.
  unfold RunE, payload_of, try. prog_unfold.
  destruct (PrintInputAndGetReader E _) as [inFile|e] eqn:Hin; [|left; eexists; reflexivity].
  destruct (qrCmdFromJSON fl) eqn:Hjson.
  - destruct (ReadAll E inFile) as [data [err|]] eqn:Hread.
    + destruct (is_EOF err); [|left; eexists; reflexivity].
      destruct (GetFileHandleCarefully E _ _) as [outFile|e];
        [|left; eexists; reflexivity].
      right. exists data, outFile. split; [|split; [reflexivity | destruct (qrCmdToJSON fl); reflexivity]].
      exists inFile. rewrite Hread. split; reflexivity.
    + destruct (GetFileHandleCarefully E _ _) as [outFile|e];
        [|left; eexists; reflexivity].
      right. exists data, outFile. split; [|split; [reflexivity | destruct (qrCmdToJSON fl); reflexivity]].
      exists inFile. rewrite Hread. split; reflexivity.
  - destruct (image_Decode E inFile) as [img|e] eqn:Himg; [|left; eexists; reflexivity].
    destruct (Close E inFile) as [e|] eqn:Hclose; [left; eexists; reflexivity|].
    destruct (NewBinaryBitmapFromImage E img) as [bmp|e] eqn:Hbmp;
      [|left; eexists; reflexivity].
    destruct (qrReader_Decode E bmp) as [result|e] eqn:Hqr; [|left; eexists; reflexivity].
    destruct (GetFileHandleCarefully E _ _) as [outFile|e];
      [|left; eexists; reflexivity].
    right. exists (GetText E result), outFile. split; [|split; [reflexivity | destruct (qrCmdToJSON fl); reflexivity]].
    exists inFile. split; [reflexivity|].
    exists img, bmp, result. auto.
Qed.

Lemma sniffer_attempts data l :
  exists attempts,
    forallb is_unmarshal attempts = true
    /\ snd (paperCryptMajorVersion data l) = (l ++ attempts)%list.
Proof.
  rewrite paperCryptMajorVersion_cases.
  destruct (Unmarshal (T := versionContainer) data);
    [|destruct (Unmarshal (T := dataContainer) data)];
    eexists; (split; [|reflexivity]); reflexivity.
Qed.

(** The deserializer of a major version, as one case analysis. *)
Lemma deserialize_cases E major data l :
  deserialize E major data l
  = if (major =? 1)%Z then
      (match Unmarshal (H := PaperCryptV1_target E) data with
       | Ok pc =>
           match PaperCryptV1_GetText E pc false with
           | Ok output => Done output
           | Err e => Abort (Join (New "error deserializing data") e)
           end
       | Err e => Abort (Join (New "error deserializing data") e)
       end, l ++ [EvUnmarshal (type_name (Target := PaperCryptV1_target E)) data])%list
    else if (major =? 2)%Z then
      (match Unmarshal (H := PaperCrypt_target E) data with
       | Ok pc =>
           match PaperCrypt_GetText E pc false with
           | Ok output => Done output
           | Err e => Abort (Join (New "error deserializing data") e)
           end
       | Err e => Abort (Join (New "error deserializing data") e)
       end, l ++ [EvUnmarshal (type_name (Target := PaperCrypt_target E)) data])%list
    else (Done EmptyString, l).
Proof.
  unfold deserialize, json_Unmarshal, try, log. prog_unfold.
  destruct (major =? 1)%Z.
  - destruct (Unmarshal data) as [pc|e]; [|reflexivity].
    destruct (PaperCryptV1_GetText E pc false); reflexivity.
  - destruct (major =? 2)%Z; [|reflexivity].
    destruct (Unmarshal data) as [pc|e]; [|reflexivity].
    destruct (PaperCrypt_GetText E pc false); reflexivity.
Qed.

Lemma deserialize_attempts E major data l :
  exists attempts,
    forallb is_unmarshal attempts = true
    /\ snd (deserialize E major data l) = (l ++ attempts)%list.
Proof.
  rewrite deserialize_cases.
  destruct (major =? 1)%Z; [|destruct (major =? 2)%Z].
  - eexists [_]. (split; [|reflexivity]); reflexivity.
  - eexists [_]. (split; [|reflexivity]); reflexivity.
  - exists []. split; [reflexivity | symmetry; apply app_nil_r].
Qed.

(** [decode]: the attempts, then at most one write. *)
Lemma decode_shape E outFile data l :
  exists attempts,
    forallb is_unmarshal attempts = true
    /\ ((exists e, decode E outFile data l = (Abort e, (l ++ attempts)%list))
        \/ exists output,
             decode E outFile data l = write E outFile output (l ++ attempts)%list).
Proof.
  destruct (sniffer_attempts data l) as (evs1 & Hevs1 & Hlog1).
  destruct (paperCryptMajorVersion data l) as [[major|e] l1] eqn:Hsniff;
    simpl in Hlog1; subst l1.
  - rewrite (decode_classified _ _ _ _ _ _ Hsniff). prog_unfold.
    destruct (deserialize_attempts E major data (l ++ evs1)%list) as (evs2 & Hevs2 & Hlog2).
    destruct (deserialize E major data (l ++ evs1)%list) as [[output|e] l2];
      simpl in Hlog2; subst l2; rewrite <- app_assoc;
      (exists (evs1 ++ evs2)%list; split;
       [rewrite forallb_app, Hevs1, Hevs2; reflexivity|]).
    + right. exists output. reflexivity.
    + left. eexists. reflexivity.
  - rewrite (decode_unclassified _ _ _ _ _ _ Hsniff).
    exists evs1. split; [exact Hevs1|]. left. eexists. reflexivity.
Qed.

(** X6.  What a run of [qr] leaves behind, whatever its collaborators
    do: some attempts of [json.Unmarshal] and then at most one write to
    the output file, which is the last thing but for the printing of the
    size.  A run that returns [nil] has written exactly once, to the
    file the careful open returned, and printed the size the write
    returned.  A run that returns an error has written nothing, unless
    the error is the one of the write itself. *)
Theorem RunE_writes_at_most_once (E : Env) (fl : Flags) (args : list string)
    (l l' : list event) (out : outcome error unit) :
  RunE E fl args l = (out, l') ->
  exists attempts,
    forallb is_unmarshal attempts = true
    /\ match out with
       | Done _ =>
           exists outFile data n,
             GetFileHandleCarefully E (outFileName fl) (overrideOutFile fl) = Ok outFile
             /\ Write E outFile data = Ok n
             /\ l' = (l ++ attempts ++ [EvWrite data; EvPrintWrittenSize n])%list
       | Abort err =>
           l' = (l ++ attempts)%list
           \/ exists outFile data e,
                GetFileHandleCarefully E (outFileName fl) (overrideOutFile fl) = Ok outFile
                /\ Write E outFile data = Err e
                /\ err = Join (New "error writing output") e
                /\ l' = (l ++ attempts ++ [EvWrite data])%list
       end.
Proof.
  intros Hrun.
  assert (Hwrite : forall outFile output attempts,
             GetFileHandleCarefully E (outFileName fl) (overrideOutFile fl) = Ok outFile ->
             write E outFile output (l ++ attempts)%list = (out, l') ->
             match out with
             | Done _ =>
                 exists outFile data n,
                   GetFileHandleCarefully E (outFileName fl) (overrideOutFile fl) = Ok outFile
                   /\ Write E outFile data = Ok n
                   /\ l' = (l ++ attempts ++ [EvWrite data; EvPrintWrittenSize n])%list
             | Abort err =>
                 l' = (l ++ attempts)%list
                 \/ exists outFile data e,
                     GetFileHandleCarefully E (outFileName fl) (overrideOutFile fl)
                     = Ok outFile
                     /\ Write E outFile data = Err e
                     /\ err = Join (New "error writing output") e
                     /\ l' = (l ++ attempts ++ [EvWrite data])%list
             end).
  { intros outFile output attempts Hout. rewrite write_cases.
    destruct (Write E outFile output) as [n|e] eqn:Hw; intros [= <- <-].
    - exists outFile, output, n. rewrite app_assoc. auto.
    - right. exists outFile, output, e. rewrite app_assoc. auto. }
  destruct (RunE_cases E fl args l) as [[e He]|(data & outFile & _ & Hout & Hrest)].
  - rewrite He in Hrun. injection Hrun as <- <-.
    exists []. split; [reflexivity|]. left. symmetry. apply app_nil_r.
  - rewrite Hrest in Hrun. destruct (qrCmdToJSON fl).
    + exists []. split; [reflexivity|].
      apply (Hwrite outFile data [] Hout). rewrite app_nil_r. exact Hrun.
    + destruct (decode_shape E outFile data l) as (attempts & Hatt & [[e He]|[output Hw]]).
      * rewrite He in Hrun. injection Hrun as <- <-.
        exists attempts. split; [exact Hatt|]. left. reflexivity.
      * rewrite Hw in Hrun. exists attempts. split; [exact Hatt|].
        exact (Hwrite outFile output attempts Hout Hrun).
Qed.

Lemma RunE_writes_at_most_once_witness :
  exists attempts,
    forallb is_unmarshal attempts = true
    /\ exists (outFile : unit) data n,
         Ok tt = Ok outFile
         /\ Ok (String.length data) = Ok n
         /\ [EvUnmarshal "cmd.versionContainer" Fixture.payload_v3;
             EvWrite ""; EvPrintWrittenSize 0]
            = ([] ++ attempts ++ [EvWrite data; EvPrintWrittenSize n])%list.
Proof.
  exact (RunE_writes_at_most_once (Fixture.qrEnv Fixture.payload_v3) Fixture.qrFlags [] []
           [EvUnmarshal "cmd.versionContainer" Fixture.payload_v3;
            EvWrite ""; EvPrintWrittenSize 0]
           (Done tt) eq_refl).
Defined.

(** X7.  What a successful [decode] has done: after the sniffer, one
    more [json.Unmarshal] of the payload itself into the document type
    of the major version found, and one write of the text [GetText]
    gives for that document with its flag off; or, for a major version
    other than 1 and 2, no decoding and a write of no bytes at all. *)
Theorem decode_writes_the_text_of_the_document (E : Env) (outFile : OutFile E)
    (data : string) (l l' : list event) :
  decode E outFile data l = (Done tt, l') ->
  exists major output n l1 attempts,
    paperCryptMajorVersion data l = (Done major, l1)
    /\ Write E outFile output = Ok n
    /\ l' = (l1 ++ attempts ++ [EvWrite output; EvPrintWrittenSize n])%list
    /\ ((major = 1%Z
         /\ attempts = [EvUnmarshal (type_name (Target := PaperCryptV1_target E)) data]
         /\ exists pc, Unmarshal (H := PaperCryptV1_target E) data = Ok pc
                       /\ PaperCryptV1_GetText E pc false = Ok output)
        \/ (major = 2%Z
            /\ attempts = [EvUnmarshal (type_name (Target := PaperCrypt_target E)) data]
            /\ exists pc, Unmarshal (H := PaperCrypt_target E) data = Ok pc
                          /\ PaperCrypt_GetText E pc false = Ok output)
        \/ (major <> 1%Z /\ major <> 2%Z /\ attempts = [] /\ output = EmptyString)).
Proof.
  intros Hrun.
  destruct (paperCryptMajorVersion data l) as [[major|e] l1] eqn:Hsniff;
    [|rewrite (decode_unclassified _ _ _ _ _ _ Hsniff) in Hrun; discriminate].
  rewrite (decode_classified _ _ _ _ _ _ Hsniff) in Hrun. prog_unfold.
  rewrite deserialize_cases in Hrun.
  destruct (Z.eqb_spec major 1) as [->|H1].
  - destruct (Unmarshal data) as [pc|e] eqn:Hpc; [|discriminate].
    destruct (PaperCryptV1_GetText E pc false) as [output|e] eqn:Htext; [|discriminate].
    rewrite write_cases in Hrun.
    destruct (Write E outFile output) as [n|e] eqn:Hw; [|discriminate].
    injection Hrun as <-.
    exists 1%Z, output, n, l1. eexists.
    split; [reflexivity|]. split; [exact Hw|].
    split; [rewrite app_assoc; reflexivity|].
    left. split; [reflexivity|]. split; [reflexivity|]. exists pc. auto.
  - destruct (Z.eqb_spec major 2) as [->|H2].
    + destruct (Unmarshal data) as [pc|e] eqn:Hpc; [|discriminate].
      destruct (PaperCrypt_GetText E pc false) as [output|e] eqn:Htext; [|discriminate].
      rewrite write_cases in Hrun.
      destruct (Write E outFile output) as [n|e] eqn:Hw; [|discriminate].
      injection Hrun as <-.
      exists 2%Z, output, n, l1. eexists.
      split; [reflexivity|]. split; [exact Hw|].
      split; [rewrite app_assoc; reflexivity|].
      right. left. split; [reflexivity|]. split; [reflexivity|]. exists pc. auto.
    + rewrite write_cases in Hrun.
      destruct (Write E outFile EmptyString) as [n|e] eqn:Hw; [|discriminate].
      injection Hrun as <-.
      exists major, EmptyString, n, l1, [].
      split; [reflexivity|]. split; [exact Hw|]. split; [reflexivity|].
      right. right. auto.
Qed.

Lemma decode_writes_the_text_of_the_document_witness :
  exists major output n l1 attempts,
    paperCryptMajorVersion Fixture.payload_number_flat [] = (Done major, l1)
    /\ Ok (String.length output) = Ok n
    /\ [EvUnmarshal "cmd.versionContainer" Fixture.payload_number_flat;
        EvUnmarshal "cmd.dataContainer" Fixture.payload_number_flat;
        EvUnmarshal "cmd.dataContainer" Fixture.payload_number_flat;
        EvWrite "x"; EvPrintWrittenSize 1]
       = (l1 ++ attempts ++ [EvWrite output; EvPrintWrittenSize n])%list
    /\ ((major = 1%Z
         /\ attempts = [EvUnmarshal "cmd.dataContainerV1" Fixture.payload_number_flat]
         /\ exists pc : dataContainerV1,
             Unmarshal Fixture.payload_number_flat = Ok pc
             /\ Ok (Data (DataV1 pc)) = Ok output)
        \/ (major = 2%Z
            /\ attempts = [EvUnmarshal "cmd.dataContainer" Fixture.payload_number_flat]
            /\ exists pc : dataContainer,
                Unmarshal Fixture.payload_number_flat = Ok pc
                /\ Ok (Data pc) = Ok output)
        \/ (major <> 1%Z /\ major <> 2%Z /\ attempts = [] /\ output = EmptyString)).
Proof.
  exact (decode_writes_the_text_of_the_document (Fixture.qrEnv "") tt
           Fixture.payload_number_flat []
           [EvUnmarshal "cmd.versionContainer" Fixture.payload_number_flat;
            EvUnmarshal "cmd.dataContainer" Fixture.payload_number_flat;
            EvUnmarshal "cmd.dataContainer" Fixture.payload_number_flat;
            EvWrite "x"; EvPrintWrittenSize 1]
           eq_refl).
Defined.

(** X8.  With [--to-json] the payload is not looked at: no
    [json.Unmarshal] is attempted, whether the payload is JSON or not,
    and a run that returns [nil] has written the payload itself (the
    input as read with [--from-json], the text of the QR code
    otherwise), byte for byte and nothing else. *)
Theorem to_json_writes_the_payload_unparsed (E : Env) (fl : Flags) (args : list string)
    (l l' : list event) (out : outcome error unit) :
  qrCmdToJSON fl = true ->
  RunE E fl args l = (out, l') ->
  (forall gotype data, ~ In (EvUnmarshal gotype data) (skipn (List.length l) l'))
  /\ (out = Done tt ->
      exists data n,
        payload_of E fl args data
        /\ l' = (l ++ [EvWrite data; EvPrintWrittenSize n])%list).
Proof.
  intros Hto Hrun.
  destruct (RunE_cases E fl args l) as [[e He]|(data & outFile & Hdata & Hout & Hrest)].
  - rewrite He in Hrun. injection Hrun as <- <-. split; [|discriminate].
    intros gotype data. rewrite skipn_all. intros [].
  - rewrite Hrest, Hto, write_cases in Hrun.
    destruct (Write E outFile data) as [n|e]; injection Hrun as <- <-.
    + split.
      * intros gotype d. rewrite skipn_app, skipn_all, Nat.sub_diag. simpl.
        intros [H|[H|[]]]; discriminate.
      * intros _. exists data, n. auto.
    + split; [|discriminate].
      intros gotype d. rewrite skipn_app, skipn_all, Nat.sub_diag. simpl.
      intros [H|[]]; discriminate.
Qed.

Lemma to_json_writes_the_payload_unparsed_witness :
  (forall gotype data,
      ~ In (EvUnmarshal gotype data)
          (skipn (List.length (@nil event)) [EvWrite "not JSON"; EvPrintWrittenSize 8]))
  /\ (@Done error unit tt = Done tt ->
      exists data n,
        payload_of (Fixture.qrEnv "not JSON") Samples.qrFlagsToJSON [] data
        /\ [EvWrite "not JSON"; EvPrintWrittenSize 8]
           = ([] ++ [EvWrite data; EvPrintWrittenSize n])%list).
Proof.
  exact (to_json_writes_the_payload_unparsed (Fixture.qrEnv "not JSON")
           Samples.qrFlagsToJSON [] [] [EvWrite "not JSON"; EvPrintWrittenSize 8]
           (Done tt) eq_refl eq_refl).
Defined.

End QrMore.

(** * More properties of [generate] *)
Section GenerateMoreProperties.
Import Go Json Prog Generate GenerateSpec GenerateMore Text.
Context (E : Env).

(** The last phase, branch by branch: the outcome, the events and the
    files. *)
Lemma finish_cases fl serialNumber timestamp secretContentsMinimal passphrase w :
  let enc := EvEncrypt passphrase secretContentsMinimal in
  let out := outFileName fl in
  finish E fl serialNumber timestamp secretContentsMinimal passphrase w
  = match encrypt E passphrase secretContentsMinimal with
    | Err err =>
        (Abort 1%Z,
         emit E [enc; EvStdout ("Error encrypting secret contents: " ++ Error err ++ nl)] w)
    | Ok message =>
        let doc := NewPaperCrypt (VersionInfo_Version E) message serialNumber
                     (purpose fl) (comment fl) timestamp in
        if to_stdout fl then
          match render E fl doc with
          | Err err =>
              (Abort 1%Z,
               emit E [enc; EvNewPaperCrypt doc;
                       EvStdout ("Error creating file contents: " ++ Error err ++ nl)] w)
          | Ok text =>
              match write_error E with
              | Some err =>
                  (Abort 1%Z,
                   emit E [enc; EvNewPaperCrypt doc;
                           EvStdout ("Error writing file: " ++ Error err ++ nl)] w)
              | None =>
                  (Done tt,
                   emit E [enc; EvNewPaperCrypt doc; EvStdout text;
                           EvStdout ("Wrote " ++ pretty (String.length text)
                                       ++ " bytes to " ++ "/dev/stdout" ++ nl);
                           EvStdout ("Done!" ++ nl)] w)
              end
          end
        else
          match create_error E out with
          | Some err =>
              (Abort 1%Z,
               emit E [enc; EvOpenWrite out;
                       EvStdout ("Error opening file: " ++ Error err ++ nl)] w)
          | None =>
              match render E fl doc with
              | Err err =>
                  (Abort 1%Z,
                   emit E [enc; EvOpenWrite out; EvNewPaperCrypt doc;
                           EvStdout ("Error creating file contents: " ++ Error err ++ nl)]
                     (put E out "" w))
              | Ok text =>
                  match write_error E with
                  | Some err =>
                      (Abort 1%Z,
                       emit E [enc; EvOpenWrite out; EvNewPaperCrypt doc;
                               EvStdout ("Error writing file: " ++ Error err ++ nl)]
                         (put E out "" w))
                  | None =>
                      (Done tt,
                       emit E [enc; EvOpenWrite out; EvNewPaperCrypt doc;
                               EvWriteFile out text;
                               EvStdout ("Wrote " ++ pretty (String.length text)
                                           ++ " bytes to " ++ out ++ nl);
                               EvStdout ("Done!" ++ nl)]
                         (put E out text w))
                  end
              end
          end
    end.
Proof.
  intros enc out. subst enc out.
  unfold finish, encryptSecretContents, openOutFile, writeDocument, os_OpenFile_TRUNC,
    File_Write, File_Name, Println, Printf, os_Exit, log, emit, put, to_stdout, render.
  prog_unfold.
  destruct (encrypt E passphrase secretContentsMinimal) as [message|err];
    cbn [fs stdin trace]; [|rewrite <- app_assoc; reflexivity].
  destruct (String.eqb (outFileName fl) "" || String.eqb (outFileName fl) "-").
  - cbn [fs stdin trace].
    destruct (if outputPdf fl then _ else _) as [text|err];
      cbn [fs stdin trace]; [|rewrite <- !app_assoc; reflexivity].
    destruct (write_error E); cbn [fs stdin trace]; rewrite <- !app_assoc; reflexivity.
  - cbn [fs stdin trace].
    destruct (create_error E (outFileName fl)); cbn [fs stdin trace];
      [rewrite <- !app_assoc; reflexivity|].
    destruct (if outputPdf fl then _ else _) as [text|err];
      cbn [fs stdin trace]; [|rewrite <- !app_assoc; reflexivity].
    destruct (write_error E); cbn [fs stdin trace];
      rewrite <- ?app_assoc; [reflexivity|].
    rewrite alter_insert_eq. reflexivity.
Qed.

Lemma forallb_weaken {A} (f g : A -> bool) (l : list A) :
  (forall x, f x = true -> g x = true) -> forallb f l = true -> forallb g l = true.
Proof.
  intros Hfg. induction l as [|a l IH]; simpl; [reflexivity|].
  intros Hall. apply andb_prop in Hall as [Ha Hl].
  rewrite (Hfg a Ha), (IH Hl). reflexivity.
Qed.

(** A run stops before the encryption, with status 1, a message and
    the files as they were, or it enters the last phase with what the
    prelude and the dialogue have established. *)
Lemma Run_reaches_finish_from fl files input out w :
  generate E fl files input = (out, w) ->
  (out = Abort 1%Z /\ fs w = files
   /\ forallb (before_encryption E) (trace w) = true
   /\ exists msg, List.last (trace w) EvNow = EvStdout msg)
  \/ exists serialNumber timestamp secretContentsMinimal line w1 w2,
       prelude E fl {| fs := files; stdin := input; trace := [] |}
       = (Done (serialNumber, timestamp, secretContentsMinimal), w1)
       /\ prelude_facts E fl files serialNumber timestamp secretContentsMinimal
       /\ entered input = Some (line, line)
       /\ fs w2 = files
       /\ forallb (before_encryption E) (trace w2) = true
       /\ finish E fl serialNumber timestamp secretContentsMinimal (strip line) w2
          = (out, w).
Proof.
  unfold generate. rewrite Run_phases. intros H.
  assert (Hpq : forall evs, forallb (prelude_event E) evs = true ->
                            forallb (before_encryption E) evs = true).
  { intros evs. apply forallb_weaken. intros ev Hev.
    unfold before_encryption. rewrite Hev. reflexivity. }
  assert (Hdq : forall evs, forallb (dialogue_event E) evs = true ->
                            forallb (before_encryption E) evs = true).
  { intros evs. apply forallb_weaken. intros ev Hev.
    unfold before_encryption. rewrite Hev. apply orb_true_r. }
  apply bind_inv in H as [(e & Hpre & ->) | ([[serial ts] sc] & w1 & Hpre & H)];
    pose proof (prelude_spec E _ _ _ _ Hpre)
      as (Hfs1 & Hin1 & (evs_pre & Htr1 & Hall1 & Hmsg1) & Hfacts);
    cbn [fs stdin trace app] in Hfs1, Hin1, Htr1, Hfacts.
  - left. subst e. destruct (Hmsg1 _ eq_refl) as [msg Hmsg].
    rewrite Htr1. eauto 6.
  - apply bind_inv in H as [(e & Hdlg & ->) | (p & w2 & Hdlg & H)];
      apply readPassphrase_spec in Hdlg
        as (Hfs2 & (evs_dlg & Htr2 & Hall2 & Hmsg2) & Hres).
    + left. subst e. destruct (Hmsg2 _ eq_refl) as (msg & Hlast & _).
      rewrite Htr2, Htr1. split; [reflexivity|]. split; [congruence|].
      split; [rewrite forallb_app, (Hpq _ Hall1), (Hdq _ Hall2); reflexivity|].
      exists msg. rewrite last_app_nonempty; [exact Hlast|].
      intros ->. discriminate Hlast.
    + right. destruct Hres as (line & Hentered & ->). rewrite Hin1 in Hentered.
      exists serial, ts, sc, line, w1, w2.
      split; [exact Hpre|].
      split; [exact Hfacts|]. split; [exact Hentered|]. split; [congruence|].
      split; [|exact H].
      rewrite Htr2, Htr1, forallb_app, (Hpq _ Hall1), (Hdq _ Hall2). reflexivity.
Qed.

Lemma Run_reaches_finish fl files input out w :
  generate E fl files input = (out, w) ->
  (out = Abort 1%Z /\ fs w = files
   /\ forallb (before_encryption E) (trace w) = true
   /\ exists msg, List.last (trace w) EvNow = EvStdout msg)
  \/ exists serialNumber timestamp secretContentsMinimal line w2,
       prelude_facts E fl files serialNumber timestamp secretContentsMinimal
       /\ entered input = Some (line, line)
       /\ fs w2 = files
       /\ forallb (before_encryption E) (trace w2) = true
       /\ finish E fl serialNumber timestamp secretContentsMinimal (strip line) w2
          = (out, w).
Proof.
  intros Hrun.
  destruct (Run_reaches_finish_from _ _ _ _ _ Hrun)
    as [Hstop|(serial & ts & sc & line & w1 & w2 & _ & Hrest)];
    [left; exact Hstop | right; eauto 8].
Qed.

(** Splitting a run on the branch its last phase takes. *)
Ltac finish_split H :=
  rewrite finish_cases in H; cbv zeta in H;
  repeat match type of H with
         | context [match ?x with _ => _ end] =>
             lazymatch x with
             | context [match _ with _ => _ end] => fail
             | _ => destruct x eqn:?
             end
         end;
  injection H as <- <-; cbn [fs stdin trace emit put] in *.

(** An event of the encryption or of the output is one of the last
    phase. *)
Ltac in_finish Hin Hquiet :=
  apply in_app_or in Hin as [Hin|Hin];
  [ exfalso; pose proof (In_forallb _ _ _ Hquiet Hin) as Hq; discriminate Hq
  | simpl in Hin;
    repeat (destruct Hin as [Hin|Hin]; [try discriminate Hin|]);
    try contradiction ].

(** X9.  How a run ends: through [os.Exit] with status 1 and no other,
    right after a message on standard output, or by returning, and then
    the last thing printed is [Done!]. *)
Theorem run_ends_with_a_message (fl : Flags) (files : gmap string string)
    (input : string) (out : outcome Z unit) (w : World E) :
  generate E fl files input = (out, w) ->
  match out with
  | Abort status =>
      status = 1%Z /\ exists msg, List.last (trace w) EvNow = EvStdout msg
  | Done _ => List.last (trace w) EvNow = EvStdout ("Done!" ++ nl)
  end.
Proof.
  intros Hrun.
  apply Run_reaches_finish in Hrun
    as [(-> & _ & _ & Hmsg)
       |(serial & ts & sc & line & w2 & _ & _ & _ & _ & Hfin)].
  - split; [reflexivity | exact Hmsg].
  - finish_split Hfin.
    all: try split; try reflexivity.
    all: try (eexists; rewrite last_app_nonempty by discriminate; reflexivity).
    all: rewrite last_app_nonempty by discriminate; reflexivity.
Qed.

(** A line read from standard input is some text without a line feed,
    followed by the line feed. *)
Lemma split_line_shape s line rest :
  split_line s = Some (line, rest) ->
  exists body,
    line = body ++ nl
    /\ all_chars (fun c => negb (Ascii.eqb c LF)) body = true
    /\ s = line ++ rest.
Proof.
  revert line rest. induction s as [|c s IH]; intros line rest; simpl; [discriminate|].
  destruct (Ascii.eqb c LF) eqn:Hc.
  - intros [= <- <-]. apply Ascii.eqb_eq in Hc as ->.
    exists EmptyString. repeat split.
  - unfold mbind, option_bind.
    destruct (split_line s) as [[line' rest']|]; [|discriminate].
    intros [= <- <-].
    destruct (IH line' rest' eq_refl) as (body & -> & Hbody & ->).
    exists (String c body). simpl. rewrite Hc, Hbody. repeat split.
Qed.

Lemma ReplaceAll_app a b old new :
  ReplaceAll (a ++ b) old new = ReplaceAll a old new ++ ReplaceAll b old new.
Proof.
  assert (Hassoc : forall x y z : string, x ++ (y ++ z) = (x ++ y) ++ z).
  { induction x as [|d x IHx]; intros y z; [reflexivity|].
    change (String d (x ++ (y ++ z)) = String d ((x ++ y) ++ z)).
    f_equal. apply IHx. }
  induction a as [|c a IH]; simpl; [reflexivity|].
  rewrite IH. destruct (Ascii.eqb c old); [apply Hassoc | reflexivity].
Qed.

Lemma ReplaceAll_absent s old new :
  all_chars (fun c => negb (Ascii.eqb c old)) s = true -> ReplaceAll s old new = s.
Proof.
  induction s as [|c s IH]; simpl; [reflexivity|].
  intros Hs. apply andb_prop in Hs as [Hc Hs]. apply negb_true_iff in Hc.
  rewrite Hc, (IH Hs). reflexivity.
Qed.

(** Taking a character out of a string: it is gone, and what held of
    every character still holds. *)
Lemma ReplaceAll_removes s old :
  all_chars (fun c => negb (Ascii.eqb c old)) (ReplaceAll s old "") = true.
Proof.
  induction s as [|c s IH]; simpl; [reflexivity|].
  destruct (Ascii.eqb c old) eqn:Hc; simpl; [exact IH|].
  rewrite Hc, IH. reflexivity.
Qed.

Lemma ReplaceAll_keeps (p : ascii -> bool) s old :
  all_chars p s = true -> all_chars p (ReplaceAll s old "") = true.
Proof.
  induction s as [|c s IH]; simpl; [reflexivity|].
  intros Hs. apply andb_prop in Hs as [Hc Hs].
  destruct (Ascii.eqb c old); simpl; [exact (IH Hs)|].
  rewrite Hc, (IH Hs). reflexivity.
Qed.

Lemma all_chars_and (p q : ascii -> bool) s :
  all_chars p s = true -> all_chars q s = true ->
  all_chars (fun c => p c && q c) s = true.
Proof.
  induction s as [|c s IH]; simpl; [reflexivity|].
  intros Hp Hq. apply andb_prop in Hp as [Hpc Hp]. apply andb_prop in Hq as [Hqc Hq].
  rewrite Hpc, Hqc, (IH Hp Hq). reflexivity.
Qed.

Lemma strip_line body :
  all_chars (fun c => negb (Ascii.eqb c LF)) body = true ->
  strip (body ++ nl) = ReplaceAll body CR ""
  /\ all_chars no_line_break (strip (body ++ nl)) = true.
Proof.
  intros Hbody. unfold strip.
  assert (Hnl : ReplaceAll (body ++ nl) CR "" = ReplaceAll body CR "" ++ nl).
  { rewrite ReplaceAll_app. reflexivity. }
  rewrite Hnl, ReplaceAll_app.
  pose proof (ReplaceAll_keeps _ body CR Hbody) as Hkept.
  rewrite (ReplaceAll_absent _ LF "" Hkept).
  change (ReplaceAll nl LF "") with EmptyString.
  assert (Hnil : forall t : string, t ++ "" = t).
  { induction t as [|c t IHt]; [reflexivity|].
    change (String c (t ++ "") = String c t). f_equal. exact IHt. }
  rewrite Hnil. split; [reflexivity|].
  unfold no_line_break. apply all_chars_and; [apply ReplaceAll_removes | exact Hkept].
Qed.

(** X10.  The passphrase handed to the encryption is the line typed,
    twice the same, without its line feed and without any carriage
    return: it holds neither of the two characters. *)
Theorem passphrase_has_no_line_break (fl : Flags) (files : gmap string string)
    (input : string) (out : outcome Z unit) (w : World E) (passphrase data : string) :
  generate E fl files input = (out, w) ->
  In (EvEncrypt passphrase data) (trace w) ->
  exists body,
    entered input = Some (body ++ nl, body ++ nl)
    /\ all_chars (fun c => negb (Ascii.eqb c LF)) body = true
    /\ passphrase = ReplaceAll body CR ""
    /\ all_chars no_line_break passphrase = true.
Proof.
  intros Hrun Hin.
  apply Run_reaches_finish in Hrun
    as [(_ & _ & Hquiet & _)
       |(serial & ts & sc & line & w2 & _ & Hent & _ & Hquiet & Hfin)].
  - discriminate (In_forallb _ _ _ Hquiet Hin).
  - assert (Hline : exists body, line = body ++ nl
                      /\ all_chars (fun c => negb (Ascii.eqb c LF)) body = true).
    { unfold entered, mbind, option_bind in Hent.
      destruct (split_line input) as [[first rest]|] eqn:Hfirst; [|discriminate].
      destruct (split_line rest) as [[second rest']|]; [|discriminate].
      injection Hent as -> _.
      destruct (split_line_shape _ _ _ Hfirst) as (body & -> & Hbody & _). eauto. }
    destruct Hline as (body & -> & Hbody).
    destruct (strip_line body Hbody) as [Hstrip Hclean].
    assert (Hp : passphrase = strip (body ++ nl)).
    { finish_split Hfin; in_finish Hin Hquiet; congruence. }
    exists body. rewrite Hp. auto.
Qed.

(** X11.  With the output path empty or [-] the document goes to
    standard output and the file system is left as it was, whatever
    happens: no file is opened for writing, none is written, and a run
    that returns has printed the rendering of the document it built. *)
Theorem stdout_destination_changes_no_file (fl : Flags) (files : gmap string string)
    (input : string) (out : outcome Z unit) (w : World E) :
  to_stdout fl = true ->
  generate E fl files input = (out, w) ->
  fs w = files
  /\ (forall name, ~ In (EvOpenWrite name) (trace w))
  /\ (forall name text, ~ In (EvWriteFile name text) (trace w))
  /\ (out = Done tt ->
      exists doc text,
        In (EvNewPaperCrypt doc) (trace w)
        /\ render E fl doc = Ok text
        /\ In (EvStdout text) (trace w)).
Proof.
  intros Hstd Hrun.
  apply Run_reaches_finish in Hrun
    as [(-> & Hfs & Hquiet & _)
       |(serial & ts & sc & line & w2 & _ & _ & Hfs & Hquiet & Hfin)].
  - split; [exact Hfs|]. split; [|split]; [| |discriminate].
    + intros name Hin. discriminate (In_forallb _ _ _ Hquiet Hin).
    + intros name text Hin. discriminate (In_forallb _ _ _ Hquiet Hin).
  - rewrite finish_cases in Hfin. cbv zeta in Hfin. rewrite Hstd in Hfin.
    destruct (encrypt E (strip line) sc) as [message|err].
    + destruct (render E fl _) as [text|err] eqn:Hrender.
      * destruct (write_error E); injection Hfin as <- <-; cbn [fs stdin trace emit].
        -- split; [exact Hfs|]. split; [|split]; [| |discriminate].
           ++ intros name Hin. in_finish Hin Hquiet.
           ++ intros name t Hin. in_finish Hin Hquiet.
        -- split; [exact Hfs|]. split; [|split].
           ++ intros name Hin. in_finish Hin Hquiet.
           ++ intros name t Hin. in_finish Hin Hquiet.
           ++ intros _. eexists. exists text.
              split; [apply in_or_app; right; simpl; eauto|].
              split; [exact Hrender|]. apply in_or_app. right. simpl. eauto.
      * injection Hfin as <- <-; cbn [fs stdin trace emit].
        split; [exact Hfs|]. split; [|split]; [| |discriminate].
        -- intros name Hin. in_finish Hin Hquiet.
        -- intros name t Hin. in_finish Hin Hquiet.
    + injection Hfin as <- <-; cbn [fs stdin trace emit].
      split; [exact Hfs|]. split; [|split]; [| |discriminate].
      * intros name Hin. in_finish Hin Hquiet.
      * intros name t Hin. in_finish Hin Hquiet.
Qed.

(** X12.  With an output path that names a file, a run that returns
    leaves in that file exactly the rendering of the one document it
    built, whatever the file held before, and leaves every other file as
    it was. *)
Theorem success_leaves_the_rendering_in_the_file (fl : Flags)
    (files : gmap string string) (input : string) (w : World E) :
  to_stdout fl = false ->
  generate E fl files input = (Done tt, w) ->
  exists doc text,
    In (EvNewPaperCrypt doc) (trace w)
    /\ (forall doc', In (EvNewPaperCrypt doc') (trace w) -> doc' = doc)
    /\ render E fl doc = Ok text
    /\ In (EvWriteFile (outFileName fl) text) (trace w)
    /\ fs w = <[outFileName fl := text]> files.
Proof.
  intros Hstd Hrun.
  apply Run_reaches_finish in Hrun
    as [(Hout & _)|(serial & ts & sc & line & w2 & _ & _ & Hfs & Hquiet & Hfin)];
    [discriminate|].
  rewrite finish_cases in Hfin. cbv zeta in Hfin. rewrite Hstd in Hfin.
  destruct (encrypt E (strip line) sc) as [message|err]; [|discriminate].
  destruct (create_error E (outFileName fl)); [discriminate|].
  destruct (render E fl _) as [text|err] eqn:Hrender; [|discriminate].
  destruct (write_error E); [discriminate|].
  injection Hfin as <-. cbn [fs stdin trace emit put].
  eexists. exists text.
  split; [apply in_or_app; right; simpl; eauto|].
  split; [|split; [exact Hrender|split]].
  - intros doc' Hin. in_finish Hin Hquiet. congruence.
  - apply in_or_app. right. simpl. eauto 6.
  - rewrite Hfs. reflexivity.
Qed.

(** X13.  The output file is opened, and so truncated, before the
    document is rendered: when the rendering fails, the run ends in
    [os.Exit(1)] and the output file is left empty, whatever it held
    before; every other file is as it was. *)
Theorem failed_rendering_leaves_the_file_empty (fl : Flags)
    (files : gmap string string) (input : string) (out : outcome Z unit) (w : World E)
    (doc : Document E) (err : error) :
  to_stdout fl = false ->
  generate E fl files input = (out, w) ->
  In (EvNewPaperCrypt doc) (trace w) ->
  render E fl doc = Err err ->
  out = Abort 1%Z
  /\ fs w = <[outFileName fl := ""]> files
  /\ (forall name text, ~ In (EvWriteFile name text) (trace w))
  /\ List.last (trace w) EvNow
     = EvStdout ("Error creating file contents: " ++ Error err ++ nl).
Proof.
  intros Hstd Hrun Hin Hfail.
  apply Run_reaches_finish in Hrun
    as [(_ & _ & Hquiet & _)
       |(serial & ts & sc & line & w2 & _ & _ & Hfs & Hquiet & Hfin)].
  { discriminate (In_forallb _ _ _ Hquiet Hin). }
  rewrite finish_cases in Hfin. cbv zeta in Hfin. rewrite Hstd in Hfin.
  destruct (encrypt E (strip line) sc) as [message|e].
  - destruct (create_error E (outFileName fl)).
    + injection Hfin as <- <-. cbn [fs stdin trace emit put] in Hin.
      in_finish Hin Hquiet.
    + destruct (render E fl _) as [text|e] eqn:Hrender.
      * exfalso.
        destruct (write_error E); injection Hfin as <- <-;
          cbn [fs stdin trace emit put] in Hin; in_finish Hin Hquiet;
          injection Hin as <-; congruence.
      * injection Hfin as <- <-. cbn [fs stdin trace emit put] in *.
        assert (e = err) as ->.
        { in_finish Hin Hquiet. injection Hin as <-. congruence. }
        split; [reflexivity|]. split; [rewrite Hfs; reflexivity|].
        split; [|rewrite last_app_nonempty by discriminate; reflexivity].
        intros name text Hin'. in_finish Hin' Hquiet.
  - injection Hfin as <- <-. cbn [fs stdin trace emit put] in Hin.
    in_finish Hin Hquiet.
Qed.

(** X14.  [encrypt] hands the minimized contents and the passphrase to
    the encryption primitive and wraps its error.  When the primitive
    fails the run ends in [os.Exit(1)] after a message that carries the
    wrapped error; nothing has been opened for writing, no document has
    been built, and the files are as they were. *)
Theorem failed_encryption_touches_no_file (fl : Flags) (files : gmap string string)
    (input : string) (out : outcome Z unit) (w : World E)
    (passphrase data : string) (err : error) :
  generate E fl files input = (out, w) ->
  In (EvEncrypt passphrase data) (trace w) ->
  EncryptMessageWithPassword E data passphrase = Err err ->
  out = Abort 1%Z
  /\ fs w = files
  /\ (forall name, ~ In (EvOpenWrite name) (trace w))
  /\ (forall doc, ~ In (EvNewPaperCrypt doc) (trace w))
  /\ List.last (trace w) EvNow
     = EvStdout ("Error encrypting secret contents: error encrypting message: "
                   ++ Error err ++ nl).
Proof.
  intros Hrun Hin Hfail.
  apply Run_reaches_finish in Hrun
    as [(_ & _ & Hquiet & _)
       |(serial & ts & sc & line & w2 & _ & _ & Hfs & Hquiet & Hfin)].
  { discriminate (In_forallb _ _ _ Hquiet Hin). }
  assert (Hargs : passphrase = strip line /\ data = sc).
  { rewrite finish_cases in Hfin. cbv zeta in Hfin.
    repeat match type of Hfin with
           | context [match ?x with _ => _ end] =>
               lazymatch x with
               | context [match _ with _ => _ end] => fail
               | _ => destruct x
               end
           end;
      injection Hfin as <- <-; cbn [fs stdin trace emit put] in Hin;
      in_finish Hin Hquiet; injection Hin as <- <-; auto. }
  destruct Hargs as [-> ->].
  rewrite finish_cases in Hfin. cbv zeta in Hfin.
  unfold encrypt in Hfin. rewrite Hfail in Hfin.
  injection Hfin as <- <-. cbn [fs stdin trace emit put Error].
  split; [reflexivity|]. split; [exact Hfs|].
  split; [|split].
  - intros name Hin'. in_finish Hin' Hquiet.
  - intros doc Hin'. in_finish Hin' Hquiet.
  - rewrite last_app_nonempty by discriminate. reflexivity.
Qed.

(** X15.  Every document a run builds carries the version of the
    build, the purpose and the comment of the flags, and as its data the
    very message the encryption primitive returned for the minimized
    contents and the passphrase of the one encryption of the run. *)
Theorem document_carries_flags_and_ciphertext (fl : Flags)
    (files : gmap string string) (input : string) (out : outcome Z unit) (w : World E)
    (doc : Document E) :
  generate E fl files input = (out, w) ->
  In (EvNewPaperCrypt doc) (trace w) ->
  Version doc = VersionInfo_Version E
  /\ Purpose doc = purpose fl
  /\ Comment doc = comment fl
  /\ exists passphrase data,
       In (EvEncrypt passphrase data) (trace w)
       /\ (forall p d, In (EvEncrypt p d) (trace w) -> p = passphrase /\ d = data)
       /\ EncryptMessageWithPassword E data passphrase = Ok (Data doc).
Proof.
  intros Hrun Hin.
  apply Run_reaches_finish in Hrun
    as [(_ & _ & Hquiet & _)
       |(serial & ts & sc & line & w2 & _ & _ & Hfs & Hquiet & Hfin)].
  { discriminate (In_forallb _ _ _ Hquiet Hin). }
  rewrite finish_cases in Hfin. cbv zeta in Hfin.
  assert (Henc : forall message, encrypt E (strip line) sc = Ok message ->
                                 EncryptMessageWithPassword E sc (strip line) = Ok message).
  { intros message. unfold encrypt.
    destruct (EncryptMessageWithPassword E sc (strip line)); congruence. }
  destruct (encrypt E (strip line) sc) as [message|e];
    [specialize (Henc message eq_refl)|].
  - repeat match type of Hfin with
           | context [match ?x with _ => _ end] =>
               lazymatch x with
               | context [match _ with _ => _ end] => fail
               | _ => destruct x
               end
           end;
      injection Hfin as <- <-; cbn [fs stdin trace emit put] in *;
      in_finish Hin Hquiet; injection Hin as <-; cbn [Version Purpose Comment Data];
      (split; [reflexivity|]); (split; [reflexivity|]); (split; [reflexivity|]);
      exists (strip line), sc;
      (split; [apply in_or_app; right; left; reflexivity|]);
      (split; [|exact Henc]);
      intros p d Hin'; in_finish Hin' Hquiet; injection Hin' as <- <-; auto.
  - injection Hfin as <- <-. cbn [fs stdin trace emit put] in Hin.
    in_finish Hin Hquiet.
Qed.

(** The steps of the prelude and the dialogue get through when nothing
    stands in their way; none of them changes a file. *)
Lemma checkOutFile_through fl w :
  (file_exists (fs w) (outFileName fl) = true -> overrideOutFile fl = true) ->
  exists w1, checkOutFile E fl w = (Done tt, w1) /\ fs w1 = fs w /\ stdin w1 = stdin w.
Proof.
  intros Hforce. unfold checkOutFile, os_Stat, Printf, os_Exit, log. prog_unfold.
  cbn [fs stdin trace].
  destruct (file_exists (fs w) (outFileName fl)); [rewrite (Hforce eq_refl)|];
    eexists; (split; [reflexivity|]); split; reflexivity.
Qed.

Lemma provideSerialNumber_through fl w :
  (serialNumber fl = EmptyString -> is_ok (GenerateSerial E 6) = true) ->
  exists serial w1,
    provideSerialNumber E fl w = (Done serial, w1) /\ fs w1 = fs w /\ stdin w1 = stdin w.
Proof.
  intros Hserial. unfold provideSerialNumber, Printf, os_Exit, log. prog_unfold.
  destruct (String.eqb_spec (serialNumber fl) "") as [Hempty|_].
  - specialize (Hserial Hempty).
    destruct (GenerateSerial E 6) as [serial|e]; [|discriminate].
    do 2 eexists. (split; [reflexivity|]); split; reflexivity.
  - do 2 eexists. (split; [reflexivity|]); split; reflexivity.
Qed.

Lemma parseDate_through fl w :
  (date fl <> EmptyString ->
   exists layout, In layout layouts /\ is_ok (time_Parse E layout (date fl)) = true) ->
  exists timestamp w1,
    parseDate E fl w = (Done timestamp, w1) /\ fs w1 = fs w /\ stdin w1 = stdin w.
Proof.
  intros Hdate. unfold parseDate, Printf, os_Exit, log. prog_unfold.
  destruct (String.eqb_spec (date fl) "") as [_|Hgiven].
  - do 2 eexists. (split; [reflexivity|]); split; reflexivity.
  - destruct (Hdate Hgiven) as (layout & Hin & Hok).
    destruct (time_Parse E "Mon, 02 Jan 2006 15:04:05.000000000 MST" (date fl)) eqn:H1;
      [do 2 eexists; (split; [reflexivity|]); split; reflexivity|].
    destruct (time_Parse E "2006-01-02 15:04:05" (date fl)) eqn:H2;
      [do 2 eexists; (split; [reflexivity|]); split; reflexivity|].
    destruct (time_Parse E "2006-01-02" (date fl)) eqn:H3;
      [do 2 eexists; (split; [reflexivity|]); split; reflexivity|].
    exfalso. simpl in Hin.
    destruct Hin as [<-|[<-|[<-|[]]]];
      [rewrite H1 in Hok | rewrite H2 in Hok | rewrite H3 in Hok]; discriminate.
Qed.

Lemma readSecretContents_through fl w contents secretContents secretContentsMinimal :
  lookup_path (fs w) (inFileName fl) = Some contents ->
  Decode E contents = Ok secretContents ->
  json_Encode E secretContents = Ok secretContentsMinimal ->
  exists w1,
    readSecretContents E fl w = (Done secretContentsMinimal, w1)
    /\ fs w1 = fs w /\ stdin w1 = stdin w.
Proof.
  intros Hfile Hdec Henc.
  unfold readSecretContents, os_OpenFile_RDONLY, Printf, os_Exit, log. prog_unfold.
  cbn [fs stdin trace]. rewrite Hfile, Hdec, Henc.
  eexists. (split; [reflexivity|]); split; reflexivity.
Qed.

Lemma readPassphrase_through w line :
  entered (stdin w) = Some (line, line) ->
  exists w1, readPassphrase E w = (Done (strip line), w1) /\ fs w1 = fs w.
Proof.
  unfold entered, mbind, option_bind. intros Hent.
  destruct (split_line (stdin w)) as [[first rest]|] eqn:Hfirst; [|discriminate].
  destruct (split_line rest) as [[second rest']|] eqn:Hsecond; [|discriminate].
  injection Hent as -> ->.
  unfold readPassphrase, ReadString, Println, Printf, os_Exit, log. prog_unfold.
  cbn [fs stdin trace]. rewrite Hfirst. cbn [fs stdin trace]. rewrite Hsecond.
  cbn [fs stdin trace]. rewrite String.eqb_refl. cbn [negb].
  eexists. split; reflexivity.
Qed.

(** A run that nothing hinders returns. *)
Lemma Run_returns_unhindered fl files input :
  unhindered E fl files input ->
  (serialNumber fl = EmptyString -> is_ok (GenerateSerial E 6) = true) ->
  (date fl <> EmptyString ->
   exists layout, In layout layouts /\ is_ok (time_Parse E layout (date fl)) = true) ->
  fst (generate E fl files input) = Done tt.
Proof.
  intros [Hforce (contents & secretContents & sc & line & Hfile & Hdec & Henc & Hent & Hcrypt)
            Hcreate Hrender Hwrite] Hserial Hdate.
  unfold generate. rewrite Run_phases. unfold prelude. prog_unfold.
  set (w0 := {| fs := files; stdin := input; trace := [] |}).
  destruct (checkOutFile_through fl w0 Hforce) as (w1 & -> & Hfs1 & Hin1).
  destruct (provideSerialNumber_through fl w1 Hserial) as (serial & w2 & -> & Hfs2 & Hin2).
  destruct (parseDate_through fl w2 Hdate) as (ts & w3 & -> & Hfs3 & Hin3).
  destruct (readSecretContents_through fl w3 contents secretContents sc)
    as (w4 & -> & Hfs4 & Hin4); [|exact Hdec|exact Henc|].
  { rewrite Hfs3, Hfs2, Hfs1. exact Hfile. }
  destruct (readPassphrase_through w4 line) as (w5 & -> & Hfs5).
  { rewrite Hin4, Hin3, Hin2, Hin1. exact Hent. }
  rewrite finish_cases. cbv zeta. unfold encrypt.
  destruct (EncryptMessageWithPassword E sc (strip line)) as [message|e]; [|discriminate].
  set (doc := NewPaperCrypt _ _ _ _ _ _).
  specialize (Hrender doc). rewrite Hwrite.
  destruct (render E fl doc) as [text|e]; [|discriminate].
  destruct (to_stdout fl); [reflexivity|].
  rewrite (Hcreate eq_refl). reflexivity.
Qed.

(** C6.  When no date is given, the timestamp of every document built
    is the reading of the clock, and the run does get that far: unless
    something else stands in its way (the output path, the serial
    number, the input file, the passphrase, the encryption or the
    output), it returns, having built a document whose timestamp is the
    reading of the clock.  When a date is given that none of the three
    layouts parses, the run ends in [os.Exit(1)] with no document built
    and no file changed. *)
Theorem timestamp_is_clock_reading_or_parsed_date
    (fl : Flags) (files : gmap string string) (input : string)
    (out : outcome Z unit) (w : World E) :
  generate E fl files input = (out, w) ->
  (date fl = "" ->
     (forall doc, In (EvNewPaperCrypt doc) (trace w) -> CreatedAt doc = Now E)
     /\ (out = Done tt -> exists doc, In (EvNewPaperCrypt doc) (trace w))
     /\ (unhindered E fl files input ->
         (serialNumber fl = "" -> is_ok (GenerateSerial E 6) = true) ->
         out = Done tt
         /\ exists doc, In (EvNewPaperCrypt doc) (trace w) /\ CreatedAt doc = Now E))
  /\ (date fl <> "" ->
      (forall layout, In layout layouts -> is_ok (time_Parse E layout (date fl)) = false) ->
      out = Abort 1%Z
      /\ (forall doc, ~ In (EvNewPaperCrypt doc) (trace w))
      /\ fs w = files).
Proof.
  intros Hgen. pose proof (Run_sound _ _ _ _ _ _ Hgen) as Hrun. split.
  - intros Hdate.
    assert (Hclock : forall doc, In (EvNewPaperCrypt doc) (trace w) -> CreatedAt doc = Now E).
    { intros doc Hin.
      destruct (Run_documents _ _ _ _ _ _ _ Hrun Hin) as (serial & ts & sc & Hfacts & _ & <-).
      pose proof (pf_date _ _ _ _ _ _ Hfacts) as Hts.
      rewrite Hdate in Hts. exact Hts. }
    split; [exact Hclock|]. split.
    + intros ->. exact (Run_done_document _ _ _ _ _ Hrun).
    + intros Hclear Hserial.
      assert (Hout : out = Done tt).
      { pose proof (Run_returns_unhindered fl files input Hclear Hserial) as Hdone.
        rewrite Hgen in Hdone. apply Hdone. intros Hgiven. contradiction. }
      subst out. split; [reflexivity|].
      destruct (Run_done_document _ _ _ _ _ Hrun) as [doc Hin].
      exists doc. split; [exact Hin | exact (Hclock doc Hin)].
  - intros Hdate Hfail.
    destruct (Run_stopped_in_prelude _ _ _ _ _ _ Hrun) as (-> & Hfs & _ & Hall).
    + intros serial ts sc Hfacts.
      pose proof (pf_date _ _ _ _ _ _ Hfacts) as Hts.
      destruct (String.eqb_spec (date fl) ""); [contradiction|].
      destruct Hts as (layout & Hin & Hok).
      specialize (Hfail layout Hin). rewrite Hok in Hfail. discriminate Hfail.
    + repeat split; [|exact Hfs].
      intros doc. exact (prelude_builds_no_document _ _ _ Hall).
Qed.

(** C7.  When no serial number is given, the one [GenerateSerial(6)]
    draws from the random source has six characters and is the serial
    number of every document built, and the run does get that far:
    unless something else stands in its way, it returns, having built a
    document with that serial number.  If the generation fails the run
    ends in [os.Exit(1)] with no document built and no file changed.  A
    serial number that is given is the serial number of every document
    built as it is, and again the run returns with such a document
    unless something else stands in its way. *)
Theorem serial_number_generated_or_kept
    (fl : Flags) (files : gmap string string) (input : string)
    (out : outcome Z unit) (w : World E) :
  generate E fl files input = (out, w) ->
  (serialNumber fl = "" ->
     forall serial, GenerateSerial E 6 = Ok serial ->
       String.length serial = 6%nat
       /\ (forall doc, In (EvNewPaperCrypt doc) (trace w) -> SerialNumber doc = serial)
       /\ (unhindered E fl files input ->
           (date fl <> "" ->
            exists layout,
              In layout layouts /\ is_ok (time_Parse E layout (date fl)) = true) ->
           out = Done tt
           /\ exists doc, In (EvNewPaperCrypt doc) (trace w) /\ SerialNumber doc = serial))
  /\ (serialNumber fl = "" ->
      forall err, GenerateSerial E 6 = Err err ->
        out = Abort 1%Z
        /\ (forall doc, ~ In (EvNewPaperCrypt doc) (trace w))
        /\ fs w = files)
  /\ (serialNumber fl <> "" ->
      (forall doc, In (EvNewPaperCrypt doc) (trace w) -> SerialNumber doc = serialNumber fl)
      /\ (unhindered E fl files input ->
          (date fl <> "" ->
           exists layout,
             In layout layouts /\ is_ok (time_Parse E layout (date fl)) = true) ->
          out = Done tt
          /\ exists doc,
               In (EvNewPaperCrypt doc) (trace w) /\ SerialNumber doc = serialNumber fl))
  /\ (out = Done tt -> exists doc, In (EvNewPaperCrypt doc) (trace w)).
Proof.
  intros Hgen.
  pose proof (Run_sound _ _ _ _ _ _ Hgen) as Hrun.
  assert (Hserial : forall doc, In (EvNewPaperCrypt doc) (trace w) ->
            if String.eqb (serialNumber fl) ""
            then GenerateSerial E 6 = Ok (SerialNumber doc)
            else SerialNumber doc = serialNumber fl).
  { intros doc Hin.
    destruct (Run_documents _ _ _ _ _ _ _ Hrun Hin) as (s & ts & sc & Hfacts & <- & _).
    exact (pf_serial _ _ _ _ _ _ Hfacts). }
  assert (Hreturns : unhindered E fl files input ->
            (serialNumber fl = "" -> is_ok (GenerateSerial E 6) = true) ->
            (date fl <> "" ->
             exists layout, In layout layouts /\ is_ok (time_Parse E layout (date fl)) = true) ->
            out = Done tt /\ exists doc, In (EvNewPaperCrypt doc) (trace w)).
  { intros Hclear Hs Hd.
    pose proof (Run_returns_unhindered fl files input Hclear Hs Hd) as Hdone.
    rewrite Hgen in Hdone. simpl in Hdone. subst out.
    split; [reflexivity | exact (Run_done_document _ _ _ _ _ Hrun)]. }
  split; [|split; [|split]].
  - intros Hnone serial Hok.
    assert (Hall : forall doc, In (EvNewPaperCrypt doc) (trace w) -> SerialNumber doc = serial).
    { intros doc Hin. specialize (Hserial doc Hin).
      rewrite Hnone in Hserial. simpl in Hserial. congruence. }
    split; [exact (GenerateSerial_length _ _ _ Hok)|]. split; [exact Hall|].
    intros Hclear Hd.
    destruct (Hreturns Hclear) as (-> & doc & Hin); [intros _; rewrite Hok; reflexivity | exact Hd|].
    split; [reflexivity|]. exists doc. split; [exact Hin | exact (Hall doc Hin)].
  - intros Hnone err Hfail.
    destruct (Run_stopped_in_prelude _ _ _ _ _ _ Hrun) as (-> & Hfs & _ & Hall).
    + intros s ts sc Hfacts. pose proof (pf_serial _ _ _ _ _ _ Hfacts) as Hs.
      rewrite Hnone in Hs. simpl in Hs. congruence.
    + repeat split; [|exact Hfs].
      intros doc. exact (prelude_builds_no_document _ _ _ Hall).
  - intros Hgiven.
    assert (Hall : forall doc, In (EvNewPaperCrypt doc) (trace w) ->
                               SerialNumber doc = serialNumber fl).
    { intros doc Hin. specialize (Hserial doc Hin).
      destruct (String.eqb_spec (serialNumber fl) ""); [contradiction | exact Hserial]. }
    split; [exact Hall|]. intros Hclear Hd.
    destruct (Hreturns Hclear) as (-> & doc & Hin); [intros Hnone; contradiction | exact Hd|].
    split; [reflexivity|]. exists doc. split; [exact Hin | exact (Hall doc Hin)].
  - intros ->. exact (Run_done_document _ _ _ _ _ Hrun).
Qed.

(** X16.  A run returns whenever nothing stands in its way: the output
    path is free or [--force] is set, a serial number is given or can be
    drawn, no date is given or one of the three layouts parses it, the
    input file is there and its first JSON value decodes into a map that
    can be encoded again, the same line was entered twice, the
    encryption, the rendering and the write do not fail, and the output
    file can be created. *)
Theorem generate_returns (fl : Flags) (files : gmap string string) (input : string)
    (contents : string) (secretContents : Map E) (secretContentsMinimal line : string) :
  (file_exists files (outFileName fl) = true -> overrideOutFile fl = true) ->
  (serialNumber fl = EmptyString -> is_ok (GenerateSerial E 6) = true) ->
  (date fl <> EmptyString ->
   exists layout, In layout layouts /\ is_ok (time_Parse E layout (date fl)) = true) ->
  lookup_path files (inFileName fl) = Some contents ->
  Decode E contents = Ok secretContents ->
  json_Encode E secretContents = Ok secretContentsMinimal ->
  entered input = Some (line, line) ->
  is_ok (EncryptMessageWithPassword E secretContentsMinimal (strip line)) = true ->
  (to_stdout fl = false -> create_error E (outFileName fl) = None) ->
  (forall doc, is_ok (render E fl doc) = true) ->
  write_error E = None ->
  exists w, generate E fl files input = (Done tt, w).
Proof.
  intros Hforce Hserial Hdate Hfile Hdec Henc Hent Hcrypt Hcreate Hrender Hwrite.
  unfold generate. rewrite Run_phases. unfold prelude. prog_unfold.
  set (w0 := {| fs := files; stdin := input; trace := [] |}).
  destruct (checkOutFile_through fl w0 Hforce) as (w1 & -> & Hfs1 & Hin1).
  destruct (provideSerialNumber_through fl w1 Hserial) as (serial & w2 & -> & Hfs2 & Hin2).
  destruct (parseDate_through fl w2 Hdate) as (ts & w3 & -> & Hfs3 & Hin3).
  destruct (readSecretContents_through fl w3 contents secretContents secretContentsMinimal)
    as (w4 & -> & Hfs4 & Hin4); [|exact Hdec|exact Henc|].
  { rewrite Hfs3, Hfs2, Hfs1. exact Hfile. }
  destruct (readPassphrase_through w4 line) as (w5 & -> & Hfs5).
  { rewrite Hin4, Hin3, Hin2, Hin1. exact Hent. }
  rewrite finish_cases. cbv zeta. unfold encrypt.
  destruct (EncryptMessageWithPassword E secretContentsMinimal (strip line))
    as [message|e]; [|discriminate].
  set (doc := NewPaperCrypt _ _ _ _ _ _).
  specialize (Hrender doc). rewrite Hwrite.
  destruct (render E fl doc) as [text|e]; [|discriminate].
  destruct (to_stdout fl); [eexists; reflexivity|].
  rewrite (Hcreate eq_refl). eexists. reflexivity.
Qed.

(** [parseDate] with a date given: the timestamp is what the first
    layout that accepts the date makes of it. *)
Lemma parseDate_first fl w timestamp w' :
  parseDate E fl w = (Done timestamp, w') ->
  date fl <> EmptyString ->
  exists pre layout post,
    layouts = (pre ++ layout :: post)%list
    /\ (forall l, In l pre -> is_ok (time_Parse E l (date fl)) = false)
    /\ time_Parse E layout (date fl) = Ok timestamp.
Proof.
  unfold parseDate, Printf, os_Exit, log. prog_unfold.
  destruct (String.eqb_spec (date fl) "") as [Hempty|_]; [intros _ Hgiven; contradiction|].
  intros Hrun _.
  destruct (time_Parse E "Mon, 02 Jan 2006 15:04:05.000000000 MST" (date fl)) eqn:H1.
  { injection Hrun as <- _. exists [], "Mon, 02 Jan 2006 15:04:05.000000000 MST".
    eexists. split; [reflexivity|]. split; [intros l []|exact H1]. }
  destruct (time_Parse E "2006-01-02 15:04:05" (date fl)) eqn:H2.
  { injection Hrun as <- _.
    exists ["Mon, 02 Jan 2006 15:04:05.000000000 MST"], "2006-01-02 15:04:05".
    eexists. split; [reflexivity|]. split; [|exact H2].
    intros l [<-|[]]. rewrite H1. reflexivity. }
  destruct (time_Parse E "2006-01-02" (date fl)) eqn:H3; [|discriminate].
  injection Hrun as <- _.
  exists ["Mon, 02 Jan 2006 15:04:05.000000000 MST"; "2006-01-02 15:04:05"], "2006-01-02", [].
  split; [reflexivity|]. split; [|exact H3].
  intros l [<-|[<-|[]]]; [rewrite H1 | rewrite H2]; reflexivity.
Qed.

Lemma bind_Done {W X A B} (m : prog W X A) (k : A -> prog W X B) w b w' :
  (m ≫= k) w = (Done b, w') ->
  exists a w1, m w = (Done a, w1) /\ k a w1 = (Done b, w').
Proof.
  intros H. apply bind_inv in H as [(e & _ & Hno)|Hyes]; [discriminate | exact Hyes].
Qed.

(** X18.  A date given on the command line is tried against the three
    layouts in their order, and the timestamp of the document is what
    the first layout that accepts it makes of it, whatever the later
    ones would. *)
Theorem date_layouts_are_tried_in_order (fl : Flags) (files : gmap string string)
    (input : string) (out : outcome Z unit) (w : World E) (doc : Document E) :
  generate E fl files input = (out, w) ->
  In (EvNewPaperCrypt doc) (trace w) ->
  date fl <> EmptyString ->
  exists pre layout post,
    layouts = (pre ++ layout :: post)%list
    /\ (forall l, In l pre -> is_ok (time_Parse E l (date fl)) = false)
    /\ time_Parse E layout (date fl) = Ok (CreatedAt doc).
Proof.
  intros Hrun Hin Hgiven.
  apply Run_reaches_finish_from in Hrun
    as [(_ & _ & Hquiet & _)
       |(serial & ts & sc & line & w1 & w2 & Hpre & _ & _ & _ & Hquiet & Hfin)].
  { discriminate (In_forallb _ _ _ Hquiet Hin). }
  assert (Hts : CreatedAt doc = ts).
  { rewrite finish_cases in Hfin. cbv zeta in Hfin.
    repeat match type of Hfin with
           | context [match ?x with _ => _ end] =>
               lazymatch x with
               | context [match _ with _ => _ end] => fail
               | _ => destruct x
               end
           end;
      injection Hfin as <- <-; cbn [fs stdin trace emit put] in Hin;
      in_finish Hin Hquiet; injection Hin as <-; reflexivity. }
  rewrite Hts. unfold prelude in Hpre.
  apply bind_Done in Hpre as ([] & wa & _ & Hpre).
  apply bind_Done in Hpre as (serial' & wb & _ & Hpre).
  apply bind_Done in Hpre as (ts' & wc & Hdate & Hpre).
  apply bind_Done in Hpre as (sc' & wd & _ & Hpre).
  injection Hpre as _ -> _ _.
  exact (parseDate_first _ _ _ _ Hdate Hgiven).
Qed.

End GenerateMoreProperties.

(** * More properties of [generate] on the example machine *)
Section GenerateMoreExamples.
Import Go Json Prog Generate GenerateSpec GenerateMore Text Fixture Samples.

(** The example machine: nothing stands in the way of a run. *)
Lemma example_unhindered (serialNumber date : string) :
  unhindered (genEnv true) (genFlags serialNumber date false)
    (inputOnly secret) (lines "pw" "pw").
Proof.
  constructor.
  - discriminate.
  - exists secret, (Some [("a", JNumber "1")]), secretMinimal, ("pw" ++ nl).
    repeat split.
  - reflexivity.
  - intros doc. reflexivity.
  - reflexivity.
Defined.

Lemma timestamp_is_clock_reading_or_parsed_date_witness :
  (fst (generate (genEnv true) (genFlags "" "" false) (inputOnly secret) (lines "pw" "pw"))
   = Done tt
   /\ exists doc,
        In (EvNewPaperCrypt doc)
          (trace (snd (generate (genEnv true) (genFlags "" "" false)
                         (inputOnly secret) (lines "pw" "pw"))))
        /\ CreatedAt doc = "2024-01-01 00:00:00")
  /\ fst (generate (genEnv true) (genFlags "" "yesterday" false)
            (inputOnly secret) (lines "pw" "pw")) = Abort 1%Z.
Proof.
  split.
  - refine (proj2 (proj2 (proj1 (timestamp_is_clock_reading_or_parsed_date (genEnv true)
                                   (genFlags "" "" false) (inputOnly secret)
                                   (lines "pw" "pw") _ _ (surjective_pairing _)) eq_refl))
              (example_unhindered "" "") _).
    intros _. reflexivity.
  - refine (proj1 (proj2 (timestamp_is_clock_reading_or_parsed_date (genEnv true)
                            (genFlags "" "yesterday" false) (inputOnly secret)
                            (lines "pw" "pw") _ _ (surjective_pairing _)) _ _)).
    + discriminate.
    + intros layout [<-|[<-|[<-|[]]]]; reflexivity.
Defined.

Lemma serial_number_generated_or_kept_witness :
  (fst (generate (genEnv true) (genFlags "" "" false) (inputOnly secret) (lines "pw" "pw"))
   = Done tt
   /\ exists doc,
        In (EvNewPaperCrypt doc)
          (trace (snd (generate (genEnv true) (genFlags "" "" false)
                         (inputOnly secret) (lines "pw" "pw"))))
        /\ SerialNumber doc = "ABCDEF")
  /\ fst (generate (genEnv false) (genFlags "" "" false)
            (inputOnly secret) (lines "pw" "pw")) = Abort 1%Z
  /\ (fst (generate (genEnv true) (genFlags "XYZ789" "" false)
             (inputOnly secret) (lines "pw" "pw")) = Done tt
      /\ exists doc,
           In (EvNewPaperCrypt doc)
             (trace (snd (generate (genEnv true) (genFlags "XYZ789" "" false)
                            (inputOnly secret) (lines "pw" "pw"))))
           /\ SerialNumber doc = "XYZ789").
Proof.
  split; [|split].
  - refine (proj2 (proj2 (proj1 (serial_number_generated_or_kept (genEnv true)
                                   (genFlags "" "" false) (inputOnly secret)
                                   (lines "pw" "pw") _ _ (surjective_pairing _))
                            eq_refl "ABCDEF" eq_refl))
              (example_unhindered "" "") _).
    intros Hgiven. exfalso. apply Hgiven. reflexivity.
  - exact (proj1 (proj1 (proj2 (serial_number_generated_or_kept (genEnv false)
                                  (genFlags "" "" false) (inputOnly secret)
                                  (lines "pw" "pw") _ _ (surjective_pairing _)))
                    eq_refl (Foreign "entropy source unavailable") eq_refl)).
  - refine (proj2 (proj1 (proj2 (proj2 (serial_number_generated_or_kept (genEnv true)
                                          (genFlags "XYZ789" "" false) (inputOnly secret)
                                          (lines "pw" "pw") _ _ (surjective_pairing _))))
                     _)
              (example_unhindered "XYZ789" "") _).
    + discriminate.
    + intros Hgiven. exfalso. apply Hgiven. reflexivity.
Defined.

Lemma run_ends_with_a_message_witness :
  List.last (trace (snd (generate (genEnv true) (genFlags "" "" false)
                           (inputOnly secret) (lines "pw" "pw")))) EvNow
  = EvStdout ("Done!" ++ nl).
Proof.
  assert (Hrun : generate (genEnv true) (genFlags "" "" false)
                   (inputOnly secret) (lines "pw" "pw")
                 = (Done tt, snd (generate (genEnv true) (genFlags "" "" false)
                                    (inputOnly secret) (lines "pw" "pw"))))
    by (vm_compute; reflexivity).
  exact (run_ends_with_a_message (genEnv true) (genFlags "" "" false)
           (inputOnly secret) (lines "pw" "pw") (Done tt) _ Hrun).
Defined.

Lemma passphrase_has_no_line_break_witness :
  exists body,
    entered (lines typed_with_cr typed_with_cr) = Some (body ++ nl, body ++ nl)
    /\ all_chars (fun c => negb (Ascii.eqb c LF)) body = true
    /\ "pw" = ReplaceAll body CR ""
    /\ all_chars no_line_break "pw" = true.
Proof.
  refine (passphrase_has_no_line_break (genEnv true) (genFlags "" "" false)
            (inputOnly secret) (lines typed_with_cr typed_with_cr) _ _
            "pw" secretMinimal (surjective_pairing _) _).
  vm_compute. tauto.
Defined.

Lemma stdout_destination_changes_no_file_witness :
  fst (generate (genEnv true) (genFlagsTo "-" false) (inputOnly secret) (lines "pw" "pw"))
  = Done tt
  /\ fs (snd (generate (genEnv true) (genFlagsTo "-" false)
                (inputOnly secret) (lines "pw" "pw")))
     = inputOnly secret.
Proof.
  split; [vm_compute; reflexivity|].
  exact (proj1 (stdout_destination_changes_no_file (genEnv true) (genFlagsTo "-" false)
                  (inputOnly secret) (lines "pw" "pw") _ _ eq_refl
                  (surjective_pairing _))).
Defined.

Lemma success_leaves_the_rendering_in_the_file_witness :
  withOutput secret !! "out.txt" = Some "old"
  /\ exists doc text,
       In (EvNewPaperCrypt doc)
         (trace (snd (generate (genEnv true) (genFlagsTo "out.txt" true)
                        (withOutput secret) (lines "pw" "pw"))))
       /\ (forall doc',
             In (EvNewPaperCrypt doc')
               (trace (snd (generate (genEnv true) (genFlagsTo "out.txt" true)
                              (withOutput secret) (lines "pw" "pw")))) ->
             doc' = doc)
       /\ render (genEnv true) (genFlagsTo "out.txt" true) doc = Ok text
       /\ In (EvWriteFile "out.txt" text)
            (trace (snd (generate (genEnv true) (genFlagsTo "out.txt" true)
                           (withOutput secret) (lines "pw" "pw"))))
       /\ fs (snd (generate (genEnv true) (genFlagsTo "out.txt" true)
                     (withOutput secret) (lines "pw" "pw")))
          = <["out.txt" := text]> (withOutput secret).
Proof.
  split; [reflexivity|].
  assert (Hrun : generate (genEnv true) (genFlagsTo "out.txt" true)
                   (withOutput secret) (lines "pw" "pw")
                 = (Done tt, snd (generate (genEnv true) (genFlagsTo "out.txt" true)
                                    (withOutput secret) (lines "pw" "pw"))))
    by (vm_compute; reflexivity).
  exact (success_leaves_the_rendering_in_the_file (genEnv true)
           (genFlagsTo "out.txt" true) (withOutput secret) (lines "pw" "pw") _
           eq_refl Hrun).
Defined.

Lemma failed_rendering_leaves_the_file_empty_witness :
  withOutput secret !! "out.txt" = Some "old"
  /\ fst (generate (genEnvWith true false true) (genFlagsTo "out.txt" true)
            (withOutput secret) (lines "pw" "pw")) = Abort 1%Z
  /\ fs (snd (generate (genEnvWith true false true) (genFlagsTo "out.txt" true)
                (withOutput secret) (lines "pw" "pw")))
     = <["out.txt" := ""]> (withOutput secret).
Proof.
  split; [reflexivity|].
  refine (let H := failed_rendering_leaves_the_file_empty (genEnvWith true false true)
                     (genFlagsTo "out.txt" true) (withOutput secret) (lines "pw" "pw") _ _
                     document (Foreign "cannot render") eq_refl (surjective_pairing _) _ eq_refl in
          conj (proj1 H) (proj1 (proj2 H))).
  vm_compute. tauto.
Defined.

Lemma failed_encryption_touches_no_file_witness :
  fst (generate (genEnvWith false true true) (genFlagsTo "out.txt" true)
         (withOutput secret) (lines "pw" "pw")) = Abort 1%Z
  /\ fs (snd (generate (genEnvWith false true true) (genFlagsTo "out.txt" true)
                (withOutput secret) (lines "pw" "pw")))
     = withOutput secret.
Proof.
  refine (let H := failed_encryption_touches_no_file (genEnvWith false true true)
                     (genFlagsTo "out.txt" true) (withOutput secret) (lines "pw" "pw") _ _
                     "pw" secretMinimal (Foreign "no session key")
                     (surjective_pairing _) _ eq_refl in
          conj (proj1 H) (proj1 (proj2 H))).
  vm_compute. tauto.
Defined.

Lemma document_carries_flags_and_ciphertext_witness :
  Version document = "dev"
  /\ Purpose document = "test"
  /\ Comment document = "first copy"
  /\ exists passphrase data,
       In (EvEncrypt passphrase data)
         (trace (snd (generate (genEnv true) (genFlagsTo "out.txt" false)
                        (inputOnly secret) (lines "pw" "pw"))))
       /\ (forall p d,
             In (EvEncrypt p d)
               (trace (snd (generate (genEnv true) (genFlagsTo "out.txt" false)
                              (inputOnly secret) (lines "pw" "pw")))) ->
             p = passphrase /\ d = data)
       /\ EncryptMessageWithPassword (genEnv true) data passphrase = Ok (Data document).
Proof.
  refine (document_carries_flags_and_ciphertext (genEnv true)
            (genFlagsTo "out.txt" false) (inputOnly secret) (lines "pw" "pw") _ _
            document (surjective_pairing _) _).
  vm_compute. tauto.
Defined.

Lemma generate_returns_witness :
  exists w,
    generate (genEnv true) (genFlags "" "2024-05-06" false)
      (inputOnly secret) (lines "pw" "pw") = (Done tt, w).
Proof.
  apply (generate_returns (genEnv true) (genFlags "" "2024-05-06" false)
           (inputOnly secret) (lines "pw" "pw") secret
           (Some [("a", JNumber "1")]) secretMinimal ("pw" ++ nl)).
  - discriminate.
  - reflexivity.
  - intros _. exists "2006-01-02". split; [simpl; tauto | reflexivity].
  - reflexivity.
  - reflexivity.
  - reflexivity.
  - reflexivity.
  - reflexivity.
  - reflexivity.
  - intros doc. reflexivity.
  - reflexivity.
Defined.

Lemma date_layouts_are_tried_in_order_witness :
  exists pre layout post,
    layouts = (pre ++ layout :: post)%list
    /\ (forall l, In l pre -> is_ok (time_Parse (genEnv true) l "2024-05-06") = false)
    /\ time_Parse (genEnv true) layout "2024-05-06" = Ok (CreatedAt dated_document).
Proof.
  refine (date_layouts_are_tried_in_order (genEnv true) (genFlags "S1" "2024-05-06" false)
            (inputOnly secret) (lines "pw" "pw") _ _ dated_document
            (surjective_pairing _) _ _).
  - vm_compute. tauto.
  - discriminate.
Defined.

End GenerateMoreExamples.

(** * Properties of [main] *)
Section MainProperties.
Import Go Main.

Example VersionInfo_defaults :
  Version (VersionInfo defaults) = "dev"
  /\ GitIsDirty (VersionInfo defaults) = false
  /\ TrimSuffix ("v1.2.3" ++ nl) nl = "v1.2.3"
  /\ TrimSuffix ("v1.2.3" ++ nl ++ nl) nl = "v1.2.3" ++ nl.
Proof. repeat split. Qed.

(** [strings.TrimSuffix] takes the suffix off the end and nothing else. *)
Lemma TrimSuffix_spec s suffix :
  if HasSuffix s suffix then s = TrimSuffix s suffix ++ suffix
  else TrimSuffix s suffix = s.
Proof.
  unfold TrimSuffix.
  destruct (HasSuffix s suffix) eqn:Hsuffix; [|reflexivity].
  induction s as [|c s IH].
  - cbn [HasSuffix] in Hsuffix. rewrite orb_false_r in Hsuffix.
    apply String.eqb_eq in Hsuffix as <-. reflexivity.
  - cbn [HasSuffix] in Hsuffix.
    destruct (String.eqb_spec (String c s) suffix) as [Heq|Hne].
    + rewrite <- Heq, Nat.sub_diag. reflexivity.
    + cbn [orb] in Hsuffix. specialize (IH Hsuffix).
      assert (Hlen : (String.length suffix <= String.length s)%nat).
      { clear - Hsuffix. induction s as [|d s IHs].
        - cbn [HasSuffix] in Hsuffix. rewrite orb_false_r in Hsuffix.
          apply String.eqb_eq in Hsuffix as <-. reflexivity.
        - cbn [HasSuffix] in Hsuffix. apply orb_prop in Hsuffix as [Heq|Htail].
          + apply String.eqb_eq in Heq as <-. reflexivity.
          + specialize (IHs Htail). simpl. lia. }
      replace (String.length (String c s) - String.length suffix)%nat
        with (S (String.length s - String.length suffix)) by (simpl; lia).
      cbn [String.substring].
      change (String c s = String c (String.substring 0
                                       (String.length s - String.length suffix) s
                                     ++ suffix)).
      f_equal. exact IH.
Qed.

Lemma TrimSuffix_trimmed raw : trimmed raw (TrimSuffix raw nl).
Proof.
  pose proof (TrimSuffix_spec raw nl) as Hspec. unfold trimmed.
  destruct (HasSuffix raw nl); [left; exact Hspec | right; auto].
Qed.

(** X17.  [main] takes one trailing line feed, and no more than one,
    off every build variable it copies into the version details, but
    for two: the repository is copied as it is, and the dirty flag is
    set for the value [true] alone, a trailing line feed not being
    forgiven there. *)
Theorem main_trims_one_line_feed (b : BuildVars) :
  trimmed (version b) (Version (VersionInfo b))
  /\ trimmed (date b) (BuildDate (VersionInfo b))
  /\ trimmed (commit b) (GitCommit (VersionInfo b))
  /\ trimmed (ref b) (GitRef (VersionInfo b))
  /\ trimmed (branch b) (GitBranch (VersionInfo b))
  /\ trimmed (tag b) (GitTag (VersionInfo b))
  /\ trimmed (summary b) (GitSummary (VersionInfo b))
  /\ trimmed (GoVersion b) (VersionDetails_GoVersion (VersionInfo b))
  /\ trimmed (arch b) (OsArch (VersionInfo b))
  /\ trimmed (os b) (OsType (VersionInfo b))
  /\ trimmed (builtBy b) (BuiltBy (VersionInfo b))
  /\ GitRepo (VersionInfo b) = repo b
  /\ (GitIsDirty (VersionInfo b) = true <-> dirty b = "true")
  /\ (dirty b = "true" ++ nl -> GitIsDirty (VersionInfo b) = false).
Proof.
  repeat (split; [apply TrimSuffix_trimmed|]).
  split; [reflexivity|]. cbn [GitIsDirty VersionInfo].
  split; [apply String.eqb_eq|]. intros ->. reflexivity.
Qed.

End MainProperties.
